(** * The LED service of the Ultimaker mods: controllers and service facade

    A shallow embedding of

    - [led/controllers/mainLightingController.py] (the status_change mod),
    - [led/controllers/buttonRingController.py] and [led/ledService.py]
      (the ring_api mod),

    followed by the properties of the priority policies, of the setters and of
    the service facade.

    Python objects are records, a method is a function in a state and
    exception monad over the record of its object, a [dict] is a [gmap] with
    string keys, and a Python [float] is a binary64 value ([PrimFloat.float]).
    Calls to the logger are left out: they change no state of the service. *)

From Stdlib Require Import ZArith Floats Lia DecimalString.
From stdpp Require Import base option gmap strings list.

Local Open Scope string_scope.

(** ** Python values *)

Module Py.

(** A value sent over the bus: what a property of a remote object holds. *)
Inductive variant :=
| VNone
| VBool (b : bool)
| VInt (z : Z)
| VStr (s : string).

(** [bool(v)] *)
Definition truthy (v : variant) : bool :=
  match v with
  | VNone => false
  | VBool b => b
  | VInt z => negb (z =? 0)%Z
  | VStr s => negb (String.eqb s EmptyString)
  end.

(** [v == s] for a string literal [s] *)
Definition eq_str (v : variant) (s : string) : bool :=
  match v with
  | VStr t => String.eqb t s
  | _ => false
  end.

(** [str(v)] *)
Definition str (v : variant) : string :=
  match v with
  | VNone => "None"
  | VBool b => if b then "True" else "False"
  | VInt z => NilZero.string_of_int (Z.to_int z)
  | VStr s => s
  end.

(** [min(a, b)] and [max(a, b)] on floats: the first argument is kept
    unless the second is strictly smaller (strictly larger). *)
Definition min (a b : float) : float := if (b <? a)%float then b else a.
Definition max (a b : float) : float := if (a <? b)%float then b else a.

(** [s in l] for a tuple or list of strings *)
Definition contains (l : list string) (s : string) : bool :=
  existsb (String.eqb s) l.

End Py.

(** ** Methods: state and exceptions *)

(** The exceptions the modelled code can raise. *)
Inductive Exception :=
| AssertionError
| KeyError (key : string)
| NotFound (key : string).

(** The outcome of a call: a returned value or a raised exception. *)
Inductive Result (A : Type) :=
| Ok (a : A)
| Raise (e : Exception).
Arguments Ok {A} a.
Arguments Raise {A} e.

(** A method of an object whose state is [S]: it returns or raises, and
    leaves the object in a (possibly changed) state either way. *)
Definition M (S A : Type) : Type := S -> Result A * S.

Definition ret {S A} (a : A) : M S A := fun s => (Ok a, s).

Definition raise {S A} (e : Exception) : M S A := fun s => (Raise e, s).

Definition bind {S A B} (m : M S A) (k : A -> M S B) : M S B :=
  fun s =>
    match m s with
    | (Ok a, s') => k a s'
    | (Raise e, s') => (Raise e, s')
    end.

Definition gets {S A} (f : S -> A) : M S A := fun s => (Ok (f s), s).

Definition modify {S} (f : S -> S) : M S unit := fun s => (Ok tt, f s).

(** [assert cond] *)
Definition assert {S} (cond : bool) : M S unit :=
  if cond then ret tt else raise AssertionError.

(** The state a call leaves behind, whatever its outcome. *)
Definition exec {S A} (m : M S A) (s : S) : S := snd (m s).

Declare Scope py_scope.
Delimit Scope py_scope with py.
Notation "x <- m ;; k" := (bind m (fun x => k))
  (at level 100, m at next level, k at level 200, right associativity) : py_scope.
Notation "m ;;; k" := (bind m (fun _ => k))
  (at level 100, k at level 200, right associativity) : py_scope.
Local Open Scope py_scope.

(** [for x in l: body(x)] *)
Fixpoint for_each {S A} (l : list A) (body : A -> M S unit) : M S unit :=
  match l with
  | [] => ret tt
  | x :: l' => body x ;;; for_each l' body
  end.

(** ** Colors and effects *)

(** [griffin.math.hsvColor.HsvColor]: three attributes, assigned in place.
    Modelled from the spec: the class HsvColor (hue, saturation, value,
    mutable in place; copies are independent values). *)
Record HsvColor := mkHsv { hue : float; saturation : float; value : float }.

Definition set_hue (h : float) (c : HsvColor) : HsvColor :=
  mkHsv h (saturation c) (value c).
Definition set_saturation (s : float) (c : HsvColor) : HsvColor :=
  mkHsv (hue c) s (value c).
Definition set_value (v : float) (c : HsvColor) : HsvColor :=
  mkHsv (hue c) (saturation c) v.

(** The constants of the module [colorTheme] that the controllers use; their
    values are not part of the sources. *)
Class ColorTheme := {
  WHITE : HsvColor;
  BLACK : HsvColor;
  RED : HsvColor;
  GREEN : HsvColor;
  YELLOW : HsvColor;
  PURPLE : HsvColor;
  CYAN : HsvColor;
  ULTIMAKER : HsvColor
}.

(** The effect objects the controllers construct, with their arguments. *)
Inductive Effect :=
| StaticEffect (color : HsvColor)
| FadeEffect (color : HsvColor) (duration : float)
| BlinkEffect (color : HsvColor) (frequency count : float)
| GlowEffect (color_a color_b : HsvColor) (frequency : float).

Inductive Hardware :=
| MainLightingHardware
| BackLightHardware
| ButtonRingHardware
| DummyHardware
| HeadSlotHardware (slot : Z).

(** The base class [abstractController.AbstractController]: what the
    controllers inherit. [Q] is the state of the base object. *)
Class AbstractController (Q : Type) := {
  (** [super().__init__(hardware)] *)
  base_init : Hardware -> Q;
  _queueEffect : Effect -> Q -> Q;
  _hasEffectInQueue : Q -> bool
}.

(** The module [random]: [R] is the state of the generator, and
    [uniform a b] is [random.uniform(a, b)]. *)
Class Random (R : Type) := {
  uniform : float -> float -> R -> float * R
}.

(** What the library promises of [random.uniform(a, b)]: a number [N] with
    [a <= N <= b] when [a <= b]. *)
Definition uniform_in_range {R : Type} {random : Random R} : Prop :=
  forall a b r,
    (a <=? b)%float = true ->
    (a <=? fst (uniform a b r))%float = true /\
    (fst (uniform a b r) <=? b)%float = true.

(** A started [timer.Timer(name, interval, callback)]. *)
Inductive Callback := MainLightingController_update.
Record Timer := mkTimer {
  timer_name : string;
  timer_interval : float;
  timer_callback : Callback
}.

(** ** The persisted settings *)

(** A setting: a boolean or a float. *)
Inductive propval :=
| PBool (b : bool)
| PFloat (f : float).

(** The truth value of a setting in an [if]. *)
Definition prop_truthy (v : propval) : bool :=
  match v with
  | PBool b => b
  | PFloat f => negb (f =? 0)%float
  end.

(** A setting as a number in arithmetic: [True] counts as 1, [False] as 0. *)
Definition prop_float (v : propval) : float :=
  match v with
  | PBool b => if b then 1%float else 0%float
  | PFloat f => f
  end.

(** Modelled from the spec: the settings store [registryFile.RegistryFile]
    (has, get, set, forceSave): the values in memory and the values last
    saved. *)
Module RegistryFile.

Record t := mk { data : gmap string propval; saved : gmap string propval }.

(** Opening the store reads what was saved. *)
Definition load (on_disk : gmap string propval) : t := mk on_disk on_disk.

Definition has (key : string) (r : t) : bool :=
  bool_decide (is_Some (data r !! key)).

Definition set (key : string) (v : propval) (r : t) : t :=
  mk (<[key := v]> (data r)) (saved r).

Definition setAsBoolean (key : string) (b : bool) : t -> t := set key (PBool b).
Definition setAsFloat (key : string) (f : float) : t -> t := set key (PFloat f).

Definition getAsBoolean (key : string) (r : t) : option bool :=
  prop_truthy <$> data r !! key.
Definition getAsFloat (key : string) (r : t) : option float :=
  prop_float <$> data r !! key.

Definition forceSave (r : t) : t := mk (data r) (data r).

End RegistryFile.

(** The remote object [printer], as the bus proxy shows it. *)
Record Printer := mkPrinter {
  state : Py.variant;
  job_state : Py.variant;
  interaction_required : Py.variant
}.

(** ** The main lighting controller *)

Module MainLightingController.

Definition __MODE_FLAG_GLOW_WHEN_FINISHED : string := "glow_when_print_is_finished".
Definition __MODE_FLAG_ON_WHEN_PRINTING : string := "on_when_printing".
Definition __MODE_FLAG_PARTY : string := "party".

Definition RUNTIME_FLAG_AUTHENTICATING : string := "authenticating".
Definition RUNTIME_FLAG_MESSAGE : string := "message".

Definition __ALL_MODE_FLAGS : list string :=
  [__MODE_FLAG_GLOW_WHEN_FINISHED; __MODE_FLAG_ON_WHEN_PRINTING; __MODE_FLAG_PARTY].
Definition __ALL_RUNTIME_FLAGS : list string :=
  [RUNTIME_FLAG_AUTHENTICATING; RUNTIME_FLAG_MESSAGE].

Definition __DEFAULT_MODE_SETTINGS : gmap string bool :=
  <[__MODE_FLAG_GLOW_WHEN_FINISHED := true]>
    (<[__MODE_FLAG_ON_WHEN_PRINTING := false]>
       (<[__MODE_FLAG_PARTY := false]> ∅)).

Definition __STARTUP_FADE_TIME : float := 6.
(** 0.1 and 0.3, as the binary64 values nearest to them *)
Definition __DEFAULT_GLOW_FREQUENCY : float := 0x1.999999999999ap-4.
Definition __DARK_COLOR_BRIGHTNESS_FACTOR : float := 0x1.3333333333333p-2.

(** The object: the base class's state, the attributes of the class, and
    the two globals its methods act on (the random generator and the timers
    started and not yet fired). The property container and the preferences
    are the objects handed to the constructor. *)
Record t {Q R : Type} := mk {
  base : Q;
  __property_container : gmap string propval;
  __preferences : RegistryFile.t;
  __main_color : HsvColor;
  __runtime_flags : gmap string bool;
  __printer_state : Py.variant;
  __job_state : Py.variant;
  timers : list Timer;
  rng : R
}.
Arguments t : clear implicits.

Section Methods.
Context {theme : ColorTheme} {Q R : Type}.
Context {scheduler : AbstractController Q} {random : Random R}.

Abbreviation self := (t Q R).

Definition with_base (f : Q -> Q) (s : self) : self :=
  mk Q R (f (base s)) (__property_container s) (__preferences s) (__main_color s)
     (__runtime_flags s) (__printer_state s) (__job_state s) (timers s) (rng s).
Definition with_property (key : string) (v : propval) (s : self) : self :=
  mk Q R (base s) (<[key := v]> (__property_container s))
     (RegistryFile.set key v (__preferences s)) (__main_color s)
     (__runtime_flags s) (__printer_state s) (__job_state s) (timers s) (rng s).
Definition with_property_container
    (f : gmap string propval -> gmap string propval) (s : self) : self :=
  mk Q R (base s) (f (__property_container s)) (__preferences s) (__main_color s)
     (__runtime_flags s) (__printer_state s) (__job_state s) (timers s) (rng s).
Definition with_preferences (f : RegistryFile.t -> RegistryFile.t) (s : self) : self :=
  mk Q R (base s) (__property_container s) (f (__preferences s)) (__main_color s)
     (__runtime_flags s) (__printer_state s) (__job_state s) (timers s) (rng s).
Definition with_main_color (f : HsvColor -> HsvColor) (s : self) : self :=
  mk Q R (base s) (__property_container s) (__preferences s) (f (__main_color s))
     (__runtime_flags s) (__printer_state s) (__job_state s) (timers s) (rng s).
Definition with_runtime_flag (key : string) (v : bool) (s : self) : self :=
  mk Q R (base s) (__property_container s) (__preferences s) (__main_color s)
     (<[key := v]> (__runtime_flags s)) (__printer_state s) (__job_state s)
     (timers s) (rng s).
Definition with_printer_state (v : Py.variant) (s : self) : self :=
  mk Q R (base s) (__property_container s) (__preferences s) (__main_color s)
     (__runtime_flags s) v (__job_state s) (timers s) (rng s).
Definition with_job_state (v : Py.variant) (s : self) : self :=
  mk Q R (base s) (__property_container s) (__preferences s) (__main_color s)
     (__runtime_flags s) (__printer_state s) v (timers s) (rng s).
Definition with_timer (tm : Timer) (s : self) : self :=
  mk Q R (base s) (__property_container s) (__preferences s) (__main_color s)
     (__runtime_flags s) (__printer_state s) (__job_state s) ((timers s ++ [tm])%list) (rng s).
Definition with_timers (l : list Timer) (s : self) : self :=
  mk Q R (base s) (__property_container s) (__preferences s) (__main_color s)
     (__runtime_flags s) (__printer_state s) (__job_state s) l (rng s).
Definition with_rng (r : R) (s : self) : self :=
  mk Q R (base s) (__property_container s) (__preferences s) (__main_color s)
     (__runtime_flags s) (__printer_state s) (__job_state s) (timers s) r.

(** [self._queueEffect(effect)] and [self._hasEffectInQueue()] *)
Definition queueEffect (e : Effect) : M self unit :=
  modify (with_base (_queueEffect e)).
Definition hasEffectInQueue : M self bool :=
  gets (fun s => _hasEffectInQueue (base s)).

(** [random.uniform(a, b)] *)
Definition random_uniform (a b : float) : M self float :=
  fun s => let (x, r) := uniform a b (rng s) in (Ok x, with_rng r s).

(** [timer.Timer(...).start()] *)
Definition start_timer (tm : Timer) : M self unit := modify (with_timer tm).

(** Modelled from the spec: [PropertyContainer.get(name).get()], the
    value of a property of the container; NotFound when the container has
    no property of that name. *)
Definition property_get (name : string) : M self propval :=
  fun s =>
    match __property_container s !! name with
    | Some v => (Ok v, s)
    | None => (Raise (NotFound name), s)
    end.

(** Modelled from the spec: the mutation of a NonVolatileProperty, up to
    the notification: NotFound when the container has no such property;
    otherwise the value is replaced and written through to the store. *)
Definition property_store (name : string) (v : propval) : M self unit :=
  _ <- property_get name;;
  modify (with_property name v).

Definition getModeFlag (flag_name : string) : M self propval :=
  assert (Py.contains __ALL_MODE_FLAGS flag_name);;;
  property_get flag_name.

Definition getRuntimeFlag (flag_name : string) : M self bool :=
  assert (Py.contains __ALL_RUNTIME_FLAGS flag_name);;;
  gets (fun s => default false (__runtime_flags s !! flag_name)).

Definition __stateIsPrinting (s : self) : bool :=
  Py.eq_str (__printer_state s) "printing".
Definition __stateIsError (s : self) : bool :=
  Py.eq_str (__printer_state s) "error".
Definition __stateIsMaintenance (s : self) : bool :=
  Py.eq_str (__printer_state s) "maintenance".
Definition __stateIsWaitingForCleanup (s : self) : bool :=
  Py.eq_str (__printer_state s) "printing"
  && (Py.eq_str (__job_state s) "wait_cleanup" || Py.eq_str (__job_state s) "none").

Definition __getColor : M self HsvColor :=
  c <- gets __main_color;;
  user_brightness <- property_get "user_brightness";;
  ret (mkHsv (hue c) (saturation c)
             (value c * prop_float user_brightness / 100)%float).

Definition __getDarkColor : M self HsvColor :=
  color <- __getColor;;
  ret (set_value (value color * __DARK_COLOR_BRIGHTNESS_FACTOR)%float color).

(** Update the leds according to the state of the printer. *)
Definition __update : M self unit :=
  party <- getModeFlag __MODE_FLAG_PARTY;;
  if prop_truthy party then
    queued <- hasEffectInQueue;;
    if negb queued then
      h <- random_uniform 0 360;;
      user_brightness <- property_get "user_brightness";;
      queueEffect (FadeEffect (mkHsv h 100 (prop_float user_brightness)) 2);;;
      start_timer (mkTimer "PARTY!" 2 MainLightingController_update)
    else ret tt
  else
    authenticating <- getRuntimeFlag RUNTIME_FLAG_AUTHENTICATING;;
    flagged <- (if authenticating then ret true
                else getRuntimeFlag RUNTIME_FLAG_MESSAGE);;
    if flagged then
      color <- __getColor;;
      dark <- __getDarkColor;;
      queueEffect (GlowEffect color dark __DEFAULT_GLOW_FREQUENCY)
    else
      s <- gets (fun s : self => s);;
      if __stateIsWaitingForCleanup s then queueEffect (StaticEffect PURPLE)
      else if __stateIsPrinting s then queueEffect (StaticEffect CYAN)
      else if __stateIsMaintenance s then queueEffect (StaticEffect YELLOW)
      else if __stateIsError s then queueEffect (StaticEffect RED)
      else queueEffect (StaticEffect GREEN).

(** What a timer's callback runs, and the oldest started timer firing. *)
Definition run_callback (callback : Callback) : M self unit :=
  match callback with
  | MainLightingController_update => __update
  end.

Definition timer_fires : M self unit :=
  pending <- gets timers;;
  match pending with
  | [] => ret tt
  | tm :: rest => modify (with_timers rest);;; run_callback (timer_callback tm)
  end.

(** Modelled from the spec: [PropertyContainer.setPropertyValue]: the
    mutation, then the notification of the subscriber the constructor
    connected ([lambda property, value: self.__update()]). *)
Definition setPropertyValue (name : string) (v : propval) : M self unit :=
  property_store name v;;;
  __update.

Definition resetToDefaultValues : M self unit :=
  for_each __ALL_MODE_FLAGS (fun key =>
    match __DEFAULT_MODE_SETTINGS !! key with
    | Some b => modify (with_preferences (RegistryFile.setAsBoolean key b))
    | None => raise (KeyError key)
    end);;;
  modify (with_preferences (RegistryFile.setAsFloat "user_brightness" 100));;;
  modify (with_preferences RegistryFile.forceSave).

Definition setMainColorHue (h : float) : M self unit :=
  modify (with_main_color (set_hue h));;;
  __update.

Definition setMainColorSaturation (s : float) : M self unit :=
  modify (with_main_color (set_saturation s));;;
  __update.

Definition setMainColorBrightness (brightness : float) : M self unit :=
  modify (with_main_color (set_value brightness));;;
  __update.

Definition getMainColorHue : M self float :=
  gets (fun s => hue (__main_color s)).
Definition getMainColorSaturation : M self float :=
  gets (fun s => saturation (__main_color s)).
Definition getMainColorBrightness : M self float :=
  gets (fun s => value (__main_color s)).

Definition blink (frequency count : float) : M self unit :=
  color <- __getColor;;
  queueEffect (BlinkEffect color frequency count).

Definition setModeFlag (flag_name : string) (new_value : bool) : M self unit :=
  assert (Py.contains __ALL_MODE_FLAGS flag_name);;;
  setPropertyValue flag_name (PBool new_value);;;
  __update.

Definition setRuntimeFlag (flag_name : string) (new_value : bool) : M self unit :=
  assert (Py.contains __ALL_RUNTIME_FLAGS flag_name);;;
  modify (with_runtime_flag flag_name new_value);;;
  __update.

Definition setUserBrightness (user_brightness : float) : M self unit :=
  let user_brightness := Py.max 0 (Py.min user_brightness 100) in
  setPropertyValue "user_brightness" (PFloat user_brightness).

Definition getUserBrightness : M self propval :=
  property_get "user_brightness".

Definition __onPrinterPropertyChanged (property_key : string) (v : Py.variant)
  : M self unit :=
  (if String.eqb property_key "state"
   then modify (with_printer_state v);;; __update
   else ret tt);;;
  (if String.eqb property_key "job_state"
   then modify (with_job_state v);;; __update
   else ret tt).

(** One round of the constructor's loop over the mode flags: the default
    is stored when the store has no value, and the property is added to the
    container with the stored value. *)
Definition add_mode_property (key : string) : M self unit :=
  present <- gets (fun s => RegistryFile.has key (__preferences s));;
  (if negb present then
     match __DEFAULT_MODE_SETTINGS !! key with
     | Some b => modify (with_preferences (RegistryFile.setAsBoolean key b))
     | None => raise (KeyError key)
     end
   else ret tt);;;
  stored <- gets (fun s => RegistryFile.getAsBoolean key (__preferences s));;
  match stored with
  | Some b => modify (with_property_container (insert key (PBool b)))
  | None => raise (KeyError key)
  end.

Definition add_user_brightness_property : M self unit :=
  present <- gets (fun s => RegistryFile.has "user_brightness" (__preferences s));;
  (if negb present then
     modify (with_preferences (RegistryFile.setAsFloat "user_brightness" 100))
   else ret tt);;;
  stored <- gets (fun s => RegistryFile.getAsFloat "user_brightness" (__preferences s));;
  match stored with
  | Some f => modify (with_property_container (insert "user_brightness" (PFloat f)))
  | None => raise (KeyError "user_brightness")
  end.

(** The constructor. The attributes it assigns after the loops (the main
    color, the runtime flags, the printer's states) are set in the record it
    starts from: the loops do not read them. [random_state] is the state of
    the random generator when the object is built; no timer is started
    before. *)
Definition __init__ (hardware : Hardware) (property_container : gmap string propval)
    (preferences : RegistryFile.t) (printer : Printer) (random_state : R)
  : Result unit * self :=
  (for_each __ALL_MODE_FLAGS add_mode_property;;;
   add_user_brightness_property;;;
   color <- __getColor;;
   queueEffect (FadeEffect color __STARTUP_FADE_TIME))
    (mk Q R (base_init hardware) property_container preferences WHITE ∅
        (state printer) (job_state printer) [] random_state).

End Methods.

End MainLightingController.

(** ** The button ring controller *)

Module ButtonRingController.

Definition __STARTUP_FADE_TIME : float := 6.

Record t {Q : Type} := mk {
  base : Q;
  __printer_state : Py.variant;
  __job_state : Py.variant;
  __interaction_required : Py.variant;
  __customTheme : HsvColor
}.
Arguments t : clear implicits.

Section Methods.
Context {theme : ColorTheme} {Q : Type} {scheduler : AbstractController Q}.

Abbreviation self := (t Q).

Definition with_base (f : Q -> Q) (s : self) : self :=
  mk Q (f (base s)) (__printer_state s) (__job_state s)
     (__interaction_required s) (__customTheme s).
Definition with_printer_state (v : Py.variant) (s : self) : self :=
  mk Q (base s) v (__job_state s) (__interaction_required s) (__customTheme s).
Definition with_job_state (v : Py.variant) (s : self) : self :=
  mk Q (base s) (__printer_state s) v (__interaction_required s) (__customTheme s).
Definition with_interaction_required (v : Py.variant) (s : self) : self :=
  mk Q (base s) (__printer_state s) (__job_state s) v (__customTheme s).
Definition with_customTheme (f : HsvColor -> HsvColor) (s : self) : self :=
  mk Q (base s) (__printer_state s) (__job_state s)
     (__interaction_required s) (f (__customTheme s)).

Definition queueEffect (e : Effect) : M self unit :=
  modify (with_base (_queueEffect e)).

(** Update the leds according to the state of the printer. The static
    effect is handed the theme object itself; the model hands it the value
    the theme has at that moment. *)
Definition __update : M self unit :=
  s <- gets (fun s : self => s);;
  if Py.eq_str (__printer_state s) "error" then
    queueEffect (GlowEffect BLACK RED 0.5)
  else if Py.truthy (__interaction_required s) then
    queueEffect (GlowEffect BLACK YELLOW 0.5)
  else if Py.eq_str (__printer_state s) "printing"
          && Py.eq_str (__job_state s) "wait_cleanup" then
    queueEffect (GlowEffect BLACK PURPLE 0.5)
  else if Py.eq_str (__printer_state s) "printing"
          && Py.eq_str (__job_state s) "paused" then
    queueEffect (GlowEffect BLACK CYAN 0.5)
  else
    queueEffect (StaticEffect (__customTheme s)).

Definition __init__ (hardware : Hardware) (printer : Printer) : self :=
  mk Q (_queueEffect (FadeEffect ULTIMAKER __STARTUP_FADE_TIME) (base_init hardware))
     (state printer) (job_state printer) (interaction_required printer) ULTIMAKER.

Definition __onPrinterPropertyChanged (property_key : string) (v : Py.variant)
  : M self unit :=
  (if String.eqb property_key "state"
   then modify (with_printer_state v);;; __update
   else ret tt);;;
  (if String.eqb property_key "job_state"
   then modify (with_job_state v);;; __update
   else ret tt);;;
  (if String.eqb property_key "interaction_required"
   then modify (with_interaction_required v);;; __update
   else ret tt).

Definition getCustomRingHue : M self float :=
  gets (fun s => hue (__customTheme s)).
Definition getCustomRingSaturation : M self float :=
  gets (fun s => saturation (__customTheme s)).
Definition getCustomRingBrightness : M self float :=
  gets (fun s => value (__customTheme s)).

Definition setCustomRingHue (h : float) : M self unit :=
  modify (with_customTheme (set_hue h));;;
  __update.
Definition setCustomRingSaturation (s : float) : M self unit :=
  modify (with_customTheme (set_saturation s));;;
  __update.
Definition setCustomRingBrightness (brightness : float) : M self unit :=
  modify (with_customTheme (set_value brightness));;;
  __update.

End Methods.

End ButtonRingController.

(** The class [DebugLedsHardware] of the debug leds is not part of the
    sources: [D] is the state of such an object, and [turnOn(led)] and
    [turnOff(led)] are methods of which nothing is known; they may raise. *)
Class DebugLedsHardware (D : Type) := {
  DebugLedsHardware_init : D;
  turnOn : string -> M D unit;
  turnOff : string -> M D unit
}.

(** ** The service *)

Module LedService.

(** Controllers the service builds and keeps no reference to: the button
    ring controller on dummy hardware, and the head slot controllers (whose
    class is not part of the sources). *)
Inductive Detached {Q : Type} :=
| DetachedButtonRing (c : ButtonRingController.t Q)
| DetachedHeadSlot (slot : Z) (hardware : Hardware).
Arguments Detached : clear implicits.

(** The back light controller, whose class is not part of the sources. *)
Inductive BackLightController := BackLightController_on (hardware : Hardware).

(** The object, and what it reaches in its surroundings: the printer and
    the machine's BOM behind the two bus proxies, the content of the file
    main_lighting.json, and the state of the random generator handed to the
    main controller when it is built. Once the main controller is built the
    property container and the preferences are the ones it holds. [D] is
    the state of the debug leds object. *)
Record t {Q R D : Type} := mk {
  __property_container : gmap string propval;
  __running : bool;
  __main_controller : option (MainLightingController.t Q R);
  __button_ring_controller : option (ButtonRingController.t Q);
  __back_light_controller : option BackLightController;
  __printer : Printer;
  machine_bom : Py.variant;
  __debugLeds : D;
  main_lighting_json : gmap string propval;
  random_state : R;
  detached : list (Detached Q)
}.
Arguments t : clear implicits.

Section Methods.
Context {theme : ColorTheme} {Q R : Type}.
Context {scheduler : AbstractController Q} {random : Random R}.
Context {D : Type} {debug_leds : DebugLedsHardware D}.

Abbreviation self := (t Q R D).

Definition with_running (b : bool) (s : self) : self :=
  mk Q R D (__property_container s) b (__main_controller s)
     (__button_ring_controller s) (__back_light_controller s) (__printer s)
     (machine_bom s) (__debugLeds s) (main_lighting_json s) (random_state s)
     (detached s).
Definition with_main_controller (c : option (MainLightingController.t Q R))
    (s : self) : self :=
  mk Q R D (__property_container s) (__running s) c
     (__button_ring_controller s) (__back_light_controller s) (__printer s)
     (machine_bom s) (__debugLeds s) (main_lighting_json s) (random_state s)
     (detached s).
Definition with_button_ring_controller (c : option (ButtonRingController.t Q))
    (s : self) : self :=
  mk Q R D (__property_container s) (__running s) (__main_controller s)
     c (__back_light_controller s) (__printer s)
     (machine_bom s) (__debugLeds s) (main_lighting_json s) (random_state s)
     (detached s).
Definition with_back_light_controller (c : option BackLightController)
    (s : self) : self :=
  mk Q R D (__property_container s) (__running s) (__main_controller s)
     (__button_ring_controller s) c (__printer s)
     (machine_bom s) (__debugLeds s) (main_lighting_json s) (random_state s)
     (detached s).
Definition with_printer (p : Printer) (s : self) : self :=
  mk Q R D (__property_container s) (__running s) (__main_controller s)
     (__button_ring_controller s) (__back_light_controller s) p
     (machine_bom s) (__debugLeds s) (main_lighting_json s) (random_state s)
     (detached s).
Definition with_debugLeds (d : D) (s : self) : self :=
  mk Q R D (__property_container s) (__running s) (__main_controller s)
     (__button_ring_controller s) (__back_light_controller s) (__printer s)
     (machine_bom s) d (main_lighting_json s) (random_state s) (detached s).
Definition with_detached (f : list (Detached Q) -> list (Detached Q))
    (s : self) : self :=
  mk Q R D (__property_container s) (__running s) (__main_controller s)
     (__button_ring_controller s) (__back_light_controller s) (__printer s)
     (machine_bom s) (__debugLeds s) (main_lighting_json s) (random_state s)
     (f (detached s)).

(** [if self.__main_controller is None: return default] and then
    [return self.__main_controller.method(...)] *)
Definition on_main_controller {A} (default : A)
    (method : M (MainLightingController.t Q R) A) : M self A :=
  fun s =>
    match __main_controller s with
    | None => (Ok default, s)
    | Some c => let (r, c') := method c in (r, with_main_controller (Some c') s)
    end.

(** The same for [self.__button_ring_controller]. *)
Definition on_button_ring_controller {A} (default : A)
    (method : M (ButtonRingController.t Q) A) : M self A :=
  fun s =>
    match __button_ring_controller s with
    | None => (Ok default, s)
    | Some c => let (r, c') := method c in (r, with_button_ring_controller (Some c') s)
    end.

Definition resetSettings (reset_type : string) : M self unit :=
  on_main_controller tt MainLightingController.resetToDefaultValues.

Definition setMainLightingHue (h : float) : M self unit :=
  on_main_controller tt (MainLightingController.setMainColorHue h).
Definition getMainLightingHue : M self float :=
  on_main_controller 0%float MainLightingController.getMainColorHue.
Definition setMainLightingSaturation (s : float) : M self unit :=
  on_main_controller tt (MainLightingController.setMainColorSaturation s).
Definition getMainLightingSaturation : M self float :=
  on_main_controller 0%float MainLightingController.getMainColorSaturation.
Definition setMainLightingBrightness (brightness : float) : M self unit :=
  on_main_controller tt (MainLightingController.setMainColorBrightness brightness).
Definition getMainLightingBrightness : M self float :=
  on_main_controller 0%float MainLightingController.getMainColorBrightness.

Definition setRingLightingHue (h : float) : M self unit :=
  on_button_ring_controller tt (ButtonRingController.setCustomRingHue h).
Definition getRingLightingHue : M self float :=
  on_button_ring_controller 0%float ButtonRingController.getCustomRingHue.
Definition setRingLightingSaturation (s : float) : M self unit :=
  on_button_ring_controller tt (ButtonRingController.setCustomRingSaturation s).
Definition getRingLightingSaturation : M self float :=
  on_button_ring_controller 0%float ButtonRingController.getCustomRingSaturation.
Definition setRingLightingBrightness (brightness : float) : M self unit :=
  on_button_ring_controller tt (ButtonRingController.setCustomRingBrightness brightness).
Definition getRingLightingBrightness : M self float :=
  on_button_ring_controller 0%float ButtonRingController.getCustomRingBrightness.

Definition setMainLightingUserBrightness (brightness : float) : M self unit :=
  on_main_controller tt (MainLightingController.setUserBrightness brightness).
(** The bus sends the result as a double. *)
Definition getMainLightingUserBrightness : M self float :=
  on_main_controller 0%float
    (v <- MainLightingController.getUserBrightness;; ret (prop_float v)).

Definition setMainLightingModeFlag (flag_name : string) (new_mode : bool)
  : M self unit :=
  on_main_controller tt (MainLightingController.setModeFlag flag_name new_mode).
(** The bus sends the result as a boolean. *)
Definition getMainLightingModeFlag (flag_name : string) : M self bool :=
  on_main_controller false
    (v <- MainLightingController.getModeFlag flag_name;; ret (prop_truthy v)).
Definition setMainLightingRuntimeFlag (flag_name : string) (new_mode : bool)
  : M self unit :=
  on_main_controller tt (MainLightingController.setRuntimeFlag flag_name new_mode).
Definition getMainLightingRuntimeFlag (flag_name : string) : M self bool :=
  on_main_controller false (MainLightingController.getRuntimeFlag flag_name).

Definition blinkMainLighting (frequency count : float) : M self unit :=
  on_main_controller tt (MainLightingController.blink frequency count).

(** [self.__debugLeds.method(...)]: the call runs on the object the
    service holds, and what it raises leaves the service. *)
Definition on_debugLeds {A} (method : M D A) : M self A :=
  fun s => let (r, d) := method (__debugLeds s) in (r, with_debugLeds d s).

(** Simple function to handle turning on and off the debug leds. *)
Definition debugLed (led : string) (toggle : bool) : M self unit :=
  if toggle then on_debugLeds (turnOn led)
  else on_debugLeds (turnOff led).

(** Start the led service: this is done when the printer is no longer
    booting. It creates the controllers with the hardware instances. *)
Definition __start : M self unit :=
  running <- gets __running;;
  if running then ret tt
  else
    modify (with_running true);;;
    s <- gets (fun s : self => s);;
    let preferences := RegistryFile.load (main_lighting_json s) in
    match MainLightingController.__init__ MainLightingHardware
            (__property_container s) preferences (__printer s) (random_state s) with
    | (Raise e, _) => raise e
    | (Ok _, main) =>
        modify (with_main_controller (Some main));;;
        modify (with_back_light_controller
                  (Some (BackLightController_on BackLightHardware)));;;
        (if Py.contains ["9066"; "9511"] (Py.str (machine_bom s)) then
           modify (with_button_ring_controller
                     (Some (ButtonRingController.__init__
                              ButtonRingHardware (__printer s))))
         else
           modify (with_detached (fun l =>
                     (l ++ [DetachedButtonRing
                              (ButtonRingController.__init__
                                 DummyHardware (__printer s))])%list)));;;
        modify (with_detached (fun l =>
                  (l ++ [DetachedHeadSlot 0 (HeadSlotHardware 0);
                         DetachedHeadSlot 1 (HeadSlotHardware 1)])%list))
    end.

(** Private printer state changed event. *)
Definition _onPrinterStateChanged (new_state : Py.variant) : M self unit :=
  if negb (Py.eq_str new_state "booting") then __start else ret tt.

(** Callback from the printer property change. *)
Definition __onPrinterPropertyChanged (key : string) (v : Py.variant)
  : M self unit :=
  if String.eqb key "state" then _onPrinterStateChanged v else ret tt.

(** The object after the constructor has run, from what it finds around
    it. The constructor's last statement calls the state change event with
    the printer's state. *)
Definition __init__ (printer : Printer) (bom : Py.variant)
    (on_disk : gmap string propval) (r : R) : self :=
  exec (_onPrinterStateChanged (state printer))
       (mk Q R D ∅ false None None None printer bom DebugLedsHardware_init
           on_disk r []).

(** *** What happens to the service during its life *)

(** The printer changes one of its properties and signals it. *)
Definition printer_set (key : string) (v : Py.variant) (p : Printer) : Printer :=
  if String.eqb key "state" then mkPrinter v (job_state p) (interaction_required p)
  else if String.eqb key "job_state" then mkPrinter (state p) v (interaction_required p)
  else if String.eqb key "interaction_required" then mkPrinter (state p) (job_state p) v
  else p.

Definition signal_detached (key : string) (v : Py.variant) (d : Detached Q)
  : Detached Q :=
  match d with
  | DetachedButtonRing c =>
      DetachedButtonRing (exec (ButtonRingController.__onPrinterPropertyChanged key v) c)
  | DetachedHeadSlot slot hardware => DetachedHeadSlot slot hardware
  end.

(** The signal propertyChanged reaches the handlers connected when it is
    sent, in the order of their connection: the service's, then those of
    the controllers built before. A handler that raises stops alone. *)
Definition propertyChanged (key : string) (v : Py.variant) (s : self) : self :=
  let s := with_printer (printer_set key v (__printer s)) s in
  let started := __running s in
  let s := exec (__onPrinterPropertyChanged key v) s in
  if started then
    let s := exec (on_main_controller tt
                     (MainLightingController.__onPrinterPropertyChanged key v)) s in
    let s := exec (on_button_ring_controller tt
                     (ButtonRingController.__onPrinterPropertyChanged key v)) s in
    with_detached (map (signal_detached key v)) s
  else s.

(** The oldest timer of the main controller fires. *)
Definition timerFired : M self unit :=
  on_main_controller tt MainLightingController.timer_fires.

(** A call of the service over the bus, a signal of the printer, or a
    timer that fires. *)
Inductive Event :=
| Call_resetSettings (reset_type : string)
| Call_setMainLightingHue (h : float)
| Call_getMainLightingHue
| Call_setMainLightingSaturation (s : float)
| Call_getMainLightingSaturation
| Call_setMainLightingBrightness (brightness : float)
| Call_getMainLightingBrightness
| Call_setRingLightingHue (h : float)
| Call_getRingLightingHue
| Call_setRingLightingSaturation (s : float)
| Call_getRingLightingSaturation
| Call_setRingLightingBrightness (brightness : float)
| Call_getRingLightingBrightness
| Call_setMainLightingUserBrightness (brightness : float)
| Call_getMainLightingUserBrightness
| Call_setMainLightingModeFlag (flag_name : string) (new_mode : bool)
| Call_getMainLightingModeFlag (flag_name : string)
| Call_setMainLightingRuntimeFlag (flag_name : string) (new_mode : bool)
| Call_getMainLightingRuntimeFlag (flag_name : string)
| Call_blinkMainLighting (frequency count : float)
| Call_debugLed (led : string) (toggle : bool)
| Signal_propertyChanged (key : string) (v : Py.variant)
| Timer_fired.

Definition step (s : self) (e : Event) : self :=
  match e with
  | Call_resetSettings reset_type => exec (resetSettings reset_type) s
  | Call_setMainLightingHue h => exec (setMainLightingHue h) s
  | Call_getMainLightingHue => exec getMainLightingHue s
  | Call_setMainLightingSaturation x => exec (setMainLightingSaturation x) s
  | Call_getMainLightingSaturation => exec getMainLightingSaturation s
  | Call_setMainLightingBrightness x => exec (setMainLightingBrightness x) s
  | Call_getMainLightingBrightness => exec getMainLightingBrightness s
  | Call_setRingLightingHue h => exec (setRingLightingHue h) s
  | Call_getRingLightingHue => exec getRingLightingHue s
  | Call_setRingLightingSaturation x => exec (setRingLightingSaturation x) s
  | Call_getRingLightingSaturation => exec getRingLightingSaturation s
  | Call_setRingLightingBrightness x => exec (setRingLightingBrightness x) s
  | Call_getRingLightingBrightness => exec getRingLightingBrightness s
  | Call_setMainLightingUserBrightness x => exec (setMainLightingUserBrightness x) s
  | Call_getMainLightingUserBrightness => exec getMainLightingUserBrightness s
  | Call_setMainLightingModeFlag n b => exec (setMainLightingModeFlag n b) s
  | Call_getMainLightingModeFlag n => exec (getMainLightingModeFlag n) s
  | Call_setMainLightingRuntimeFlag n b => exec (setMainLightingRuntimeFlag n b) s
  | Call_getMainLightingRuntimeFlag n => exec (getMainLightingRuntimeFlag n) s
  | Call_blinkMainLighting f c => exec (blinkMainLighting f c) s
  | Call_debugLed led toggle => exec (debugLed led toggle) s
  | Signal_propertyChanged key v => propertyChanged key v s
  | Timer_fired => exec timerFired s
  end.

(** The service after a sequence of events. *)
Definition run (events : list Event) (s : self) : self :=
  fold_left step events s.

End Methods.

End LedService.

(** ** Instances to run the model on *)

(** Modelled from the spec: the scheduler of the base class
    AbstractController (enqueueEffect and hasEffectInQueue): a steady-state
    effect (Static, Glow) removes the other steady-state effects queued, and
    the effect is appended; an effect is in the queue when more than one entry
    is pending. *)
Module SpecScheduler.

Definition steady (e : Effect) : bool :=
  match e with
  | StaticEffect _ | GlowEffect _ _ _ => true
  | FadeEffect _ _ | BlinkEffect _ _ _ => false
  end.

Record t := mk { hardware : Hardware; queue : list Effect }.

Definition enqueueEffect (e : Effect) (q : t) : t :=
  mk (hardware q)
     ((if steady e then filter (fun x => negb (steady x)) (queue q) else queue q)
        ++ [e])%list.

Definition hasEffectInQueue (q : t) : bool := (1 <? length (queue q))%nat.

#[export] Instance scheduler : AbstractController t := {|
  base_init hw := mk hw [];
  _queueEffect := enqueueEffect;
  _hasEffectInQueue := hasEffectInQueue
|}.

End SpecScheduler.

(** A theme to run the model on: the values of the constants of colorTheme
    are not part of the sources. *)
Module SampleTheme.

#[export] Instance theme : ColorTheme := {|
  WHITE := mkHsv 0 0 100;
  BLACK := mkHsv 0 0 0;
  RED := mkHsv 0 100 100;
  GREEN := mkHsv 120 100 100;
  YELLOW := mkHsv 60 100 100;
  PURPLE := mkHsv 280 100 100;
  CYAN := mkHsv 180 100 100;
  ULTIMAKER := mkHsv 200 80 100
|}.

End SampleTheme.



(** A generator to run the model on: a supply of coin flips, and [uniform]
    returns one of the two ends of the range. *)
Module CoinRandom.

Definition flip (a b : float) (r : list bool) : float * list bool :=
  match r with
  | [] => (a, [])
  | coin :: r' => (if coin then b else a, r')
  end.

#[export] Instance random : Random (list bool) := {| uniform := flip |}.

End CoinRandom.

(** A debug leds object to run the model on: it records which leds are
    on. *)
Module SampleDebugLeds.

Definition t : Type := gmap string bool.

#[export] Instance hardware : DebugLedsHardware t := {|
  DebugLedsHardware_init := ∅;
  turnOn led := modify (insert led true);
  turnOff led := modify (insert led false)
|}.

End SampleDebugLeds.

(** ** The vocabulary of the statements *)

Module MainLightingSpec.
Import MainLightingController.

Section Vocabulary.
Context {theme : ColorTheme} {Q R : Type}.
Context {scheduler : AbstractController Q} {random : Random R}.

Abbreviation self := (MainLightingController.t Q R).

(** The value of a runtime flag, [False] when it was never set. *)
Definition runtime_flag (name : string) (s : self) : bool :=
  default false (__runtime_flags s !! name).

(** The color [__getColor] builds, and its dark version. *)
Definition shown_color (user_brightness : propval) (s : self) : HsvColor :=
  mkHsv (hue (__main_color s)) (saturation (__main_color s))
        (value (__main_color s) * prop_float user_brightness / 100)%float.

Definition dark_color (user_brightness : propval) (s : self) : HsvColor :=
  mkHsv (hue (__main_color s)) (saturation (__main_color s))
        (value (__main_color s) * prop_float user_brightness / 100
         * __DARK_COLOR_BRIGHTNESS_FACTOR)%float.

(** The state after [self._queueEffect(e)]. *)
Definition queued (e : Effect) (s : self) : self :=
  with_base (_queueEffect e) s.

(** The constructor has added the four properties to the container. *)
Definition constructed (s : self) : bool :=
  forallb (fun key => bool_decide (is_Some (__property_container s !! key)))
          (__ALL_MODE_FLAGS ++ ["user_brightness"])%list.

(** The static color of the last five rules of the policy. *)
Definition status_color (s : self) : HsvColor :=
  if Py.eq_str (__printer_state s) "printing"
     && (Py.eq_str (__job_state s) "wait_cleanup"
         || Py.eq_str (__job_state s) "none")
  then PURPLE
  else if Py.eq_str (__printer_state s) "printing" then CYAN
  else if Py.eq_str (__printer_state s) "maintenance" then YELLOW
  else if Py.eq_str (__printer_state s) "error" then RED
  else GREEN.

(** What the party rule does when nothing is queued. *)
Definition party_fade (ub : propval) (s : self) : self :=
  let (h, r) := uniform 0 360 (rng s) in
  with_timer (mkTimer "PARTY!" 2 MainLightingController_update)
    (queued (FadeEffect (mkHsv h 100 (prop_float ub)) 2) (with_rng r s)).

(** A method that leaves the four properties in the container. *)
Definition keeps_constructed {A : Type} (m : M self A) : Prop :=
  forall s, constructed s = true -> constructed (exec m s) = true.

(** The update leaves the attributes of the controller as they are, the
    base object, the timers and the random generator apart. *)
Definition same_attributes (s s' : self) : Prop :=
  __property_container s' = __property_container s /\
  __preferences s' = __preferences s /\
  __main_color s' = __main_color s /\
  __runtime_flags s' = __runtime_flags s /\
  __printer_state s' = __printer_state s /\
  __job_state s' = __job_state s.

End Vocabulary.

#[local] Existing Instance SampleTheme.theme.
#[local] Existing Instance SpecScheduler.scheduler.
#[local] Existing Instance CoinRandom.random.

(** A controller on the sample instances, as the constructor leaves it on
    a machine with no saved settings. *)
Definition sample (printer_state job : string)
  : MainLightingController.t SpecScheduler.t (list bool) :=
  snd (__init__ (theme := SampleTheme.theme)
         (scheduler := SpecScheduler.scheduler)
         MainLightingHardware ∅
         (RegistryFile.load ∅)
         (mkPrinter (Py.VStr printer_state) (Py.VStr job) (Py.VBool false))
         [true; false; true]).

(** The sample controller with the party flag set; its queue holds the
    startup fade alone. *)
Definition partying : MainLightingController.t SpecScheduler.t (list bool) :=
  with_property "party" (PBool true) (sample "idle" "none").

(** The sample controller while a message is on the screen. *)
Definition messaging : MainLightingController.t SpecScheduler.t (list bool) :=
  with_runtime_flag "message" true
    (with_property "user_brightness" (PFloat 50) (sample "idle" "none")).

End MainLightingSpec.

Module ButtonRingSpec.
Import ButtonRingController.

(** A button ring controller on the sample instances, built while the
    printer is in the given states. *)
Definition sample (printer_state job : string) (interaction : bool)
  : ButtonRingController.t SpecScheduler.t :=
  __init__ (theme := SampleTheme.theme) (scheduler := SpecScheduler.scheduler)
    ButtonRingHardware
    (mkPrinter (Py.VStr printer_state) (Py.VStr job) (Py.VBool interaction)).

End ButtonRingSpec.

Module LedServiceSpec.
Import LedService.

Section Vocabulary.
Context {theme : ColorTheme} {Q R : Type}.
Context {scheduler : AbstractController Q} {random : Random R}.
Context {D : Type} {debug_leds : DebugLedsHardware D}.

Abbreviation self := (LedService.t Q R D).

(** What every operation on the ring answers while the service holds no
    button ring controller. *)
Definition ring_facade_degraded (s : self) : Prop :=
  getRingLightingHue s = (Ok 0%float, s) /\
  getRingLightingSaturation s = (Ok 0%float, s) /\
  getRingLightingBrightness s = (Ok 0%float, s) /\
  (forall x, setRingLightingHue x s = (Ok tt, s)) /\
  (forall x, setRingLightingSaturation x s = (Ok tt, s)) /\
  (forall x, setRingLightingBrightness x s = (Ok tt, s)).

(** The main controller, once the service holds one, holds the four
    properties. *)
Definition main_constructed (s : self) : Prop :=
  forall c, __main_controller s = Some c -> MainLightingSpec.constructed c = true.

(** The machine's BOM is [bom] and the service holds no button ring
    controller. *)
Definition no_ring (bom : Py.variant) (s : self) : Prop :=
  machine_bom s = bom /\ __button_ring_controller s = None.

End Vocabulary.

#[local] Existing Instance SampleTheme.theme.
#[local] Existing Instance SpecScheduler.scheduler.
#[local] Existing Instance CoinRandom.random.
#[local] Existing Instance SampleDebugLeds.hardware.

(** A service built while the printer boots. *)
Definition booting : LedService.t SpecScheduler.t (list bool) SampleDebugLeds.t :=
  __init__ (mkPrinter (Py.VStr "booting") (Py.VStr "none") (Py.VBool false))
    (Py.VInt 9066) ∅ [true; false].

(** A machine that is no UM3: the printer leaves its booting state, then
    the ring and the main lighting are set over the bus. *)
Definition other_machine : LedService.t SpecScheduler.t (list bool) SampleDebugLeds.t :=
  run [Signal_propertyChanged "state" (Py.VStr "idle");
       Call_setRingLightingHue 120;
       Call_setMainLightingHue 200]
    (__init__ (mkPrinter (Py.VStr "booting") (Py.VStr "none") (Py.VBool false))
       (Py.VInt 213482) ∅ [true; false]).


(** A UM3 (BOM 9066) on which the same happens. *)
Definition um3 : LedService.t SpecScheduler.t (list bool) SampleDebugLeds.t :=
  run [Signal_propertyChanged "state" (Py.VStr "idle");
       Call_setRingLightingHue 120;
       Call_setMainLightingHue 200]
    (__init__ (mkPrinter (Py.VStr "booting") (Py.VStr "none") (Py.VBool false))
       (Py.VInt 9066) ∅ [true; false]).

End LedServiceSpec.

(** ** The web server *)

(** The parts of [interface/http/um3server.py] that compute: the handler of
    a 404, the network flags, and the temperature and hotend offset
    helpers. *)
Module UM3Server.

Definition API_BASE_PATH : string := "api".

(** What the handler of a 404 answers: the JSON error of the base class
    [Server] (not part of the sources) for the exception, or a redirect. *)
Inductive Response {E : Type} :=
| JSONError (exception : E)
| Redirect (location : string) (code : Z).
Arguments Response : clear implicits.

(** [request_path] is [flask.request.path]. *)
Definition _handleFileNotFound {E : Type} (request_path : string) (exception : E)
  : Response E :=
  if String.eqb request_path "/"
     || String.prefix ("/" ++ API_BASE_PATH) request_path
  then JSONError exception
  else Redirect "/" 302.

(** The method of the authentication controller that the callback calls. *)
Inductive AuthenticationCall := disableAuthentication | enableAuthentication.

Definition _onNetworkModeChanged (new_mode : string) : AuthenticationCall :=
  if String.eqb new_mode "WIFI SETUP" then disableAuthentication
  else enableAuthentication.

(** The get functions of [_setupWifiInterface] and [_setupEthernetInterface],
    of what [getConnectedMethod()] and [getMode()] return. *)
Definition wifi_connected (connected_method : string) : bool :=
  Py.contains ["WIFI"; "HOTSPOT"] connected_method.
Definition wifi_enabled (mode : string) : bool :=
  Py.contains ["AUTO"; "HOTSPOT"; "WIFI SETUP"; "WIRELESS"] mode.
Definition ethernet_connected (connected_method : string) : bool :=
  Py.contains ["ETHERNET"] connected_method.
Definition ethernet_enabled (mode : string) : bool :=
  Py.contains ["AUTO"; "CABLE"] mode.

(** The call [owner.setProperty(property, value)] on the remote object at the
    path [owner]. *)
Record SetProperty := mkSetProperty {
  owner : string;
  property : string;
  sent : float
}.

(** [tune_offset_temperature path] is what
    [RemoteObject("printer", path).getProperty("tune_offset_temperature")]
    returns. *)
Definition __setTargetTemperature (tune_offset_temperature : string -> float)
    (property_owner : string) (new_temperature : float) : SetProperty :=
  let new_temperature :=
    if negb (new_temperature =? 0)%float
    then (new_temperature - tune_offset_temperature property_owner)%float
    else new_temperature in
  mkSetProperty property_owner "pre_tune_target_temperature" new_temperature.

(** A property of a hotend slot: the empty string while it is not set, or a
    number. *)
Inductive slot_value :=
| NotSet
| Number (f : float).

Record HotendSlot := mkHotendSlot {
  x_offset : slot_value;
  y_offset : slot_value;
  z_height : slot_value
}.

(** [v != ""] and [v == float("inf")] *)
Definition is_set (v : slot_value) : bool :=
  match v with NotSet => false | Number _ => true end.
Definition is_inf (v : slot_value) : bool :=
  match v with NotSet => false | Number f => (f =? infinity)%float end.

(** The get functions of the offset of a hotend in [_setupHotendInterface]:
    [hotend_slot] is the slot of the hotend, [hotend_slot_0] the first
    slot. *)
Definition offset_x (hotend_slot : HotendSlot) (hotend_offset_1_x : float) : float :=
  match x_offset hotend_slot with
  | Number f => f
  | NotSet => (0 + hotend_offset_1_x)%float
  end.

Definition offset_y (hotend_slot : HotendSlot) (hotend_offset_1_y : float) : float :=
  match y_offset hotend_slot with
  | Number f => f
  | NotSet => (0 + hotend_offset_1_y)%float
  end.

Definition offset_z (hotend_slot hotend_slot_0 : HotendSlot) : float :=
  match z_height hotend_slot, z_height hotend_slot_0 with
  | Number z, Number z0 => (z - z0)%float
  | _, _ => 0%float
  end.

Definition offset_state (hotend_slot hotend_slot_0 : HotendSlot) : string :=
  if negb (is_set (x_offset hotend_slot))
     || is_inf (z_height hotend_slot)
     || is_inf (z_height hotend_slot_0)
  then "invalid"
  else "valid".

End UM3Server.

(** ** More vocabulary: what methods preserve, and the life of the service *)

(** A method that keeps a property of its object, whatever it returns. *)
Definition preserves {S A : Type} (P : S -> Prop) (m : M S A) : Prop :=
  forall s, P s -> P (exec m s).

(** A method that returns, and raises nothing, on the object [s]. *)
Definition returns {S A : Type} (m : M S A) (s : S) : Prop :=
  exists a, fst (m s) = Ok a.

(** The base object of a controller built on the hardware [hw]: what
    [super().__init__(hw)] leaves, with the effects enqueued since. *)
Definition on_hardware {Q : Type} {scheduler : AbstractController Q}
    (hw : Hardware) (q : Q) : Prop :=
  exists effects : list Effect,
    q = fold_left (fun q e => _queueEffect e q) effects (base_init hw).

Module MainLightingView.
Import MainLightingController.

Section Vocabulary.
Context {theme : ColorTheme} {Q R : Type}.
Context {scheduler : AbstractController Q} {random : Random R}.

(** A constructed controller that has seen the printer in the state [p]
    with the job in the state [j]. *)
Definition sees (p j : Py.variant) (c : MainLightingController.t Q R) : Prop :=
  MainLightingSpec.constructed c = true /\
  __printer_state c = p /\ __job_state c = j.

(** A controller built on the hardware [hw] that holds its four
    properties. *)
Definition built_on (hw : Hardware) (c : MainLightingController.t Q R) : Prop :=
  MainLightingSpec.constructed c = true /\ on_hardware hw (base c).

(** The store once a missing value of [key] is replaced by its default. *)
Definition with_default (key : string) (v : propval) (r : RegistryFile.t)
  : RegistryFile.t :=
  if RegistryFile.has key r then r else RegistryFile.set key v r.

(** The store the constructor leaves: every missing setting is replaced by
    its default. *)
Definition filled (preferences : RegistryFile.t) : RegistryFile.t :=
  with_default "user_brightness" (PFloat 100)
    (with_default "party" (PBool false)
       (with_default "on_when_printing" (PBool false)
          (with_default "glow_when_print_is_finished" (PBool true) preferences))).

(** The value the store holds for [key], or [d] when it holds none. *)
Definition stored (preferences : RegistryFile.t) (key : string) (d : propval)
  : propval :=
  default d (RegistryFile.data preferences !! key).

End Vocabulary.
End MainLightingView.

Module ButtonRingView.
Import ButtonRingController.

(** A ring controller that has seen the printer as it is. *)
Definition sees {Q : Type} (printer : Printer) (c : ButtonRingController.t Q) : Prop :=
  __printer_state c = state printer /\
  __job_state c = job_state printer /\
  __interaction_required c = interaction_required printer.

(** A ring controller built on the hardware [hw]. *)
Definition built_on {Q : Type} {scheduler : AbstractController Q}
    (hw : Hardware) (c : ButtonRingController.t Q) : Prop :=
  on_hardware hw (base c).

End ButtonRingView.

Module Lifecycle.
Import LedService.

Section Vocabulary.
Context {theme : ColorTheme} {Q R : Type}.
Context {scheduler : AbstractController Q} {random : Random R}.
Context {D : Type} {debug_leds : DebugLedsHardware D}.

(** The signal that the printer is in a state that is not booting. *)
Definition leaves_booting (e : Event) : bool :=
  match e with
  | Signal_propertyChanged key v =>
      String.eqb key "state" && negb (Py.eq_str v "booting")
  | _ => false
  end.

(** The printer was not booting when the service was built, or has
    signalled since that it is not. *)
Definition left_booting (printer : Printer) (events : list Event) : bool :=
  negb (Py.eq_str (state printer) "booting") || existsb leaves_booting events.

(** The printer after the changes it has signalled. *)
Definition printer_after (printer : Printer) (events : list Event) : Printer :=
  fold_left (fun p e =>
               match e with
               | Signal_propertyChanged key v => printer_set key v p
               | _ => p
               end) events printer.

(** The machine is a UM3 or a UM3 Extended. *)
Definition is_um3 (bom : Py.variant) : bool :=
  Py.contains ["9066"; "9511"] (Py.str bom).

(** What [__start] builds: the main controller on the main lighting
    hardware and the back light controller on its own; the head slot
    controllers of the slots 0 and 1, which the service lets go; and a button
    ring controller, which the service keeps, on the button ring hardware, on
    a UM3, and lets go, on dummy hardware, on every other machine. *)
Definition controllers_built (bom : Py.variant) (s : LedService.t Q R D) : Prop :=
  (exists c, __main_controller s = Some c /\
             MainLightingView.built_on MainLightingHardware c) /\
  __back_light_controller s = Some (BackLightController_on BackLightHardware) /\
  if is_um3 bom
  then (exists c, __button_ring_controller s = Some c /\
                  ButtonRingView.built_on ButtonRingHardware c) /\
       detached s = [DetachedHeadSlot 0 (HeadSlotHardware 0);
                     DetachedHeadSlot 1 (HeadSlotHardware 1)]
  else __button_ring_controller s = None /\
       exists c, ButtonRingView.built_on DummyHardware c /\
                 detached s = [DetachedButtonRing c;
                               DetachedHeadSlot 0 (HeadSlotHardware 0);
                               DetachedHeadSlot 1 (HeadSlotHardware 1)].

Definition nothing_built (s : LedService.t Q R D) : Prop :=
  __main_controller s = None /\ __back_light_controller s = None /\
  __button_ring_controller s = None /\ detached s = [].

(** On the machine of BOM [bom], a running service holds the controllers
    of one start, and a service that does not run holds none. *)
Definition built_once (bom : Py.variant) (s : LedService.t Q R D) : Prop :=
  machine_bom s = bom /\
  if __running s then controllers_built bom s else nothing_built s.

Definition detached_sees (printer : Printer) (d : Detached Q) : Prop :=
  match d with
  | DetachedButtonRing c => ButtonRingView.sees printer c
  | DetachedHeadSlot _ _ => True
  end.

(** Every controller of the service has seen the printer as it is now. *)
Definition in_sync (s : LedService.t Q R D) : Prop :=
  (forall c, __main_controller s = Some c ->
             MainLightingView.sees (state (__printer s)) (job_state (__printer s)) c) /\
  (forall c, __button_ring_controller s = Some c ->
             ButtonRingView.sees (__printer s) c) /\
  Forall (detached_sees (__printer s)) (detached s).

End Vocabulary.
End Lifecycle.

(** ** Facts on binary64 comparisons *)

Module FloatFacts.

Lemma SFcompare_antisym x y c :
  SFcompare x y = Some c -> SFcompare y x = Some (CompOpp c).
Proof.
  destruct x as [sx|sx| |sx mx ex], y as [sy|sy| |sy my ey]; simpl;
    try discriminate; intros [= <-];
    try (destruct sx; try destruct sy; reflexivity).
  destruct sx, sy; try reflexivity;
    rewrite (Z.compare_antisym ex ey); destruct (ex ?= ey)%Z; simpl;
    try reflexivity;
    rewrite Pos.compare_cont_antisym; simpl;
    try rewrite CompOpp_involutive; reflexivity.
Qed.

Lemma SFcompare_refl x y c : SFcompare x y = Some c -> SFcompare x x = Some Eq.
Proof.
  destruct x as [sx|sx| |sx mx ex]; simpl; try discriminate; intros _.
  - reflexivity.
  - destruct sx; reflexivity.
  - rewrite Z.compare_refl, Pos.compare_cont_refl. destruct sx; reflexivity.
Qed.

(** A float that is below or equal to another is not a NaN. *)
Lemma leb_refl_l a b : (a <=? b)%float = true -> (a <=? a)%float = true.
Proof.
  rewrite !FloatAxioms.leb_spec. unfold SFleb.
  destruct (SFcompare (Prim2SF a) (Prim2SF b)) as [c|] eqn:E; [|discriminate].
  intros _. by rewrite (SFcompare_refl _ _ _ E).
Qed.

Lemma leb_refl_r a b : (a <=? b)%float = true -> (b <=? b)%float = true.
Proof.
  rewrite !FloatAxioms.leb_spec. unfold SFleb.
  destruct (SFcompare (Prim2SF a) (Prim2SF b)) as [c|] eqn:E; [|discriminate].
  intros _. apply SFcompare_antisym in E. by rewrite (SFcompare_refl _ _ _ E).
Qed.

(** [max(0.0, min(b, 100.0))] lies in [0, 100], whatever [b] is. *)
Lemma clamp_range b :
  (0 <=? Py.max 0 (Py.min b 100))%float = true /\
  (Py.max 0 (Py.min b 100) <=? 100)%float = true.
Proof.
  unfold Py.max, Py.min.
  destruct (100 <? b)%float eqn:H100; [by vm_compute|].
  destruct (0 <? b)%float eqn:H0; [|by vm_compute].
  revert H100 H0. rewrite !FloatAxioms.ltb_spec, !FloatAxioms.leb_spec.
  unfold SFltb, SFleb. intros H100 H0.
  destruct (SFcompare (Prim2SF 0) (Prim2SF b)) as [[]|] eqn:E0; try discriminate.
  split; [done|].
  destruct (SFcompare (Prim2SF 100) (Prim2SF b)) as [[]|] eqn:E1; try discriminate.
  - apply SFcompare_antisym in E1. by rewrite E1.
  - apply SFcompare_antisym in E1. by rewrite E1.
  - exfalso. revert E0 E1. destruct (Prim2SF b); vm_compute; congruence.
Qed.

Lemma clamp_above b :
  (100 <? b)%float = true -> Py.max 0 (Py.min b 100) = 100%float.
Proof. intros H. unfold Py.max, Py.min. rewrite H. reflexivity. Qed.

Lemma clamp_below b :
  (b <? 0)%float = true -> Py.max 0 (Py.min b 100) = 0%float.
Proof.
  intros H. unfold Py.max, Py.min.
  destruct (100 <? b)%float eqn:H100.
  - exfalso. revert H H100. rewrite !FloatAxioms.ltb_spec. unfold SFltb.
    destruct (Prim2SF b) as [|[]| |[] ? ?]; vm_compute; congruence.
  - destruct (0 <? b)%float eqn:H0; [|reflexivity].
    exfalso. revert H H0. rewrite !FloatAxioms.ltb_spec. unfold SFltb.
    destruct (Prim2SF b) as [|[]| |[] ? ?]; vm_compute; congruence.
Qed.

Lemma clamp_inside b :
  (0 <=? b)%float = true -> (b <=? 100)%float = true ->
  (Py.max 0 (Py.min b 100) =? b)%float = true.
Proof.
  intros H0 H100. unfold Py.max, Py.min.
  assert ((100 <? b)%float = false) as ->.
  { revert H100. rewrite FloatAxioms.ltb_spec, FloatAxioms.leb_spec.
    unfold SFltb, SFleb.
    destruct (SFcompare (Prim2SF b) (Prim2SF 100)) as [c|] eqn:E; [|discriminate].
    apply SFcompare_antisym in E. rewrite E. by destruct c. }
  pose proof (leb_refl_r _ _ H0) as Hb.
  destruct (0 <? b)%float eqn:Hlt.
  - revert Hb. rewrite FloatAxioms.leb_spec, FloatAxioms.eqb_spec.
    unfold SFleb, SFeqb.
    destruct (SFcompare (Prim2SF b) (Prim2SF b)) as [c|] eqn:E; [|discriminate].
    by rewrite (SFcompare_refl _ _ _ E) in E; injection E as <-.
  - revert H0 Hlt.
    rewrite FloatAxioms.ltb_spec, FloatAxioms.leb_spec, FloatAxioms.eqb_spec.
    unfold SFltb, SFleb, SFeqb.
    by destruct (SFcompare (Prim2SF 0) (Prim2SF b)) as [[]|].
Qed.

(** On every float but NaN the stored value equals, as a number, the
    clamp written with the bounds in the other order. *)
Lemma clamp_other_order b :
  (b =? b)%float = true ->
  (Py.max 0 (Py.min b 100) =? Py.min (Py.max b 0) 100)%float = true.
Proof.
  intros Hb. unfold Py.max, Py.min.
  destruct (b <? 0)%float eqn:Hlt0.
  - change (100 <? 0)%float with false. cbv iota.
    destruct (100 <? b)%float eqn:H100.
    + exfalso. revert Hlt0 H100. rewrite !FloatAxioms.ltb_spec. unfold SFltb.
      destruct (Prim2SF b) as [|[]| |[] ? ?]; vm_compute; congruence.
    + destruct (0 <? b)%float eqn:H0; [|reflexivity].
      exfalso. revert Hlt0 H0. rewrite !FloatAxioms.ltb_spec. unfold SFltb.
      destruct (Prim2SF b) as [|[]| |[] ? ?]; vm_compute; congruence.
  - destruct (100 <? b)%float eqn:H100; [reflexivity|].
    destruct (0 <? b)%float eqn:H0; [exact Hb|].
    revert Hb Hlt0 H0.
    rewrite !FloatAxioms.ltb_spec, !FloatAxioms.eqb_spec. unfold SFltb, SFeqb.
    change (Prim2SF 0) with (S754_zero false).
    destruct (Prim2SF b) as [|[]| |[] ? ?]; simpl; congruence.
Qed.

End FloatFacts.

(** The coin generator keeps the promise of [random.uniform]. *)
Lemma coin_uniform_in_range : uniform_in_range (random := CoinRandom.random).
Proof.
  intros a b r H. pose proof (FloatFacts.leb_refl_l _ _ H).
  pose proof (FloatFacts.leb_refl_r _ _ H).
  destruct r as [|[] r']; simpl; auto.
Qed.

(** ** Properties of the main lighting controller *)

Module MainLightingProperties.
Import MainLightingController MainLightingSpec.

Section Properties.
Context {theme : ColorTheme} {Q R : Type}.
Context {scheduler : AbstractController Q} {random : Random R}.

Abbreviation self := (MainLightingController.t Q R).

Lemma constructed_lookup (s : self) key :
  constructed s = true ->
  Py.contains (__ALL_MODE_FLAGS ++ ["user_brightness"])%list key = true ->
  exists v, __property_container s !! key = Some v.
Proof.
  unfold constructed, Py.contains. rewrite forallb_forall.
  intros Hall Hin. apply existsb_exists in Hin as (k & Hk & Heq).
  apply String.eqb_eq in Heq as ->.
  specialize (Hall _ Hk). apply bool_decide_eq_true in Hall as [v Hv]. eauto.
Qed.

Lemma constructed_party (s : self) :
  constructed s = true -> exists v, __property_container s !! "party" = Some v.
Proof. intros H. by apply constructed_lookup. Qed.

Lemma constructed_user_brightness (s : self) :
  constructed s = true ->
  exists v, __property_container s !! "user_brightness" = Some v.
Proof. intros H. by apply constructed_lookup. Qed.

Lemma property_get_some (s : self) name v :
  __property_container s !! name = Some v -> property_get name s = (Ok v, s).
Proof. intros H. unfold property_get. by rewrite H. Qed.

Lemma getModeFlag_some (s : self) name v :
  Py.contains __ALL_MODE_FLAGS name = true ->
  __property_container s !! name = Some v ->
  getModeFlag name s = (Ok v, s).
Proof.
  intros Hin H. unfold getModeFlag, bind, assert. rewrite Hin.
  unfold ret. by apply property_get_some.
Qed.

Lemma getRuntimeFlag_known (s : self) name :
  Py.contains __ALL_RUNTIME_FLAGS name = true ->
  getRuntimeFlag name s = (Ok (runtime_flag name s), s).
Proof. intros Hin. unfold getRuntimeFlag, bind, assert. by rewrite Hin. Qed.

Lemma getColor_eq (s : self) ub :
  __property_container s !! "user_brightness" = Some ub ->
  __getColor s = (Ok (shown_color ub s), s).
Proof.
  intros H. unfold __getColor, bind, gets. by rewrite (property_get_some _ _ _ H).
Qed.

Lemma getDarkColor_eq (s : self) ub :
  __property_container s !! "user_brightness" = Some ub ->
  __getDarkColor s = (Ok (dark_color ub s), s).
Proof.
  intros H. unfold __getDarkColor, bind. by rewrite (getColor_eq _ _ H).
Qed.

(** The update in closed form, on a controller whose container holds the
    party flag and the user brightness. *)
Lemma update_eq (s : self) party ub :
  __property_container s !! "party" = Some party ->
  __property_container s !! "user_brightness" = Some ub ->
  __update s =
    (Ok tt,
     if prop_truthy party then
       if _hasEffectInQueue (base s) then s else party_fade ub s
     else if runtime_flag "authenticating" s || runtime_flag "message" s then
       queued (GlowEffect (shown_color ub s) (dark_color ub s)
                 __DEFAULT_GLOW_FREQUENCY) s
     else queued (StaticEffect (status_color s)) s).
Proof.
  intros Hparty Hub. unfold __update.
  unfold bind at 1. rewrite (getModeFlag_some s __MODE_FLAG_PARTY party eq_refl Hparty).
  destruct (prop_truthy party).
  - unfold bind at 1, hasEffectInQueue, gets.
    destruct (_hasEffectInQueue (base s)); simpl; [reflexivity|].
    unfold party_fade, bind, random_uniform.
    destruct (uniform 0 360 (rng s)) as [h r].
    rewrite (property_get_some (with_rng r s) "user_brightness" ub Hub).
    reflexivity.
  - unfold bind at 1.
    rewrite (getRuntimeFlag_known s RUNTIME_FLAG_AUTHENTICATING eq_refl).
    change (runtime_flag RUNTIME_FLAG_AUTHENTICATING s)
      with (runtime_flag "authenticating" s).
    assert ((if runtime_flag "authenticating" s
             then ret true else getRuntimeFlag RUNTIME_FLAG_MESSAGE) s
            = (Ok (runtime_flag "authenticating" s || runtime_flag "message" s), s))
      as Hflag.
    { destruct (runtime_flag "authenticating" s); [reflexivity|].
      by rewrite (getRuntimeFlag_known s RUNTIME_FLAG_MESSAGE eq_refl). }
    unfold bind at 1. rewrite Hflag.
    destruct (runtime_flag "authenticating" s || runtime_flag "message" s).
    + unfold bind. rewrite (getColor_eq _ _ Hub), (getDarkColor_eq _ _ Hub).
      reflexivity.
    + unfold bind, gets, status_color, __stateIsWaitingForCleanup,
        __stateIsPrinting, __stateIsMaintenance, __stateIsError.
      repeat match goal with |- context [if ?b then _ else _] => destruct b end;
        reflexivity.
Qed.

Lemma update_same_attributes (s : self) party ub :
  __property_container s !! "party" = Some party ->
  __property_container s !! "user_brightness" = Some ub ->
  same_attributes s (snd (__update s)).
Proof.
  intros Hparty Hub. rewrite (update_eq _ _ _ Hparty Hub). simpl.
  unfold party_fade. destruct (uniform 0 360 (rng s)).
  repeat match goal with |- context [if ?b then _ else _] => destruct b end;
    by repeat split.
Qed.

Lemma bind_ok {S A B} (m : M S A) (k : A -> M S B) s a s' :
  m s = (Ok a, s') -> bind m k s = k a s'.
Proof. intros H. unfold bind. by rewrite H. Qed.

Lemma bind_assoc {S A B C} (m : M S A) (k : A -> M S B) (k' : B -> M S C) s :
  bind (bind m k) k' s = bind m (fun a => bind (k a) k') s.
Proof. unfold bind. by destruct (m s) as [[] ?]. Qed.

Lemma update_ok (s : self) :
  constructed s = true ->
  exists s', __update s = (Ok tt, s') /\ same_attributes s s'.
Proof.
  intros Hc. destruct (constructed_party _ Hc) as [party Hparty].
  destruct (constructed_user_brightness _ Hc) as [ub Hub].
  pose proof (update_same_attributes _ _ _ Hparty Hub) as Hsame.
  rewrite (update_eq _ _ _ Hparty Hub) in *. eauto.
Qed.

Lemma constructed_same (s s' : self) :
  same_attributes s s' -> constructed s = true -> constructed s' = true.
Proof. intros (Hpc & _). unfold constructed. by rewrite Hpc. Qed.

Lemma constructed_with_property (s : self) name v :
  constructed s = true -> constructed (with_property name v s) = true.
Proof.
  unfold constructed. rewrite !forallb_forall. intros H key Hkey.
  specialize (H key Hkey). apply bool_decide_eq_true in H.
  apply bool_decide_eq_true. simpl.
  destruct (decide (name = key)) as [->|Hne].
  - rewrite lookup_insert_eq. eauto.
  - by rewrite lookup_insert_ne.
Qed.

Lemma mode_flag_is_property name :
  Py.contains __ALL_MODE_FLAGS name = true ->
  Py.contains (__ALL_MODE_FLAGS ++ ["user_brightness"])%list name = true.
Proof.
  unfold Py.contains. rewrite !existsb_exists.
  intros (k & Hk & Heq). exists k. split; [|done].
  apply in_or_app. by left.
Qed.

(** Every trigger of a re-evaluation ends in [__update]: the two signals
    of the printer, the three color setters and the timer's callback. *)
Lemma update_triggers (s : self) (v : Py.variant) (x : float) :
  __onPrinterPropertyChanged "state" v s
  = (__update;;; ret tt) (with_printer_state v s) /\
  __onPrinterPropertyChanged "job_state" v s
  = __update (with_job_state v s) /\
  setMainColorHue x s = __update (with_main_color (set_hue x) s) /\
  setMainColorSaturation x s = __update (with_main_color (set_saturation x) s) /\
  setMainColorBrightness x s = __update (with_main_color (set_value x) s) /\
  run_callback MainLightingController_update s = __update s.
Proof. repeat split; reflexivity. Qed.

(** C1. The priority policy of the main lighting: a re-evaluation takes the
    first rule that matches, in this order: the party flag; a runtime flag
    (authenticating or message); printing with the job waiting for cleanup
    or none: Static Purple; printing: Static Cyan; maintenance: Static
    Yellow; error: Static Red; otherwise Static Green. In particular an
    error with no party and no runtime flag gives Static Red, and the
    signal that the job waits for cleanup while printing gives Static
    Purple. *)
Theorem main_priority_policy (s : self) (party ub : propval) :
  __property_container s !! "party" = Some party ->
  __property_container s !! "user_brightness" = Some ub ->
  let printer_is name := Py.eq_str (__printer_state s) name in
  let job_is name := Py.eq_str (__job_state s) name in
  let flagged := runtime_flag "authenticating" s || runtime_flag "message" s in
  __update s =
    (Ok tt,
     if prop_truthy party then
       if _hasEffectInQueue (base s) then s else party_fade ub s
     else if flagged then
       queued (GlowEffect (shown_color ub s) (dark_color ub s)
                 __DEFAULT_GLOW_FREQUENCY) s
     else if printer_is "printing" && (job_is "wait_cleanup" || job_is "none") then
       queued (StaticEffect PURPLE) s
     else if printer_is "printing" then queued (StaticEffect CYAN) s
     else if printer_is "maintenance" then queued (StaticEffect YELLOW) s
     else if printer_is "error" then queued (StaticEffect RED) s
     else queued (StaticEffect GREEN) s) /\
  (prop_truthy party = false -> flagged = false ->
   __printer_state s = Py.VStr "error" ->
   __update s = (Ok tt, queued (StaticEffect RED) s)) /\
  (prop_truthy party = false -> flagged = false ->
   __printer_state s = Py.VStr "printing" ->
   __job_state s = Py.VStr "wait_cleanup" ->
   __update s = (Ok tt, queued (StaticEffect PURPLE) s)) /\
  (prop_truthy party = false -> flagged = false ->
   __printer_state s = Py.VStr "printing" ->
   __onPrinterPropertyChanged "job_state" (Py.VStr "wait_cleanup") s
   = (Ok tt, queued (StaticEffect PURPLE)
               (with_job_state (Py.VStr "wait_cleanup") s))).
Proof.
  intros Hparty Hub printer_is job_is flagged.
  assert (forall s' : self,
             __property_container s' = __property_container s ->
             __runtime_flags s' = __runtime_flags s ->
             prop_truthy party = false -> flagged = false ->
             __update s' = (Ok tt, queued (StaticEffect (status_color s')) s'))
    as Hstatic.
  { intros s' Hpc Hrf Hp Hf. rewrite <- Hpc in Hparty, Hub.
    rewrite (update_eq s' _ _ Hparty Hub), Hp.
    unfold runtime_flag. rewrite Hrf. fold (runtime_flag "authenticating" s).
    fold (runtime_flag "message" s). fold flagged. by rewrite Hf. }
  repeat split.
  - rewrite (update_eq _ _ _ Hparty Hub). fold flagged.
    unfold status_color. fold (printer_is "printing") (printer_is "error")
      (printer_is "maintenance") (job_is "wait_cleanup") (job_is "none").
    repeat match goal with |- context [if ?b then _ else _] => destruct b end;
      reflexivity.
  - intros Hp Hf Herr. rewrite (Hstatic s eq_refl eq_refl Hp Hf).
    unfold status_color. by rewrite Herr.
  - intros Hp Hf Hpr Hjob. rewrite (Hstatic s eq_refl eq_refl Hp Hf).
    unfold status_color. by rewrite Hpr, Hjob.
  - intros Hp Hf Hpr.
    change (__onPrinterPropertyChanged "job_state" (Py.VStr "wait_cleanup") s)
      with (__update (with_job_state (Py.VStr "wait_cleanup") s)).
    rewrite (Hstatic (with_job_state (Py.VStr "wait_cleanup") s)
               eq_refl eq_refl Hp Hf).
    unfold status_color. simpl. by rewrite Hpr.
Qed.

(** C4. With the party flag set, a re-evaluation with nothing queued
    enqueues a Fade of 2.0 s to a color of hue [random.uniform(0, 360)] (a
    value of [0, 360], by the promise of the library), saturation 100 and
    value the stored user brightness, and starts a timer of 2.0 s whose
    callback is the update; with an effect queued it enqueues nothing and
    starts no timer. *)
Theorem party_mode_fade (s : self) (party ub : propval) :
  __property_container s !! "party" = Some party ->
  __property_container s !! "user_brightness" = Some ub ->
  prop_truthy party = true ->
  let h := fst (uniform 0 360 (rng s)) in
  (_hasEffectInQueue (base s) = false ->
   exists s',
     __update s = (Ok tt, s') /\
     base s' = _queueEffect (FadeEffect (mkHsv h 100 (prop_float ub)) 2) (base s) /\
     timers s' = (timers s ++ [mkTimer "PARTY!" 2 MainLightingController_update])%list /\
     run_callback MainLightingController_update = __update /\
     rng s' = snd (uniform 0 360 (rng s)) /\
     same_attributes s s' /\
     (uniform_in_range (random := random) ->
      (0 <=? h)%float = true /\ (h <=? 360)%float = true)) /\
  (_hasEffectInQueue (base s) = true -> __update s = (Ok tt, s)).
Proof.
  intros Hparty Hub Hp h. rewrite (update_eq _ _ _ Hparty Hub), Hp.
  split; intros Hq; rewrite Hq; [|reflexivity].
  eexists. split; [reflexivity|]. unfold party_fade, h.
  destruct (uniform 0 360 (rng s)) as [x r] eqn:Hdraw. simpl.
  do 4 (split; [reflexivity|]). split; [by repeat split|].
  intros Hrange. pose proof (Hrange 0%float 360%float (rng s) eq_refl) as Hh.
  by rewrite Hdraw in Hh.
Qed.

(** C8. The color resolved for emission has the hue and the saturation of
    the main color and the value [main_color.value * user_brightness / 100];
    it is the color handed to Blink and the bright end of the Glow of the
    authenticating/message rule; the dark end is the same color with the
    value multiplied by 0.3, and that Glow has frequency 0.1. *)
Theorem emitted_color_scaling (s : self) (ub : propval) :
  __property_container s !! "user_brightness" = Some ub ->
  let main := __main_color s in
  let color :=
    mkHsv (hue main) (saturation main)
          (value main * prop_float ub / 100)%float in
  let dark :=
    mkHsv (hue main) (saturation main)
          (value main * prop_float ub / 100 * 0x1.3333333333333p-2)%float in
  __getColor s = (Ok color, s) /\
  __getDarkColor s = (Ok dark, s) /\
  (forall frequency count,
      blink frequency count s
      = (Ok tt, queued (BlinkEffect color frequency count) s)) /\
  (forall party,
      __property_container s !! "party" = Some party ->
      prop_truthy party = false ->
      runtime_flag "authenticating" s || runtime_flag "message" s = true ->
      __update s = (Ok tt, queued (GlowEffect color dark 0x1.999999999999ap-4) s)).
Proof.
  intros Hub main color dark. repeat split.
  - exact (getColor_eq _ _ Hub).
  - exact (getDarkColor_eq _ _ Hub).
  - intros f n. unfold blink. by rewrite (bind_ok _ _ _ _ _ (getColor_eq _ _ Hub)).
  - intros party Hparty Hp Hf. by rewrite (update_eq _ _ _ Hparty Hub), Hp, Hf.
Qed.

Lemma add_mode_property_eq (s : self) key b :
  __DEFAULT_MODE_SETTINGS !! key = Some b ->
  exists v,
    add_mode_property key s
    = (Ok tt,
       with_property_container (insert key (PBool v))
         (with_preferences
            (fun r => if RegistryFile.has key r then r
                      else RegistryFile.setAsBoolean key b r) s)).
Proof.
  intros Hb. unfold add_mode_property, bind, gets.
  destruct (RegistryFile.has key (__preferences s)) eqn:Hhas; simpl.
  - pose proof Hhas as Hsome. apply bool_decide_eq_true in Hsome as [x Hx].
    unfold RegistryFile.getAsBoolean. rewrite Hx. simpl.
    exists (prop_truthy x). unfold modify, with_preferences. simpl.
    by rewrite Hhas.
  - rewrite Hb. unfold modify. simpl.
    unfold RegistryFile.getAsBoolean. simpl. rewrite lookup_insert_eq. simpl.
    exists b. unfold with_preferences. simpl. by rewrite Hhas.
Qed.

Lemma add_user_brightness_property_eq (s : self) :
  exists v,
    add_user_brightness_property s
    = (Ok tt,
       with_property_container (insert "user_brightness" (PFloat v))
         (with_preferences
            (fun r => if RegistryFile.has "user_brightness" r then r
                      else RegistryFile.setAsFloat "user_brightness" 100 r) s)).
Proof.
  unfold add_user_brightness_property, bind, gets.
  destruct (RegistryFile.has "user_brightness" (__preferences s)) eqn:Hhas; simpl.
  - pose proof Hhas as Hsome. apply bool_decide_eq_true in Hsome as [x Hx].
    unfold RegistryFile.getAsFloat. rewrite Hx. simpl.
    exists (prop_float x). unfold modify, with_preferences. simpl.
    by rewrite Hhas.
  - unfold modify. simpl.
    unfold RegistryFile.getAsFloat. simpl. rewrite lookup_insert_eq. simpl.
    exists 100%float. unfold with_preferences. simpl. by rewrite Hhas.
Qed.

(** The constructor returns, and the controller it builds holds the four
    properties. *)
Lemma init_constructed hardware property_container preferences printer
    (random_state : R) :
  exists s : self,
    __init__ hardware property_container preferences printer random_state
    = (Ok tt, s) /\
    constructed s = true /\
    __main_color s = WHITE /\
    __printer_state s = state printer /\
    __job_state s = job_state printer.
Proof.
  unfold __init__, __ALL_MODE_FLAGS. cbn [for_each].
  set (s0 := mk Q R _ _ _ _ _ _ _ _ _).
  destruct (add_mode_property_eq s0 __MODE_FLAG_GLOW_WHEN_FINISHED true eq_refl)
    as [v1 H1].
  rewrite bind_assoc, (bind_ok _ _ _ _ _ H1).
  match type of H1 with _ = (_, ?x) => set (s1 := x) end.
  destruct (add_mode_property_eq s1 __MODE_FLAG_ON_WHEN_PRINTING false eq_refl)
    as [v2 H2].
  rewrite bind_assoc, (bind_ok _ _ _ _ _ H2).
  match type of H2 with _ = (_, ?x) => set (s2 := x) end.
  destruct (add_mode_property_eq s2 __MODE_FLAG_PARTY false eq_refl) as [v3 H3].
  rewrite bind_assoc, (bind_ok _ _ _ _ _ H3).
  match type of H3 with _ = (_, ?x) => set (s3 := x) end.
  unfold bind at 1, ret at 1.
  destruct (add_user_brightness_property_eq s3) as [v4 H4].
  rewrite (bind_ok _ _ _ _ _ H4).
  match type of H4 with _ = (_, ?x) => set (s4 := x) end.
  assert (__property_container s4 !! "user_brightness" = Some (PFloat v4)) as Hub.
  { subst s4. simpl. apply lookup_insert_eq. }
  rewrite (bind_ok _ _ _ _ _ (getColor_eq _ _ Hub)).
  eexists. split; [reflexivity|]. repeat split.
  unfold constructed. apply forallb_forall. intros key Hkey.
  apply bool_decide_eq_true. simpl in Hkey. simpl.
  destruct Hkey as [<-|[<-|[<-|[<-|[]]]]]; by simplify_map_eq.
Qed.

(** *** The methods keep the properties in the container *)

Abbreviation keeps := (@keeps_constructed Q R _).

Lemma keeps_ret {A} (a : A) : keeps (ret a).
Proof. by intros s H. Qed.

Lemma keeps_raise {A} e : keeps (raise (A := A) e).
Proof. by intros s H. Qed.

Lemma keeps_gets {A} (f : self -> A) : keeps (gets f).
Proof. by intros s H. Qed.

Lemma keeps_assert cond : keeps (assert cond).
Proof. intros s H. by destruct cond. Qed.

Lemma keeps_bind {A B} (m : M self A) (k : A -> M self B) :
  keeps m -> (forall a, keeps (k a)) ->
  keeps (bind m k).
Proof.
  intros Hm Hk s H. specialize (Hm s H). unfold exec, bind in *.
  destruct (m s) as [[a|e] s']; [|exact Hm]. exact (Hk a s' Hm).
Qed.

Lemma keeps_if {A} (b : bool) (m1 m2 : M self A) :
  keeps m1 -> keeps m2 ->
  keeps (if b then m1 else m2).
Proof. by destruct b. Qed.

Lemma keeps_modify (f : self -> self) :
  (forall s, __property_container (f s) = __property_container s) ->
  keeps (modify f).
Proof.
  intros Hf s H. unfold exec, modify, constructed in *. simpl. by rewrite Hf.
Qed.

Lemma keeps_update : keeps __update.
Proof.
  intros s H. destruct (update_ok s H) as (s' & Hu & Hsame).
  unfold exec. rewrite Hu. exact (constructed_same _ _ Hsame H).
Qed.

Lemma keeps_property_get name : keeps (property_get name).
Proof.
  intros s H. unfold exec, property_get.
  by destruct (__property_container s !! name).
Qed.

Lemma keeps_setPropertyValue name v : keeps (setPropertyValue name v).
Proof.
  unfold setPropertyValue, property_store.
  apply keeps_bind; [|intros; apply keeps_update].
  apply keeps_bind; [apply keeps_property_get|]. intros _ s H.
  exact (constructed_with_property s name v H).
Qed.

Lemma keeps_for_each {A} (l : list A) (body : A -> M self unit) :
  (forall x, keeps (body x)) -> keeps (for_each l body).
Proof.
  intros Hbody. induction l as [|x l IH]; simpl; [apply keeps_ret|].
  apply keeps_bind; [apply Hbody|]. intros _. exact IH.
Qed.

Create HintDb keeps discriminated.
#[local] Hint Resolve keeps_ret keeps_raise keeps_gets keeps_assert keeps_bind
  keeps_if keeps_update keeps_property_get keeps_setPropertyValue : keeps.
#[local] Hint Extern 1 (keeps_constructed (modify _)) =>
  (apply keeps_modify; intros; reflexivity) : keeps.

(** Every method of the controller that the service calls keeps them. *)
Lemma keeps_methods :
  keeps resetToDefaultValues /\
  (forall x, keeps (setMainColorHue x)) /\
  (forall x, keeps (setMainColorSaturation x)) /\
  (forall x, keeps (setMainColorBrightness x)) /\
  keeps getMainColorHue /\
  keeps getMainColorSaturation /\
  keeps getMainColorBrightness /\
  (forall x, keeps (setUserBrightness x)) /\
  keeps getUserBrightness /\
  (forall name v, keeps (setModeFlag name v)) /\
  (forall name, keeps (getModeFlag name)) /\
  (forall name v, keeps (setRuntimeFlag name v)) /\
  (forall name, keeps (getRuntimeFlag name)) /\
  (forall frequency count, keeps (blink frequency count)) /\
  (forall key v, keeps (__onPrinterPropertyChanged key v)) /\
  keeps timer_fires.
Proof.
  repeat split; intros.
  - unfold resetToDefaultValues. apply keeps_bind; [|auto with keeps].
    apply keeps_for_each. intros key.
    destruct (__DEFAULT_MODE_SETTINGS !! key); auto with keeps.
  - unfold setMainColorHue. auto with keeps.
  - unfold setMainColorSaturation. auto with keeps.
  - unfold setMainColorBrightness. auto with keeps.
  - unfold getMainColorHue. auto with keeps.
  - unfold getMainColorSaturation. auto with keeps.
  - unfold getMainColorBrightness. auto with keeps.
  - unfold setUserBrightness. auto with keeps.
  - unfold getUserBrightness. auto with keeps.
  - unfold setModeFlag. auto with keeps.
  - unfold getModeFlag. auto with keeps.
  - unfold setRuntimeFlag. auto with keeps.
  - unfold getRuntimeFlag. auto with keeps.
  - unfold blink, __getColor, queueEffect. auto 8 with keeps.
  - unfold __onPrinterPropertyChanged. auto 8 with keeps.
  - unfold timer_fires. apply keeps_bind; [auto with keeps|].
    intros [|tm rest]; [auto with keeps|].
    apply keeps_bind; [auto with keeps|]. intros _.
    destruct (timer_callback tm). apply keeps_update.
Qed.

(** C5. The flag setters reject a name outside their closed set with an
    assertion error and leave the controller as it was; with a name of the
    set they store the value and re-evaluate the policy, and the getter
    then returns the value. *)
Theorem flag_setters_validate (s : self) (name : string) (v : bool) :
  (Py.contains ["glow_when_print_is_finished"; "on_when_printing"; "party"] name
   = false ->
   setModeFlag name v s = (Raise AssertionError, s)) /\
  (Py.contains ["authenticating"; "message"] name = false ->
   setRuntimeFlag name v s = (Raise AssertionError, s)) /\
  (Py.contains ["glow_when_print_is_finished"; "on_when_printing"; "party"] name
   = true ->
   constructed s = true ->
   exists s',
     setModeFlag name v s = (Ok tt, s') /\
     setModeFlag name v s = (__update;;; __update) (with_property name (PBool v) s) /\
     getModeFlag name s' = (Ok (PBool v), s') /\
     RegistryFile.data (__preferences s') !! name = Some (PBool v)) /\
  (Py.contains ["authenticating"; "message"] name = true ->
   constructed s = true ->
   exists s',
     setRuntimeFlag name v s = (Ok tt, s') /\
     setRuntimeFlag name v s = __update (with_runtime_flag name v s) /\
     getRuntimeFlag name s' = (Ok v, s')).
Proof.
  repeat split.
  - intros Hout. unfold setModeFlag, bind, assert.
    change __ALL_MODE_FLAGS
      with ["glow_when_print_is_finished"; "on_when_printing"; "party"].
    by rewrite Hout.
  - intros Hout. unfold setRuntimeFlag, bind, assert.
    change __ALL_RUNTIME_FLAGS with ["authenticating"; "message"].
    by rewrite Hout.
  - intros Hin Hc.
    change ["glow_when_print_is_finished"; "on_when_printing"; "party"]
      with __ALL_MODE_FLAGS in Hin.
    destruct (constructed_lookup _ _ Hc (mode_flag_is_property _ Hin)) as [old Hold].
    set (s1 := with_property name (PBool v) s).
    assert (setModeFlag name v s = (__update;;; __update) s1) as Heq.
    { unfold setModeFlag, setPropertyValue, property_store.
      unfold bind at 1, assert. rewrite Hin. unfold ret at 1.
      unfold bind at 1. unfold bind at 1. unfold bind at 1.
      by rewrite (property_get_some _ _ _ Hold). }
    pose proof (constructed_with_property s name (PBool v) Hc) as Hc1.
    fold s1 in Hc1.
    destruct (update_ok s1 Hc1) as (s2 & Hu1 & Hsame1).
    destruct (update_ok s2 (constructed_same _ _ Hsame1 Hc1)) as (s3 & Hu2 & Hsame2).
    exists s3. rewrite Heq. repeat split.
    + by rewrite (bind_ok _ _ _ _ _ Hu1).
    + destruct Hsame1 as (Hpc1 & _), Hsame2 as (Hpc2 & _).
      apply getModeFlag_some; [done|].
      rewrite Hpc2, Hpc1. subst s1. simpl. apply lookup_insert_eq.
    + destruct Hsame1 as (_ & Hpr1 & _), Hsame2 as (_ & Hpr2 & _).
      rewrite Hpr2, Hpr1. subst s1. simpl. apply lookup_insert_eq.
  - intros Hin Hc.
    change ["authenticating"; "message"] with __ALL_RUNTIME_FLAGS in Hin.
    set (s1 := with_runtime_flag name v s).
    assert (setRuntimeFlag name v s = __update s1) as Heq.
    { unfold setRuntimeFlag. unfold bind at 1, assert. by rewrite Hin. }
    assert (constructed s1 = true) as Hc1 by exact Hc.
    destruct (update_ok s1 Hc1) as (s2 & Hu1 & Hsame1).
    exists s2. rewrite Heq. repeat split; [done|].
    rewrite (getRuntimeFlag_known _ _ Hin). unfold runtime_flag.
    destruct Hsame1 as (_ & _ & _ & Hrf & _). rewrite Hrf. subst s1. simpl.
    by rewrite lookup_insert_eq.
Qed.

(** C6. [setUserBrightness(b)] stores [max(0.0, min(b, 100.0))], which
    lies in [0, 100] for every float [b] and is the clamp of [b]: 100 above
    100, 0 below 0, [b] in between; so 150 gives 100 and -10 gives 0, and
    [getUserBrightness] returns the stored value. *)
Theorem user_brightness_clamped (s : self) (b : float) :
  constructed s = true ->
  let stored := Py.max 0 (Py.min b 100) in
  exists s',
    setUserBrightness b s = (Ok tt, s') /\
    getUserBrightness s' = (Ok (PFloat stored), s') /\
    RegistryFile.data (__preferences s') !! "user_brightness" = Some (PFloat stored) /\
    (0 <=? stored)%float = true /\ (stored <=? 100)%float = true /\
    ((100 <? b)%float = true -> stored = 100%float) /\
    ((b <? 0)%float = true -> stored = 0%float) /\
    ((0 <=? b)%float = true -> (b <=? 100)%float = true ->
     (stored =? b)%float = true) /\
    ((b =? b)%float = true ->
     (stored =? Py.min (Py.max b 0) 100)%float = true) /\
    (b = 150%float -> stored = 100%float) /\
    (b = (-10)%float -> stored = 0%float).
Proof.
  intros Hc stored.
  destruct (constructed_user_brightness _ Hc) as [old Hold].
  set (s1 := with_property "user_brightness" (PFloat stored) s).
  assert (setUserBrightness b s = __update s1) as Heq.
  { unfold setUserBrightness, setPropertyValue, property_store.
    unfold bind at 1. unfold bind at 1.
    by rewrite (property_get_some _ _ _ Hold). }
  pose proof (constructed_with_property s "user_brightness" (PFloat stored) Hc)
    as Hc1.
  destruct (update_ok _ Hc1) as (s2 & Hu & Hpc & Hpr & _).
  fold s1 in Hu, Hpc, Hpr.
  exists s2. rewrite Heq.
  pose proof (FloatFacts.clamp_range b) as [Hlo Hhi].
  repeat split; try done.
  - apply property_get_some. rewrite Hpc. subst s1. simpl. apply lookup_insert_eq.
  - rewrite Hpr. subst s1. simpl. apply lookup_insert_eq.
  - apply FloatFacts.clamp_above.
  - apply FloatFacts.clamp_below.
  - apply FloatFacts.clamp_inside.
  - apply FloatFacts.clamp_other_order.
  - intros ->. reflexivity.
  - intros ->. reflexivity.
Qed.

(** C7. The setters of the main color clamp nothing: after
    [setMainColorHue(v)], [setMainColorSaturation(v)] or
    [setMainColorBrightness(v)] the matching getter returns [v] itself, for
    every float [v]. *)
Theorem color_setters_round_trip (s : self) (v : float) :
  constructed s = true ->
  (exists s', setMainColorHue v s = (Ok tt, s') /\
              getMainColorHue s' = (Ok v, s')) /\
  (exists s', setMainColorSaturation v s = (Ok tt, s') /\
              getMainColorSaturation s' = (Ok v, s')) /\
  (exists s', setMainColorBrightness v s = (Ok tt, s') /\
              getMainColorBrightness s' = (Ok v, s')).
Proof.
  intros Hc.
  assert (forall f : HsvColor -> HsvColor,
             exists s', __update (with_main_color f s) = (Ok tt, s') /\
                        __main_color s' = f (__main_color s)) as Hset.
  { intros f. destruct (update_ok (with_main_color f s) Hc)
      as (s' & Hu & _ & _ & Hmc & _). eauto. }
  repeat split.
  - destruct (Hset (set_hue v)) as (s' & Hu & Hmc). exists s'.
    split; [exact Hu|]. unfold getMainColorHue, gets. by rewrite Hmc.
  - destruct (Hset (set_saturation v)) as (s' & Hu & Hmc). exists s'.
    split; [exact Hu|]. unfold getMainColorSaturation, gets. by rewrite Hmc.
  - destruct (Hset (set_value v)) as (s' & Hu & Hmc). exists s'.
    split; [exact Hu|]. unfold getMainColorBrightness, gets. by rewrite Hmc.
Qed.

(** C9. [resetToDefaultValues()] returns with the store saved, and a
    reload of the store holds the defaults, whatever was stored before:
    glow_when_print_is_finished true, on_when_printing false, party false
    and user_brightness 100.0. *)
Theorem reset_persists_defaults (s : self) :
  exists s',
    resetToDefaultValues s = (Ok tt, s') /\
    __preferences s'
    = RegistryFile.forceSave
        (RegistryFile.setAsFloat "user_brightness" 100
           (RegistryFile.setAsBoolean "party" false
              (RegistryFile.setAsBoolean "on_when_printing" false
                 (RegistryFile.setAsBoolean "glow_when_print_is_finished" true
                    (__preferences s))))) /\
    let reloaded := RegistryFile.load (RegistryFile.saved (__preferences s')) in
    RegistryFile.data reloaded !! "glow_when_print_is_finished" = Some (PBool true) /\
    RegistryFile.data reloaded !! "on_when_printing" = Some (PBool false) /\
    RegistryFile.data reloaded !! "party" = Some (PBool false) /\
    RegistryFile.data reloaded !! "user_brightness" = Some (PFloat 100) /\
    RegistryFile.getAsBoolean "glow_when_print_is_finished" reloaded = Some true /\
    RegistryFile.getAsBoolean "on_when_printing" reloaded = Some false /\
    RegistryFile.getAsBoolean "party" reloaded = Some false /\
    RegistryFile.getAsFloat "user_brightness" reloaded = Some 100%float.
Proof.
  eexists. split; [reflexivity|]. split; [reflexivity|]. simpl.
  unfold RegistryFile.getAsBoolean, RegistryFile.getAsFloat. simpl.
  repeat split; by simplify_map_eq.
Qed.

End Properties.

#[local] Existing Instance SampleTheme.theme.
#[local] Existing Instance SpecScheduler.scheduler.
#[local] Existing Instance CoinRandom.random.

(** A printer in error, with no party and no runtime flag: Static Red. *)
Lemma main_priority_policy_witness :
  __property_container (sample "error" "none") !! "party" = Some (PBool false) /\
  __property_container (sample "error" "none") !! "user_brightness"
  = Some (PFloat 100) /\
  __update (sample "error" "none")
  = (Ok tt, queued (StaticEffect RED) (sample "error" "none")).
Proof.
  assert (__property_container (sample "error" "none") !! "party"
          = Some (PBool false)) as Hparty by (vm_compute; reflexivity).
  assert (__property_container (sample "error" "none") !! "user_brightness"
          = Some (PFloat 100)) as Hub by (vm_compute; reflexivity).
  split; [exact Hparty|]. split; [exact Hub|].
  exact (proj1 (proj2 (main_priority_policy _ _ _ Hparty Hub))
           eq_refl eq_refl eq_refl).
Defined.

Lemma party_mode_fade_witness :
  __property_container partying !! "party" = Some (PBool true) /\
  __property_container partying !! "user_brightness" = Some (PFloat 100) /\
  prop_truthy (PBool true) = true /\
  _hasEffectInQueue (base partying) = false /\
  exists s',
    __update partying = (Ok tt, s') /\
    SpecScheduler.queue (base s')
    = [FadeEffect (mkHsv 0 0 100) 6; FadeEffect (mkHsv 360 100 100) 2] /\
    timers s' = [mkTimer "PARTY!" 2 MainLightingController_update] /\
    __update s' = (Ok tt, s') /\
    uniform_in_range (random := CoinRandom.random) /\
    (0 <=? fst (uniform 0 360 (rng partying)))%float = true /\
    (fst (uniform 0 360 (rng partying)) <=? 360)%float = true.
Proof.
  assert (__property_container partying !! "party" = Some (PBool true))
    as Hparty by (vm_compute; reflexivity).
  assert (__property_container partying !! "user_brightness" = Some (PFloat 100))
    as Hub by (vm_compute; reflexivity).
  assert (_hasEffectInQueue (base partying) = false)
    as Hidle by (vm_compute; reflexivity).
  split; [exact Hparty|]. split; [exact Hub|]. split; [reflexivity|].
  split; [exact Hidle|].
  destruct (proj1 (party_mode_fade partying _ _ Hparty Hub eq_refl) Hidle)
    as (s' & Hu & Hbase & Htimers & _ & _ & (Hpc & _) & Hrange).
  exists s'. split; [exact Hu|]. split; [by rewrite Hbase|].
  split; [by rewrite Htimers|].
  split; [|split; [exact coin_uniform_in_range|exact (Hrange coin_uniform_in_range)]].
  rewrite <- Hpc in Hparty, Hub.
  apply (proj2 (party_mode_fade s' _ _ Hparty Hub eq_refl)).
  unfold _hasEffectInQueue. simpl. by rewrite Hbase.
Defined.

Lemma emitted_color_scaling_witness :
  __property_container messaging !! "user_brightness" = Some (PFloat 50) /\
  __getColor messaging = (Ok (mkHsv 0 0 50), messaging) /\
  __getDarkColor messaging = (Ok (mkHsv 0 0 15), messaging) /\
  __update messaging
  = (Ok tt, queued (GlowEffect (mkHsv 0 0 50) (mkHsv 0 0 15) 0x1.999999999999ap-4)
              messaging).
Proof.
  assert (__property_container messaging !! "user_brightness" = Some (PFloat 50))
    as Hub by (vm_compute; reflexivity).
  split; [exact Hub|].
  destruct (emitted_color_scaling messaging _ Hub) as (Hc & Hd & _ & Hglow).
  split; [exact Hc|]. split; [exact Hd|].
  apply (Hglow (PBool false)); by vm_compute.
Defined.

Lemma flag_setters_validate_witness :
  Py.contains ["glow_when_print_is_finished"; "on_when_printing"; "party"] "disco"
  = false /\
  setModeFlag "disco" true (sample "idle" "none")
  = (Raise AssertionError, sample "idle" "none") /\
  constructed (sample "idle" "none") = true /\
  exists s',
    setModeFlag "on_when_printing" true (sample "idle" "none") = (Ok tt, s') /\
    getModeFlag "on_when_printing" s' = (Ok (PBool true), s').
Proof.
  split; [reflexivity|].
  split; [exact (proj1 (flag_setters_validate (sample "idle" "none") "disco" true)
                   eq_refl)|].
  assert (constructed (sample "idle" "none") = true) as Hc
    by (vm_compute; reflexivity).
  split; [exact Hc|].
  destruct (proj1 (proj2 (proj2
              (flag_setters_validate (sample "idle" "none") "on_when_printing" true)))
              eq_refl Hc) as (s' & Hset & _ & Hget & _).
  exists s'. by split.
Defined.

Lemma user_brightness_clamped_witness :
  constructed (sample "idle" "none") = true /\
  exists s',
    setUserBrightness 150 (sample "idle" "none") = (Ok tt, s') /\
    getUserBrightness s' = (Ok (PFloat 100), s').
Proof.
  assert (constructed (sample "idle" "none") = true) as Hc
    by (vm_compute; reflexivity).
  split; [exact Hc|].
  destruct (user_brightness_clamped (sample "idle" "none") 150 Hc)
    as (s' & Hset & Hget & _).
  exists s'. by split.
Defined.

(** C6, as the claim words it, fails at a NaN: [setUserBrightness] stores
    0.0 there, while [min(max(b, 0.0), 100.0)] is a NaN. *)
Lemma user_brightness_nan_counterexample :
  let s := exec (setUserBrightness nan) (sample "idle" "none") in
  fst (setUserBrightness nan (sample "idle" "none")) = Ok tt /\
  getUserBrightness s = (Ok (PFloat 0), s) /\
  (Py.min (Py.max nan 0) 100 =? Py.min (Py.max nan 0) 100)%float = false /\
  ~ (forall b : float,
        fst (getUserBrightness (exec (setUserBrightness b) (sample "idle" "none")))
        = Ok (PFloat (Py.min (Py.max b 0) 100))).
Proof.
  intros s. split; [by vm_compute|]. split; [by vm_compute|].
  split; [by vm_compute|].
  intros H. specialize (H nan).
  apply (f_equal (fun r => match r with
                           | Ok (PFloat x) => (x =? x)%float
                           | _ => true
                           end)) in H.
  vm_compute in H. discriminate H.
Qed.

Lemma color_setters_round_trip_witness :
  constructed (sample "idle" "none") = true /\
  exists s',
    setMainColorHue 725 (sample "idle" "none") = (Ok tt, s') /\
    getMainColorHue s' = (Ok 725%float, s').
Proof.
  assert (constructed (sample "idle" "none") = true) as Hc
    by (vm_compute; reflexivity).
  split; [exact Hc|].
  exact (proj1 (color_setters_round_trip (sample "idle" "none") 725 Hc)).
Defined.

(** The printer prints and signals that the job waits for cleanup: after the
    startup fade the queue holds Static Purple. *)
Example wait_cleanup_is_purple :
  SpecScheduler.queue
    (base (exec (__onPrinterPropertyChanged "job_state" (Py.VStr "wait_cleanup"))
             (sample "printing" "printing")))
  = [FadeEffect (mkHsv 0 0 100) 6; StaticEffect PURPLE].
Proof. by vm_compute. Qed.

(** A steady-state effect replaces the one queued before it. *)
Example printing_then_error :
  SpecScheduler.queue
    (base (exec (__onPrinterPropertyChanged "state" (Py.VStr "error"))
             (exec __update (sample "printing" "printing"))))
  = [FadeEffect (mkHsv 0 0 100) 6; StaticEffect RED].
Proof. by vm_compute. Qed.

(** The user brightness on the bounds and outside of the order: a NaN is
    stored as 0.0. *)
Example clamp_samples :
  Py.max 0 (Py.min 150 100) = 100%float /\
  Py.max 0 (Py.min (-10) 100) = 0%float /\
  Py.max 0 (Py.min 42.5 100) = 42.5%float /\
  Py.max 0 (Py.min infinity 100) = 100%float /\
  Py.max 0 (Py.min nan 100) = 0%float.
Proof. repeat split. Qed.

End MainLightingProperties.

(** ** Properties of the button ring controller *)

Module ButtonRingProperties.
Import ButtonRingController.

Section Properties.
Context {theme : ColorTheme} {Q : Type} {scheduler : AbstractController Q}.

Abbreviation self := (ButtonRingController.t Q).

(** Every setter of the custom theme ends in [__update]. *)
Lemma setters_update (s : self) (x : float) :
  setCustomRingHue x s = __update (with_customTheme (set_hue x) s) /\
  setCustomRingSaturation x s = __update (with_customTheme (set_saturation x) s) /\
  setCustomRingBrightness x s = __update (with_customTheme (set_value x) s).
Proof. repeat split; reflexivity. Qed.

(** C2. The priority policy of the button ring: a re-evaluation takes the
    first rule that matches, in this order: error: Glow Black-Red; an
    interaction is required: Glow Black-Yellow; printing and the job waits
    for cleanup: Glow Black-Purple; printing and the job is paused: Glow
    Black-Cyan, each at 0.5 Hz; otherwise a Static effect of the custom
    theme color. *)
Theorem ring_priority_policy (s : self) :
  let printer_is name := Py.eq_str (__printer_state s) name in
  let job_is name := Py.eq_str (__job_state s) name in
  __update s =
    (Ok tt,
     with_base
       (_queueEffect
          (if printer_is "error" then GlowEffect BLACK RED 0.5
           else if Py.truthy (__interaction_required s) then
             GlowEffect BLACK YELLOW 0.5
           else if printer_is "printing" && job_is "wait_cleanup" then
             GlowEffect BLACK PURPLE 0.5
           else if printer_is "printing" && job_is "paused" then
             GlowEffect BLACK CYAN 0.5
           else StaticEffect (__customTheme s))) s).
Proof.
  intros printer_is job_is. unfold __update, bind, gets.
  fold (printer_is "error") (printer_is "printing")
    (job_is "wait_cleanup") (job_is "paused").
  repeat match goal with |- context [if ?b then _ else _] => destruct b end;
    reflexivity.
Qed.

End Properties.

#[local] Existing Instance SampleTheme.theme.
#[local] Existing Instance SpecScheduler.scheduler.

(** An error comes before a required interaction. *)
Example ring_error_first :
  SpecScheduler.queue (base (exec __update (ButtonRingSpec.sample "error" "none" true)))
  = [FadeEffect ULTIMAKER 6; GlowEffect BLACK RED 0.5].
Proof. reflexivity. Qed.

Example ring_interaction_required :
  SpecScheduler.queue (base (exec __update (ButtonRingSpec.sample "idle" "none" true)))
  = [FadeEffect ULTIMAKER 6; GlowEffect BLACK YELLOW 0.5].
Proof. reflexivity. Qed.

Example ring_paused :
  SpecScheduler.queue (base (exec __update (ButtonRingSpec.sample "printing" "paused" false)))
  = [FadeEffect ULTIMAKER 6; GlowEffect BLACK CYAN 0.5].
Proof. reflexivity. Qed.

(** Printing with no job state of the list: the custom theme, here with the
    hue the user has set. *)
Example ring_custom_theme :
  SpecScheduler.queue
    (base (exec (setCustomRingHue 42) (ButtonRingSpec.sample "printing" "printing" false)))
  = [FadeEffect ULTIMAKER 6; StaticEffect (mkHsv 42 80 100)].
Proof. reflexivity. Qed.

End ButtonRingProperties.

(** ** Properties of the service *)

Module LedServiceProperties.
Import LedService LedServiceSpec.

Section Properties.
Context {theme : ColorTheme} {Q R : Type}.
Context {scheduler : AbstractController Q} {random : Random R}.
Context {D : Type} {debug_leds : DebugLedsHardware D}.

Abbreviation self := (LedService.t Q R D).

Lemma on_main_controller_none {A} (default : A) method (s : self) :
  __main_controller s = None -> on_main_controller default method s = (Ok default, s).
Proof. intros H. unfold on_main_controller. by rewrite H. Qed.

Lemma on_button_ring_controller_none {A} (default : A) method (s : self) :
  __button_ring_controller s = None ->
  on_button_ring_controller default method s = (Ok default, s).
Proof. intros H. unfold on_button_ring_controller. by rewrite H. Qed.

Lemma ring_none_degraded (s : self) :
  __button_ring_controller s = None -> ring_facade_degraded s.
Proof.
  intros H. repeat split; intros; by apply on_button_ring_controller_none.
Qed.

(** C3. While a controller is not constructed, every getter of the facade
    on it returns 0.0 (hue, saturation, brightness, user brightness) or
    False (mode flag, runtime flag), and every setter, blink and
    resetSettings return with the service unchanged and raise nothing. *)
Theorem facade_before_construction (s : self) :
  (__main_controller s = None ->
   getMainLightingHue s = (Ok 0%float, s) /\
   getMainLightingSaturation s = (Ok 0%float, s) /\
   getMainLightingBrightness s = (Ok 0%float, s) /\
   getMainLightingUserBrightness s = (Ok 0%float, s) /\
   (forall name, getMainLightingModeFlag name s = (Ok false, s)) /\
   (forall name, getMainLightingRuntimeFlag name s = (Ok false, s)) /\
   (forall x, setMainLightingHue x s = (Ok tt, s)) /\
   (forall x, setMainLightingSaturation x s = (Ok tt, s)) /\
   (forall x, setMainLightingBrightness x s = (Ok tt, s)) /\
   (forall x, setMainLightingUserBrightness x s = (Ok tt, s)) /\
   (forall name v, setMainLightingModeFlag name v s = (Ok tt, s)) /\
   (forall name v, setMainLightingRuntimeFlag name v s = (Ok tt, s)) /\
   (forall frequency count, blinkMainLighting frequency count s = (Ok tt, s)) /\
   (forall reset_type, resetSettings reset_type s = (Ok tt, s))) /\
  (__button_ring_controller s = None ->
   getRingLightingHue s = (Ok 0%float, s) /\
   getRingLightingSaturation s = (Ok 0%float, s) /\
   getRingLightingBrightness s = (Ok 0%float, s) /\
   (forall x, setRingLightingHue x s = (Ok tt, s)) /\
   (forall x, setRingLightingSaturation x s = (Ok tt, s)) /\
   (forall x, setRingLightingBrightness x s = (Ok tt, s))).
Proof.
  split; intros H.
  - repeat split; intros; by apply on_main_controller_none.
  - by apply ring_none_degraded.
Qed.

(** *** The main controller of a running service *)

Lemma on_main_controller_constructed {A} (default : A) method (s : self) :
  MainLightingSpec.keeps_constructed method ->
  main_constructed s -> main_constructed (exec (on_main_controller default method) s).
Proof.
  intros Hkeeps H c. unfold exec, on_main_controller.
  destruct (__main_controller s) as [c0|] eqn:Hmain; [|simpl; apply H].
  specialize (Hkeeps c0 (H c0 Hmain)). unfold exec in Hkeeps.
  destruct (method c0) as [r c1]. simpl. by intros [= <-].
Qed.

Lemma on_button_ring_controller_constructed {A} (default : A) method (s : self) :
  main_constructed s ->
  main_constructed (exec (on_button_ring_controller default method) s).
Proof.
  intros H. unfold exec, on_button_ring_controller.
  destruct (__button_ring_controller s) as [c|]; [|done].
  by destruct (method c).
Qed.

Lemma start_constructed (s : self) :
  main_constructed s -> main_constructed (exec __start s).
Proof.
  intros H. unfold exec, __start, bind, gets.
  remember (Py.contains ["9066"; "9511"]) as um3 eqn:Hum3.
  destruct (__running s); [done|]. simpl.
  destruct (MainLightingProperties.init_constructed MainLightingHardware
              (__property_container s) (RegistryFile.load (main_lighting_json s))
              (__printer s) (random_state s)) as (main & Hmain & Hc & _).
  rewrite Hmain. simpl.
  destruct (um3 (Py.str (machine_bom s))); simpl; by intros c [= <-].
Qed.

Lemma step_constructed (s : self) (e : Event) :
  main_constructed s -> main_constructed (step s e).
Proof.
  intros H.
  pose proof (MainLightingProperties.keeps_methods (Q := Q) (R := R))
    as (K1 & K2 & K3 & K4 & K5 & K6 & K7 & K8 & K9 & K10 & K11 & K12 & K13
        & K14 & K15 & K16).
  destruct e; simpl;
    try (by apply on_main_controller_constructed);
    try (by apply on_button_ring_controller_constructed).
  - unfold getMainLightingUserBrightness.
    apply on_main_controller_constructed; [|done].
    apply MainLightingProperties.keeps_bind; [done|].
    intros. apply MainLightingProperties.keeps_ret.
  - unfold getMainLightingModeFlag.
    apply on_main_controller_constructed; [|done].
    apply MainLightingProperties.keeps_bind; [done|].
    intros. apply MainLightingProperties.keeps_ret.
  - unfold debugLed, exec, on_debugLeds.
    by destruct toggle;
      [destruct (turnOn led (__debugLeds s))|destruct (turnOff led (__debugLeds s))].
  - unfold propertyChanged.
    set (s1 := with_printer _ s).
    assert (main_constructed s1) as H1 by exact H.
    assert (main_constructed (exec (__onPrinterPropertyChanged key v) s1)) as H2.
    { unfold __onPrinterPropertyChanged, _onPrinterStateChanged.
      destruct (String.eqb key "state"); [|done].
      destruct (negb _); [by apply start_constructed|done]. }
    destruct (__running s1); [|done].
    apply (on_main_controller_constructed tt
             (MainLightingController.__onPrinterPropertyChanged key v)) in H2;
      [|done].
    apply (on_button_ring_controller_constructed tt
             (ButtonRingController.__onPrinterPropertyChanged key v)) in H2.
    exact H2.
Qed.

(** The main controller of the service holds its four properties from the
    moment it is built, whatever happens to the service. *)
Lemma reachable_main_constructed printer bom on_disk (r : R) (events : list Event) :
  main_constructed (run events (__init__ printer bom on_disk r)).
Proof.
  assert (main_constructed (__init__ printer bom on_disk r)) as Hinit.
  { unfold __init__, _onPrinterStateChanged.
    destruct (negb _); [|by intros c].
    apply start_constructed. by intros c. }
  revert Hinit. generalize (__init__ printer bom on_disk r). unfold run.
  induction events as [|e events IH]; intros s H; simpl; [done|].
  apply IH. by apply step_constructed.
Qed.

(** *** The button ring controller on machines that are no UM3 *)

Lemma not_um3 bom :
  Py.str bom <> "9066" -> Py.str bom <> "9511" ->
  Py.contains ["9066"; "9511"] (Py.str bom) = false.
Proof.
  intros H1 H2. unfold Py.contains. simpl.
  apply String.eqb_neq in H1, H2. by rewrite H1, H2.
Qed.

Lemma on_main_controller_no_ring {A} bom (default : A) method (s : self) :
  no_ring bom s -> no_ring bom (exec (on_main_controller default method) s).
Proof.
  intros [Hbom Hring]. unfold exec, on_main_controller.
  destruct (__main_controller s) as [c|]; [|done].
  by destruct (method c).
Qed.

Lemma on_button_ring_controller_no_ring {A} bom (default : A) method (s : self) :
  no_ring bom s -> no_ring bom (exec (on_button_ring_controller default method) s).
Proof.
  intros H. unfold exec.
  by rewrite (on_button_ring_controller_none _ _ _ (proj2 H)).
Qed.

Lemma start_no_ring bom (s : self) :
  Py.contains ["9066"; "9511"] (Py.str bom) = false ->
  no_ring bom s -> no_ring bom (exec __start s).
Proof.
  intros Hbom [Hb Hring]. rewrite <- Hb in Hbom.
  unfold exec, __start, bind, gets.
  remember (Py.contains ["9066"; "9511"]) as um3 eqn:Hum3.
  destruct (__running s); [done|]. simpl.
  destruct (MainLightingController.__init__ _ _ _ _ _) as [[[]|e] main]; [|done].
  simpl. by rewrite Hbom.
Qed.

Lemma onPrinterStateChanged_no_ring bom v (s : self) :
  Py.contains ["9066"; "9511"] (Py.str bom) = false ->
  no_ring bom s -> no_ring bom (exec (_onPrinterStateChanged v) s).
Proof.
  intros Hbom H. unfold _onPrinterStateChanged.
  destruct (negb _); [by apply start_no_ring|done].
Qed.

Lemma step_no_ring bom (s : self) (e : Event) :
  Py.contains ["9066"; "9511"] (Py.str bom) = false ->
  no_ring bom s -> no_ring bom (step s e).
Proof.
  intros Hbom H.
  destruct e; simpl;
    try (by apply on_main_controller_no_ring);
    try (by apply on_button_ring_controller_no_ring).
  - unfold debugLed, exec, on_debugLeds.
    by destruct toggle;
      [destruct (turnOn led (__debugLeds s))|destruct (turnOff led (__debugLeds s))].
  - unfold propertyChanged.
    set (s1 := with_printer _ s).
    assert (no_ring bom s1) as H1 by exact H.
    assert (no_ring bom (exec (__onPrinterPropertyChanged key v) s1)) as H2.
    { unfold __onPrinterPropertyChanged.
      destruct (String.eqb key "state");
        [by apply onPrinterStateChanged_no_ring|done]. }
    destruct (__running s1); [|done].
    apply (on_main_controller_no_ring bom tt
             (MainLightingController.__onPrinterPropertyChanged key v)) in H2.
    apply (on_button_ring_controller_no_ring bom tt
             (ButtonRingController.__onPrinterPropertyChanged key v)) in H2.
    exact H2.
Qed.

Lemma run_no_ring bom (events : list Event) (s : self) :
  Py.contains ["9066"; "9511"] (Py.str bom) = false ->
  no_ring bom s -> no_ring bom (run events s).
Proof.
  intros Hbom. revert s. unfold run.
  induction events as [|e events IH]; intros s H; simpl; [done|].
  apply IH. by apply step_no_ring.
Qed.

Lemma init_no_ring printer bom on_disk (r : R) :
  Py.contains ["9066"; "9511"] (Py.str bom) = false ->
  no_ring bom (__init__ printer bom on_disk r).
Proof.
  intros Hbom. unfold __init__. by apply onPrinterStateChanged_no_ring.
Qed.

(** C10. On a machine whose BOM is neither 9066 nor 9511 the service never
    holds a button ring controller: after its constructor and any sequence
    of calls, signals and timers, started or not, the ring getters return
    0.0 and the ring setters change nothing. *)
Theorem ring_never_assigned printer bom on_disk (r : R) (events : list Event) :
  Py.str bom <> "9066" -> Py.str bom <> "9511" ->
  let s := run events (__init__ printer bom on_disk r) in
  __button_ring_controller s = None /\
  getRingLightingHue s = (Ok 0%float, s) /\
  getRingLightingSaturation s = (Ok 0%float, s) /\
  getRingLightingBrightness s = (Ok 0%float, s) /\
  (forall x, setRingLightingHue x s = (Ok tt, s)) /\
  (forall x, setRingLightingSaturation x s = (Ok tt, s)) /\
  (forall x, setRingLightingBrightness x s = (Ok tt, s)).
Proof.
  intros H1 H2 s. pose proof (not_um3 _ H1 H2) as Hbom.
  destruct (run_no_ring bom events _ Hbom (init_no_ring printer bom on_disk r Hbom))
    as [_ Hring].
  split; [exact Hring|]. by apply ring_none_degraded.
Qed.

(** By contrast, on a UM3 or a UM3 Extended the service holds a button
    ring controller as soon as it has started. *)
Lemma um3_ring_assigned printer bom on_disk (r : R) :
  Py.contains ["9066"; "9511"] (Py.str bom) = true ->
  Py.eq_str (state printer) "booting" = false ->
  __button_ring_controller (__init__ printer bom on_disk r)
  = Some (ButtonRingController.__init__ ButtonRingHardware printer).
Proof.
  intros Hbom Hstate.
  unfold __init__, exec, _onPrinterStateChanged. rewrite Hstate.
  unfold __start, bind, gets.
  remember (Py.contains ["9066"; "9511"]) as um3 eqn:Hum3. simpl.
  destruct (MainLightingProperties.init_constructed MainLightingHardware ∅
              (RegistryFile.load on_disk) printer r) as (main & Hmain & _).
  rewrite Hmain. simpl. by rewrite Hbom.
Qed.

End Properties.

#[local] Existing Instance SampleTheme.theme.
#[local] Existing Instance SpecScheduler.scheduler.
#[local] Existing Instance CoinRandom.random.
#[local] Existing Instance SampleDebugLeds.hardware.

Lemma facade_before_construction_witness :
  __main_controller booting = None /\
  __button_ring_controller booting = None /\
  getMainLightingHue booting = (Ok 0%float, booting) /\
  getMainLightingModeFlag "party" booting = (Ok false, booting) /\
  setMainLightingModeFlag "disco" true booting = (Ok tt, booting) /\
  setRingLightingHue 120 booting = (Ok tt, booting).
Proof.
  assert (__main_controller booting = None) as Hmain by reflexivity.
  assert (__button_ring_controller booting = None) as Hring by reflexivity.
  split; [exact Hmain|]. split; [exact Hring|].
  destruct (facade_before_construction booting) as [Hm Hr].
  destruct (Hm Hmain) as (Hhue & _ & _ & _ & Hflag & _ & _ & _ & _ & _ & Hset & _).
  destruct (Hr Hring) as (_ & _ & _ & Hringset & _).
  split; [exact Hhue|]. split; [exact (Hflag "party")|].
  split; [exact (Hset "disco" true)|]. exact (Hringset 120%float).
Defined.

Lemma ring_never_assigned_witness :
  Py.str (Py.VInt 213482) <> "9066" /\
  Py.str (Py.VInt 213482) <> "9511" /\
  __running other_machine = true /\
  getMainLightingHue other_machine = (Ok 200%float, other_machine) /\
  __button_ring_controller other_machine = None /\
  getRingLightingHue other_machine = (Ok 0%float, other_machine).
Proof.
  assert (Py.str (Py.VInt 213482) <> "9066") as H1
    by (vm_compute; discriminate).
  assert (Py.str (Py.VInt 213482) <> "9511") as H2
    by (vm_compute; discriminate).
  split; [exact H1|]. split; [exact H2|].
  split; [by vm_compute|]. split; [by vm_compute|].
  destruct (ring_never_assigned
              (mkPrinter (Py.VStr "booting") (Py.VStr "none") (Py.VBool false))
              (Py.VInt 213482) ∅ [true; false]
              [Signal_propertyChanged "state" (Py.VStr "idle");
               Call_setRingLightingHue 120;
               Call_setMainLightingHue 200] H1 H2) as (Hnone & Hhue & _).
  split; [exact Hnone|exact Hhue].
Defined.


(** On the UM3 the ring controller is there, and the ring getter returns the
    hue that was set. *)
Example um3_ring_hue :
  getRingLightingHue um3 = (Ok 120%float, um3) /\
  getMainLightingHue um3 = (Ok 200%float, um3).
Proof. split; by vm_compute. Qed.

End LedServiceProperties.

(** ** Properties of the web server *)

Module UM3ServerProperties.
Import UM3Server.

Lemma prefix_app (p s : string) :
  String.prefix p s = true <-> exists rest, s = (p ++ rest)%string.
Proof.
  revert s. induction p as [|a p IH]; intros s.
  - split; [intros _; exists s; reflexivity|intros _; by destruct s].
  - destruct s as [|b s].
    + split; [intros H; discriminate H|]. intros [rest H]. discriminate H.
    + change (String.prefix (String a p) (String b s))
        with (if Ascii.ascii_dec a b then String.prefix p s else false).
      destruct (Ascii.ascii_dec a b) as [->|Hne].
      * rewrite IH. split; intros [rest H]; exists rest.
        -- by rewrite H.
        -- by injection H.
      * split; [intros H; discriminate H|]. intros [rest H].
        injection H as H1 H2. done.
Qed.

(** X1. A 404 on the root or on a path that starts with /api is answered with
    the JSON error; every other path is redirected to the root with status
    302, and nothing else is ever answered. *)
Theorem file_not_found_redirects {E : Type} (request_path : string) (exception : E) :
  (_handleFileNotFound request_path exception = JSONError exception <->
   request_path = "/" \/ exists rest, request_path = ("/api" ++ rest)%string) /\
  (_handleFileNotFound request_path exception = Redirect "/" 302 <->
   request_path <> "/" /\ forall rest, request_path <> ("/api" ++ rest)%string).
Proof.
  unfold _handleFileNotFound.
  change ("/" ++ API_BASE_PATH)%string with "/api".
  destruct (String.eqb_spec request_path "/") as [->|Hroot]; simpl.
  - split; split; try done; [by left|]. by intros [H _].
  - destruct (String.prefix "/api" request_path) eqn:Hp.
    + apply prefix_app in Hp as [rest ->]. split; split; try done.
      * intros _. right. by exists rest.
      * intros [_ H]. by destruct (H rest).
    + split; split; try done.
      * intros [->|[rest ->]]; [done|].
        assert (String.prefix "/api" ("/api" ++ rest) = true) as H
            by (apply prefix_app; by exists rest).
        congruence.
      * intros _. split; [done|]. intros rest ->.
        assert (String.prefix "/api" ("/api" ++ rest) = true) as H
            by (apply prefix_app; by exists rest).
        congruence.
Qed.

Example file_not_found_samples :
  _handleFileNotFound "/api/v1/printer/ringled" 404%Z = JSONError 404%Z /\
  _handleFileNotFound "/apiary" 404%Z = JSONError 404%Z /\
  _handleFileNotFound "/generate_204" 404%Z = Redirect "/" 302 /\
  _handleFileNotFound "/v1/api" 404%Z = Redirect "/" 302 /\
  _handleFileNotFound EmptyString 404%Z = Redirect "/" 302.
Proof. repeat split. Qed.

(** X2. The wifi and the ethernet are never reported connected together; both
    are reported enabled in the mode AUTO alone; and authentication is switched
    off in the mode WIFI SETUP alone, in which the wifi is reported enabled and
    the ethernet is not. *)
Theorem network_flags (connected_method mode : string) :
  wifi_connected connected_method && ethernet_connected connected_method = false /\
  (wifi_enabled mode && ethernet_enabled mode = true <-> mode = "AUTO") /\
  (_onNetworkModeChanged mode = disableAuthentication <-> mode = "WIFI SETUP") /\
  (_onNetworkModeChanged mode = disableAuthentication ->
   wifi_enabled mode = true /\ ethernet_enabled mode = false).
Proof.
  unfold wifi_connected, ethernet_connected, wifi_enabled, ethernet_enabled,
    _onNetworkModeChanged, Py.contains. simpl.
  split; [|split; [|split]].
  - destruct (String.eqb_spec connected_method "ETHERNET") as [->|]; [done|].
    by rewrite !orb_false_r, andb_false_r.
  - destruct (String.eqb_spec mode "AUTO") as [->|Hauto]; [done|]. simpl.
    destruct (String.eqb_spec mode "CABLE") as [->|]; [done|].
    by rewrite !orb_false_r, andb_false_r.
  - by destruct (String.eqb_spec mode "WIFI SETUP") as [->|].
  - by destruct (String.eqb_spec mode "WIFI SETUP") as [->|].
Qed.

(** Finite floats: a float minus itself is +0, and the magnitude of an
    infinity or of a NaN is not below infinity. *)
Lemma sub_diag_finite (x : float) :
  (abs x <? infinity)%float = true -> (x - x)%float = 0%float.
Proof.
  intros Hfin. rewrite <- (FloatAxioms.SF2Prim_Prim2SF (x - x)).
  rewrite FloatAxioms.sub_spec.
  revert Hfin. rewrite FloatAxioms.ltb_spec, FloatAxioms.abs_spec.
  change (Prim2SF infinity) with (S754_infinity false).
  destruct (Prim2SF x) as [sx|sx| |sx mx ex].
  - intros _. by destruct sx.
  - intros H. discriminate H.
  - intros H. discriminate H.
  - intros _. unfold FloatAxioms.SF64sub, SFsub. rewrite Z.sub_diag. reflexivity.
Qed.

Lemma sub_diag_infinite (x : float) :
  (x =? infinity)%float = true -> ((x - x) =? (x - x))%float = false.
Proof.
  rewrite !FloatAxioms.eqb_spec, FloatAxioms.sub_spec.
  change (Prim2SF infinity) with (S754_infinity false).
  destruct (Prim2SF x) as [sx|sx| |sx mx ex].
  - intros H. by destruct sx.
  - destruct sx; [intros H; discriminate H|]. intros _. reflexivity.
  - intros H. discriminate H.
  - intros H. by destruct sx.
Qed.

(** X3. The target temperature sent to the printer: a target of zero is sent
    as it is, whatever the tuning offset; any other target is lowered by the
    tuning offset of its owner, so a finite target that equals the offset is
    sent as 0.0, the value that asks for the heater to be off. *)
Theorem target_temperature_offset (tune_offset_temperature : string -> float)
    (property_owner : string) (new_temperature : float) :
  let call := __setTargetTemperature tune_offset_temperature property_owner
                new_temperature in
  owner call = property_owner /\
  property call = "pre_tune_target_temperature" /\
  ((new_temperature =? 0)%float = true -> sent call = new_temperature) /\
  ((new_temperature =? 0)%float = false ->
   sent call = (new_temperature - tune_offset_temperature property_owner)%float) /\
  ((new_temperature =? 0)%float = false ->
   (abs new_temperature <? infinity)%float = true ->
   tune_offset_temperature property_owner = new_temperature ->
   sent call = 0%float).
Proof.
  unfold __setTargetTemperature. simpl. repeat split.
  - by intros ->.
  - by intros ->.
  - intros -> Hfin ->. simpl. by apply sub_diag_finite.
Qed.

Lemma target_temperature_offset_witness :
  (60 =? 0)%float = false /\ (abs 60 <? infinity)%float = true /\
  sent (__setTargetTemperature (fun _ => 60%float) "printer/bed" 60) = 0%float /\
  sent (__setTargetTemperature (fun _ => 60%float) "printer/bed" 0) = 0%float /\
  sent (__setTargetTemperature (fun _ => 5%float) "printer/bed" 60) = 55%float.
Proof.
  split; [reflexivity|]. split; [reflexivity|].
  destruct (target_temperature_offset (fun _ => 60%float) "printer/bed" 60)
    as (_ & _ & _ & _ & Hoff).
  split; [exact (Hoff eq_refl eq_refl eq_refl)|].
  split; reflexivity.
Defined.

Lemma eqb_neg_infinity (z : float) :
  (z =? neg_infinity)%float = true -> Prim2SF z = S754_infinity true.
Proof.
  rewrite FloatAxioms.eqb_spec.
  change (Prim2SF neg_infinity) with (S754_infinity true).
  destruct (Prim2SF z) as [sx|sx| |sx mx ex].
  - intros H. by destruct sx.
  - destruct sx; [reflexivity|]. intros H. discriminate H.
  - intros H. discriminate H.
  - intros H. by destruct sx.
Qed.

(** The difference of two negative infinities is not a number, and a
    negative infinity does not equal the positive one. *)
Lemma sub_neg_infinities (z z0 : float) :
  (z =? neg_infinity)%float = true -> (z0 =? neg_infinity)%float = true ->
  ((z - z0) =? (z - z0))%float = false /\
  (z =? infinity)%float = false /\ (z0 =? infinity)%float = false.
Proof.
  intros H H0. apply eqb_neg_infinity in H, H0.
  rewrite !FloatAxioms.eqb_spec, FloatAxioms.sub_spec, H, H0.
  change (Prim2SF infinity) with (S754_infinity false). by repeat split.
Qed.

(** X4. The offsets of a hotend. An offset whose state is valid has its x
    taken from the slot itself, and neither height equals the positive
    infinity, the one value the state is tested against. The z offset of the
    first slot, which is measured against itself, is 0.0 whenever its height is
    not set or finite; a first slot whose height is the positive infinity has
    an invalid offset, and its z offset is not a number. A height that is the
    negative infinity is not caught: with x set and both heights at the
    negative infinity the state is valid and the z offset is not a number. *)
Theorem hotend_offsets (hotend_slot hotend_slot_0 : HotendSlot)
    (hotend_offset_1_x : float) :
  (offset_state hotend_slot hotend_slot_0 = "valid" ->
   exists x, x_offset hotend_slot = Number x /\
             offset_x hotend_slot hotend_offset_1_x = x /\
             is_inf (z_height hotend_slot) = false /\
             is_inf (z_height hotend_slot_0) = false) /\
  (z_height hotend_slot_0 = NotSet -> offset_z hotend_slot_0 hotend_slot_0 = 0%float) /\
  (forall z, z_height hotend_slot_0 = Number z ->
             (abs z <? infinity)%float = true ->
             offset_z hotend_slot_0 hotend_slot_0 = 0%float) /\
  (forall z, z_height hotend_slot_0 = Number z ->
             (z =? infinity)%float = true ->
             offset_state hotend_slot hotend_slot_0 = "invalid" /\
             (offset_z hotend_slot_0 hotend_slot_0
              =? offset_z hotend_slot_0 hotend_slot_0)%float = false) /\
  (forall x z z0,
      x_offset hotend_slot = Number x ->
      z_height hotend_slot = Number z -> z_height hotend_slot_0 = Number z0 ->
      (z =? neg_infinity)%float = true -> (z0 =? neg_infinity)%float = true ->
      offset_state hotend_slot hotend_slot_0 = "valid" /\
      (offset_z hotend_slot hotend_slot_0
       =? offset_z hotend_slot hotend_slot_0)%float = false).
Proof.
  unfold offset_state, offset_x, offset_z, is_set, is_inf.
  split; [|split; [|split; [|split]]].
  - destruct (x_offset hotend_slot) as [|x]; [done|]. simpl.
    destruct (z_height hotend_slot) as [|z], (z_height hotend_slot_0) as [|z0];
      simpl; try destruct (z =? infinity)%float; try destruct (z0 =? infinity)%float;
      simpl; try done; intros _; by exists x.
  - by intros ->.
  - intros z -> Hfin. by apply sub_diag_finite.
  - intros z -> Hinf. rewrite Hinf, orb_true_r. split; [done|].
    by apply sub_diag_infinite.
  - intros x z z0 -> -> -> Hz Hz0.
    destruct (sub_neg_infinities z z0 Hz Hz0) as (Hnan & -> & ->).
    by split.
Qed.

Lemma hotend_offsets_witness :
  offset_state (mkHotendSlot (Number 18) (Number 0) (Number 2.5))
               (mkHotendSlot (Number 0) (Number 0) (Number 1.5)) = "valid" /\
  offset_x (mkHotendSlot (Number 18) (Number 0) (Number 2.5)) 22 = 18%float /\
  offset_z (mkHotendSlot (Number 0) (Number 0) (Number 1.5))
           (mkHotendSlot (Number 0) (Number 0) (Number 1.5)) = 0%float /\
  offset_state (mkHotendSlot (Number 18) (Number 0) (Number neg_infinity))
               (mkHotendSlot (Number 0) (Number 0) (Number neg_infinity)) = "valid".
Proof.
  split; [reflexivity|].
  destruct (hotend_offsets (mkHotendSlot (Number 18) (Number 0) (Number 2.5))
              (mkHotendSlot (Number 0) (Number 0) (Number 1.5)) 22)
    as (Hvalid & _ & Hz & _).
  destruct (Hvalid eq_refl) as (x & Hx & Hox & _).
  split; [by rewrite Hox; injection Hx as <-|].
  split; [exact (Hz 1.5%float eq_refl eq_refl)|].
  destruct (hotend_offsets
              (mkHotendSlot (Number 18) (Number 0) (Number neg_infinity))
              (mkHotendSlot (Number 0) (Number 0) (Number neg_infinity)) 22)
    as (_ & _ & _ & _ & Hneg).
  exact (proj1 (Hneg 18%float neg_infinity neg_infinity eq_refl eq_refl eq_refl
                  eq_refl eq_refl)).
Defined.

End UM3ServerProperties.

(** ** What methods preserve *)

Section Preserves.
Context {S : Type} (P : S -> Prop).

Lemma preserves_ret {A} (a : A) : preserves P (ret a).
Proof. by intros s H. Qed.

Lemma preserves_raise {A} e : preserves P (raise (A := A) e).
Proof. by intros s H. Qed.

Lemma preserves_gets {A} (f : S -> A) : preserves P (gets f).
Proof. by intros s H. Qed.

Lemma preserves_assert cond : preserves P (assert cond).
Proof. intros s H. by destruct cond. Qed.

Lemma preserves_bind {A B} (m : M S A) (k : A -> M S B) :
  preserves P m -> (forall a, preserves P (k a)) -> preserves P (bind m k).
Proof.
  intros Hm Hk s H. specialize (Hm s H). unfold exec, bind in *.
  destruct (m s) as [[a|e] s']; [|exact Hm]. exact (Hk a s' Hm).
Qed.

Lemma preserves_if {A} (b : bool) (m1 m2 : M S A) :
  preserves P m1 -> preserves P m2 -> preserves P (if b then m1 else m2).
Proof. by destruct b. Qed.

Lemma preserves_modify (f : S -> S) :
  (forall s, P s -> P (f s)) -> preserves P (modify f).
Proof. intros Hf s H. exact (Hf s H). Qed.

Lemma preserves_for_each {A} (l : list A) (body : A -> M S unit) :
  (forall x, preserves P (body x)) -> preserves P (for_each l body).
Proof.
  intros Hbody. induction l as [|x l IH]; simpl; [apply preserves_ret|].
  apply preserves_bind; [apply Hbody|]. intros _. exact IH.
Qed.

End Preserves.

(** ** The hardware of a controller *)

Section OnHardware.
Context {Q : Type} {scheduler : AbstractController Q}.

Lemma on_hardware_init hw : on_hardware hw (base_init hw).
Proof. by exists []. Qed.

Lemma on_hardware_queue hw (q : Q) e :
  on_hardware hw q -> on_hardware hw (_queueEffect e q).
Proof. intros [l ->]. exists (l ++ [e])%list. by rewrite fold_left_app. Qed.

End OnHardware.

(** ** More properties of the main lighting controller *)

Module MainLightingLife.
Import MainLightingController MainLightingSpec MainLightingView.

Section Properties.
Context {theme : ColorTheme} {Q R : Type}.
Context {scheduler : AbstractController Q} {random : Random R}.

Abbreviation self := (MainLightingController.t Q R).

Lemma with_default_lookup key v (r : RegistryFile.t) key' :
  RegistryFile.data (with_default key v r) !! key'
  = if decide (key = key') then Some (default v (RegistryFile.data r !! key))
    else RegistryFile.data r !! key'.
Proof.
  unfold with_default, RegistryFile.has.
  destruct (RegistryFile.data r !! key) as [x|] eqn:Hx.
  - rewrite bool_decide_eq_true_2 by eauto.
    destruct (decide (key = key')) as [<-|]; [by rewrite Hx|done].
  - rewrite bool_decide_eq_false_2 by (intros [? ?]; congruence).
    simpl. destruct (decide (key = key')) as [<-|].
    + by rewrite lookup_insert_eq.
    + by rewrite lookup_insert_ne.
Qed.

Lemma add_mode_property_stored (s : self) key b :
  __DEFAULT_MODE_SETTINGS !! key = Some b ->
  add_mode_property key s
  = (Ok tt,
     with_property_container
       (insert key (PBool (prop_truthy
                             (default (PBool b)
                                (RegistryFile.data (__preferences s) !! key)))))
       (with_preferences (with_default key (PBool b)) s)).
Proof.
  intros Hb. unfold add_mode_property, bind, gets, with_default.
  destruct (RegistryFile.has key (__preferences s)) eqn:Hhas; simpl.
  - pose proof Hhas as Hsome. apply bool_decide_eq_true in Hsome as [x Hx].
    unfold RegistryFile.getAsBoolean. rewrite Hx. simpl.
    unfold modify, with_preferences. simpl. by rewrite Hhas.
  - rewrite Hb. unfold modify. simpl.
    unfold RegistryFile.getAsBoolean. simpl. rewrite lookup_insert_eq. simpl.
    unfold with_preferences. simpl. rewrite Hhas.
    apply bool_decide_eq_false in Hhas.
    destruct (RegistryFile.data (__preferences s) !! key) eqn:Hx; [|done].
    destruct Hhas. eauto.
Qed.

Lemma add_user_brightness_property_stored (s : self) :
  add_user_brightness_property s
  = (Ok tt,
     with_property_container
       (insert "user_brightness"
          (PFloat (prop_float
                     (default (PFloat 100)
                        (RegistryFile.data (__preferences s) !! "user_brightness")))))
       (with_preferences (with_default "user_brightness" (PFloat 100)) s)).
Proof.
  unfold add_user_brightness_property, bind, gets, with_default.
  destruct (RegistryFile.has "user_brightness" (__preferences s)) eqn:Hhas; simpl.
  - pose proof Hhas as Hsome. apply bool_decide_eq_true in Hsome as [x Hx].
    unfold RegistryFile.getAsFloat. rewrite Hx. simpl.
    unfold modify, with_preferences. simpl. by rewrite Hhas.
  - unfold modify. simpl.
    unfold RegistryFile.getAsFloat. simpl. rewrite lookup_insert_eq. simpl.
    unfold with_preferences. simpl. rewrite Hhas.
    apply bool_decide_eq_false in Hhas.
    destruct (RegistryFile.data (__preferences s) !! "user_brightness") eqn:Hx;
      [|done].
    destruct Hhas. eauto.
Qed.

Lemma add_mode_property_mk key d b0 pc prefs mc rf ps js tms (g : R) :
  __DEFAULT_MODE_SETTINGS !! key = Some d ->
  add_mode_property key (mk Q R b0 pc prefs mc rf ps js tms g)
  = (Ok tt,
     mk Q R b0
        (<[key := PBool (prop_truthy (stored prefs key (PBool d)))]> pc)
        (with_default key (PBool d) prefs) mc rf ps js tms g).
Proof. intros Hd. by rewrite (add_mode_property_stored _ key d Hd). Qed.

Lemma add_user_brightness_property_mk b0 pc prefs mc rf ps js tms (g : R) :
  add_user_brightness_property (mk Q R b0 pc prefs mc rf ps js tms g)
  = (Ok tt,
     mk Q R b0
        (<["user_brightness" :=
             PFloat (prop_float (stored prefs "user_brightness" (PFloat 100)))]> pc)
        (with_default "user_brightness" (PFloat 100) prefs) mc rf ps js tms g).
Proof. by rewrite add_user_brightness_property_stored. Qed.

Lemma stored_with_default key v prefs key' d :
  key <> key' -> stored (with_default key v prefs) key' d = stored prefs key' d.
Proof.
  intros Hne. unfold stored. rewrite with_default_lookup. by rewrite decide_False.
Qed.

Lemma init_eq hardware property_container preferences printer (r : R) :
  let ub := prop_float (stored preferences "user_brightness" (PFloat 100)) in
  __init__ hardware property_container preferences printer r
  = (Ok tt,
     mk Q R
       (_queueEffect
          (FadeEffect (mkHsv (hue WHITE) (saturation WHITE)
                             (value WHITE * ub / 100)%float) 6)
          (base_init hardware))
       (<["user_brightness" := PFloat ub]>
          (<["party" := PBool (prop_truthy (stored preferences "party" (PBool false)))]>
             (<["on_when_printing" :=
                  PBool (prop_truthy
                           (stored preferences "on_when_printing" (PBool false)))]>
                (<["glow_when_print_is_finished" :=
                     PBool (prop_truthy
                              (stored preferences "glow_when_print_is_finished"
                                 (PBool true)))]>
                   property_container))))
       (filled preferences) WHITE ∅ (state printer) (job_state printer) [] r).
Proof.
  intros ub. unfold __init__, __ALL_MODE_FLAGS. cbn [for_each].
  rewrite MainLightingProperties.bind_assoc,
    (MainLightingProperties.bind_ok _ _ _ _ _
       (add_mode_property_mk __MODE_FLAG_GLOW_WHEN_FINISHED true
          _ _ _ _ _ _ _ _ _ eq_refl)).
  rewrite MainLightingProperties.bind_assoc,
    (MainLightingProperties.bind_ok _ _ _ _ _
       (add_mode_property_mk __MODE_FLAG_ON_WHEN_PRINTING false
          _ _ _ _ _ _ _ _ _ eq_refl)).
  rewrite MainLightingProperties.bind_assoc,
    (MainLightingProperties.bind_ok _ _ _ _ _
       (add_mode_property_mk __MODE_FLAG_PARTY false
          _ _ _ _ _ _ _ _ _ eq_refl)).
  unfold bind at 1, ret at 1.
  rewrite (MainLightingProperties.bind_ok _ _ _ _ _
             (add_user_brightness_property_mk _ _ _ _ _ _ _ _ _)).
  unfold __MODE_FLAG_PARTY, __MODE_FLAG_ON_WHEN_PRINTING,
    __MODE_FLAG_GLOW_WHEN_FINISHED.
  rewrite !stored_with_default by done.
  fold ub. fold (filled preferences).
  match goal with |- bind __getColor _ ?s = _ => set (s4 := s) end.
  assert (__property_container s4 !! "user_brightness" = Some (PFloat ub)) as Hub
      by apply lookup_insert_eq.
  rewrite (MainLightingProperties.bind_ok _ _ _ _ _
             (MainLightingProperties.getColor_eq _ _ Hub)).
  reflexivity.
Qed.

Lemma filled_lookup preferences key :
  RegistryFile.data (filled preferences) !! key
  = if decide (key = "user_brightness") then
      Some (stored preferences key (PFloat 100))
    else if decide (key = "party") then Some (stored preferences key (PBool false))
    else if decide (key = "on_when_printing") then
      Some (stored preferences key (PBool false))
    else if decide (key = "glow_when_print_is_finished") then
      Some (stored preferences key (PBool true))
    else RegistryFile.data preferences !! key.
Proof.
  unfold filled, stored. rewrite !with_default_lookup.
  repeat case_decide; subst; try done.
Qed.

(** X5. The constructor keeps every setting the store holds and stores the
    default of every setting that is missing (glow_when_print_is_finished true,
    on_when_printing false, party false, user_brightness 100.0); the container
    holds these four values; the main color is white, no runtime flag is set, no
    timer runs, and the startup fade of 6.0 s goes to white with its value
    scaled by the user brightness. It never raises. *)
Theorem constructor_fills_defaults hardware
    (property_container : gmap string propval) preferences printer (r : R) :
  exists s : self,
    __init__ hardware property_container preferences printer r = (Ok tt, s) /\
    let kept key d := default d (RegistryFile.data preferences !! key) in
    let ub := prop_float (kept "user_brightness" (PFloat 100)) in
    RegistryFile.data (__preferences s) !! "glow_when_print_is_finished"
    = Some (kept "glow_when_print_is_finished" (PBool true)) /\
    RegistryFile.data (__preferences s) !! "on_when_printing"
    = Some (kept "on_when_printing" (PBool false)) /\
    RegistryFile.data (__preferences s) !! "party"
    = Some (kept "party" (PBool false)) /\
    RegistryFile.data (__preferences s) !! "user_brightness"
    = Some (kept "user_brightness" (PFloat 100)) /\
    __property_container s !! "glow_when_print_is_finished"
    = Some (PBool (prop_truthy (kept "glow_when_print_is_finished" (PBool true)))) /\
    __property_container s !! "on_when_printing"
    = Some (PBool (prop_truthy (kept "on_when_printing" (PBool false)))) /\
    __property_container s !! "party"
    = Some (PBool (prop_truthy (kept "party" (PBool false)))) /\
    __property_container s !! "user_brightness" = Some (PFloat ub) /\
    (forall key,
        key <> "glow_when_print_is_finished" -> key <> "on_when_printing" ->
        key <> "party" -> key <> "user_brightness" ->
        RegistryFile.data (__preferences s) !! key
        = RegistryFile.data preferences !! key /\
        __property_container s !! key = property_container !! key) /\
    __main_color s = WHITE /\ __runtime_flags s = ∅ /\ timers s = [] /\
    __printer_state s = state printer /\ __job_state s = job_state printer /\
    base s = _queueEffect
               (FadeEffect (mkHsv (hue WHITE) (saturation WHITE)
                                  (value WHITE * ub / 100)%float) 6)
               (base_init hardware).
Proof.
  eexists. split; [apply init_eq|]. cbn zeta.
  cbn [__preferences __property_container base __main_color __runtime_flags
         __printer_state __job_state timers].
  rewrite !filled_lookup. unfold stored.
  repeat split; try (by simplify_map_eq).
  rewrite filled_lookup. by repeat case_decide.
Qed.

(** What [resetToDefaultValues()] leaves on disk. *)
Lemma reset_saved (s : self) key :
  RegistryFile.saved (__preferences (exec resetToDefaultValues s)) !! key
  = if decide (key = "user_brightness") then Some (PFloat 100)
    else if decide (key = "party") then Some (PBool false)
    else if decide (key = "on_when_printing") then Some (PBool false)
    else if decide (key = "glow_when_print_is_finished") then Some (PBool true)
    else RegistryFile.data (__preferences s) !! key.
Proof.
  change (RegistryFile.saved (__preferences (exec resetToDefaultValues s)))
    with (<["user_brightness" := PFloat 100]>
            (<["party" := PBool false]>
               (<["on_when_printing" := PBool false]>
                  (<["glow_when_print_is_finished" := PBool true]>
                     (RegistryFile.data (__preferences s)))))).
  repeat case_decide; subst; by simplify_map_eq.
Qed.

(** X6. After [resetToDefaultValues()], a controller constructed anew on the
    saved store starts with the defaults: party off, glow_when_print_is_finished
    on, on_when_printing off and user brightness 100.0. *)
Theorem reset_then_restart (s : self) hardware
    (property_container : gmap string propval) printer (r : R) :
  let store :=
    RegistryFile.load
      (RegistryFile.saved (__preferences (exec resetToDefaultValues s))) in
  exists s2 : self,
    __init__ hardware property_container store printer r = (Ok tt, s2) /\
    getModeFlag "party" s2 = (Ok (PBool false), s2) /\
    getModeFlag "glow_when_print_is_finished" s2 = (Ok (PBool true), s2) /\
    getModeFlag "on_when_printing" s2 = (Ok (PBool false), s2) /\
    getUserBrightness s2 = (Ok (PFloat 100), s2) /\
    base s2 = _queueEffect
                (FadeEffect (mkHsv (hue WHITE) (saturation WHITE)
                                   (value WHITE * 100 / 100)%float) 6)
                (base_init hardware).
Proof.
  intros store.
  assert (forall key v,
            RegistryFile.data store !! key = Some v -> forall d, stored store key d = v)
    as Hstored by (intros key v H d; unfold stored; by rewrite H).
  assert (RegistryFile.data store !! "party" = Some (PBool false)) as Hparty
      by (subst store; unfold RegistryFile.load, RegistryFile.data;
          by rewrite reset_saved).
  assert (RegistryFile.data store !! "glow_when_print_is_finished"
          = Some (PBool true)) as Hglow
      by (subst store; unfold RegistryFile.load, RegistryFile.data;
          by rewrite reset_saved).
  assert (RegistryFile.data store !! "on_when_printing" = Some (PBool false)) as Hon
      by (subst store; unfold RegistryFile.load, RegistryFile.data;
          by rewrite reset_saved).
  assert (RegistryFile.data store !! "user_brightness" = Some (PFloat 100)) as Hub
      by (subst store; unfold RegistryFile.load, RegistryFile.data;
          by rewrite reset_saved).
  eexists. split; [apply init_eq|]. cbn zeta.
  rewrite (Hstored _ _ Hparty), (Hstored _ _ Hglow), (Hstored _ _ Hon),
    (Hstored _ _ Hub).
  repeat split.
  - apply MainLightingProperties.getModeFlag_some; [done|]. by simplify_map_eq.
  - apply MainLightingProperties.getModeFlag_some; [done|]. by simplify_map_eq.
  - apply MainLightingProperties.getModeFlag_some; [done|]. by simplify_map_eq.
  - apply MainLightingProperties.property_get_some. by simplify_map_eq.
Qed.

(** *** Methods that do not look at the preferences *)

Section Framed.
Variable f : RegistryFile.t -> RegistryFile.t.

Local Abbreviation framed m :=
  (forall s : self,
      m (with_preferences f s) = (fst (m s), with_preferences f (snd (m s)))).

Lemma framed_bind {A B} (m : M (self) A) (k : A -> M (self) B) :
  framed m -> (forall a, framed (k a)) -> framed (bind m k).
Proof.
  intros Hm Hk s. unfold bind. rewrite Hm.
  destruct (m s) as [[a|e] s1]; cbn [fst snd]; [apply Hk | reflexivity].
Qed.

Lemma framed_ret {A} (a : A) : framed (ret a).
Proof. reflexivity. Qed.

Lemma framed_assert b : framed (assert b).
Proof. by destruct b. Qed.

Lemma framed_property_get name : framed (property_get name).
Proof.
  intros s. unfold property_get.
  change (__property_container (with_preferences f s))
    with (__property_container s).
  by destruct (__property_container s !! name).
Qed.

Lemma framed_getModeFlag name : framed (getModeFlag name).
Proof.
  apply framed_bind; [apply framed_assert | intros _; apply framed_property_get].
Qed.

Lemma framed_getRuntimeFlag name : framed (getRuntimeFlag name).
Proof. apply framed_bind; [apply framed_assert | intros _; reflexivity]. Qed.

Lemma framed_random_uniform a b : framed (random_uniform a b).
Proof.
  intros s. unfold random_uniform.
  change (rng (with_preferences f s)) with (rng s).
  by destruct (uniform a b (rng s)).
Qed.

Lemma framed_queueEffect e : framed (queueEffect e).
Proof. reflexivity. Qed.

Lemma framed_getColor : framed __getColor.
Proof.
  apply framed_bind; [reflexivity | intros c].
  apply framed_bind; [apply framed_property_get | intros ub; apply framed_ret].
Qed.

Lemma framed_getDarkColor : framed __getDarkColor.
Proof. apply framed_bind; [apply framed_getColor | intros c; apply framed_ret]. Qed.

(** The update does not read the preferences: it does the same on a
    controller whose preferences were replaced. *)
Lemma update_with_preferences : framed __update.
Proof.
  apply framed_bind; [apply framed_getModeFlag | intros party].
  destruct (prop_truthy party).
  - apply framed_bind; [reflexivity | intros queued].
    destruct queued; [apply framed_ret|]. cbn [negb].
    apply framed_bind; [apply framed_random_uniform | intros h].
    apply framed_bind; [apply framed_property_get | intros ub].
    apply framed_bind; [apply framed_queueEffect | intros _; reflexivity].
  - apply framed_bind; [apply framed_getRuntimeFlag | intros authenticating].
    apply framed_bind.
    { destruct authenticating; [apply framed_ret | apply framed_getRuntimeFlag]. }
    intros flagged. destruct flagged.
    + apply framed_bind; [apply framed_getColor | intros color].
      apply framed_bind; [apply framed_getDarkColor | intros dark].
      apply framed_queueEffect.
    + intros s. unfold bind, gets.
      change (__stateIsWaitingForCleanup (with_preferences f s))
        with (__stateIsWaitingForCleanup s).
      change (__stateIsPrinting (with_preferences f s)) with (__stateIsPrinting s).
      change (__stateIsMaintenance (with_preferences f s))
        with (__stateIsMaintenance s).
      change (__stateIsError (with_preferences f s)) with (__stateIsError s).
      repeat match goal with |- context [if ?c then _ else _] => destruct c end;
        reflexivity.
Qed.

End Framed.

(** X7. [resetToDefaultValues()] touches the preferences alone: the queue,
    the container, the colors, the flags and the timers of the running
    controller stay as they are, the getters return what they returned, and the
    next update does what it would have done without the reset. *)
Theorem reset_leaves_controller (s : self) :
  exists s' : self,
    resetToDefaultValues s = (Ok tt, s') /\
    s' = with_preferences (fun _ => __preferences s') s /\
    fst (getUserBrightness s') = fst (getUserBrightness s) /\
    (forall name, fst (getModeFlag name s') = fst (getModeFlag name s)) /\
    (forall name, fst (getRuntimeFlag name s') = fst (getRuntimeFlag name s)) /\
    __update s'
    = (fst (__update s), with_preferences (fun _ => __preferences s') (snd (__update s))).
Proof.
  eexists. split; [reflexivity|].
  match goal with |- ?x = _ /\ _ => set (s' := x) end.
  assert (s' = with_preferences (fun _ => __preferences s') s) as Heq
      by (by destruct s).
  split; [exact Heq|].
  split; [unfold getUserBrightness; by rewrite Heq, framed_property_get|].
  split; [intros name; by rewrite Heq, framed_getModeFlag|].
  split; [intros name; by rewrite Heq, framed_getRuntimeFlag|].
  rewrite Heq at 1. apply update_with_preferences.
Qed.

(** X8. A timer that fires never leaves more timers pending than there were:
    its callback starts at most one, and none when the party flag is off; with
    no timer pending nothing happens. *)
Theorem timer_fires_bounded (s : self) :
  constructed s = true ->
  fst (timer_fires s) = Ok tt /\
  length (timers (exec timer_fires s)) <= length (timers s) /\
  (timers s = [] -> timer_fires s = (Ok tt, s)) /\
  (forall party,
      __property_container s !! "party" = Some party ->
      prop_truthy party = false ->
      timers (exec timer_fires s) = tail (timers s)).
Proof.
  intros Hc. unfold exec, timer_fires, bind, gets.
  destruct (timers s) as [|tm rest] eqn:Htimers.
  - repeat split; simpl; try done. by rewrite Htimers.
  - unfold modify. destruct (timer_callback tm). cbn [run_callback].
    set (s1 := with_timers rest s).
    assert (constructed s1 = true) as Hc1 by exact Hc.
    destruct (MainLightingProperties.constructed_party _ Hc1) as [party Hparty].
    destruct (MainLightingProperties.constructed_user_brightness _ Hc1) as [ub Hub].
    rewrite (MainLightingProperties.update_eq _ _ _ Hparty Hub).
    cbn [fst snd]. split; [done|]. split; [|split; [done|]].
    + destruct (prop_truthy party).
      * destruct (_hasEffectInQueue (base s1)); [simpl; lia|].
        unfold party_fade. destruct (uniform 0 360 (rng s1)). simpl.
        rewrite length_app. simpl. lia.
      * destruct (_ || _); simpl; lia.
    + intros party' Hparty' Hoff.
      assert (party' = party) as -> by (change (__property_container s1) with
        (__property_container s) in Hparty; congruence).
      rewrite Hoff. by destruct (_ || _).
Qed.


(** *** What the setters leave *)

Lemma set_color_ok (f : HsvColor -> HsvColor) (c : self) :
  constructed c = true ->
  exists c', (modify (with_main_color f);;; __update) c = (Ok tt, c') /\
             __main_color c' = f (__main_color c) /\
             constructed c' = true.
Proof.
  intros Hc.
  destruct (MainLightingProperties.update_ok (with_main_color f c) Hc)
    as (c' & Hu & Hsame).
  exists c'. split; [exact Hu|].
  split; [by destruct Hsame as (_ & _ & Hmc & _)|].
  exact (MainLightingProperties.constructed_same _ _ Hsame Hc).
Qed.

Lemma setPropertyValue_ok (c : self) name v :
  constructed c = true ->
  Py.contains (__ALL_MODE_FLAGS ++ ["user_brightness"])%list name = true ->
  exists c', setPropertyValue name v c = (Ok tt, c') /\
             __property_container c' !! name = Some v /\
             constructed c' = true.
Proof.
  intros Hc Hin.
  destruct (MainLightingProperties.constructed_lookup _ _ Hc Hin) as [old Hold].
  set (c1 := with_property name v c).
  assert (setPropertyValue name v c = __update c1) as Heq.
  { unfold setPropertyValue, property_store. unfold bind at 1. unfold bind at 1.
    by rewrite (MainLightingProperties.property_get_some _ _ _ Hold). }
  pose proof (MainLightingProperties.constructed_with_property c name v Hc) as Hc1.
  fold c1 in Hc1.
  destruct (MainLightingProperties.update_ok c1 Hc1) as (c2 & Hu & Hsame).
  exists c2. rewrite Heq. split; [exact Hu|]. split.
  - destruct Hsame as (Hpc & _). rewrite Hpc. apply lookup_insert_eq.
  - exact (MainLightingProperties.constructed_same _ _ Hsame Hc1).
Qed.

Lemma setModeFlag_ok (c : self) name v :
  constructed c = true ->
  Py.contains __ALL_MODE_FLAGS name = true ->
  exists c', setModeFlag name v c = (Ok tt, c') /\
             __property_container c' !! name = Some (PBool v) /\
             constructed c' = true.
Proof.
  intros Hc Hin.
  destruct (setPropertyValue_ok c name (PBool v) Hc
              (MainLightingProperties.mode_flag_is_property _ Hin))
    as (c1 & H1 & Hv & Hc1).
  destruct (MainLightingProperties.update_ok c1 Hc1) as (c2 & Hu & Hsame).
  exists c2. split.
  - unfold setModeFlag. unfold bind at 1, assert. rewrite Hin. unfold ret at 1.
    cbv beta iota. by rewrite (MainLightingProperties.bind_ok _ _ _ _ _ H1).
  - split; [|exact (MainLightingProperties.constructed_same _ _ Hsame Hc1)].
    destruct Hsame as (Hpc & _). by rewrite Hpc.
Qed.

Lemma setRuntimeFlag_ok (c : self) name v :
  constructed c = true ->
  Py.contains __ALL_RUNTIME_FLAGS name = true ->
  exists c', setRuntimeFlag name v c = (Ok tt, c') /\
             __runtime_flags c' !! name = Some v /\
             constructed c' = true.
Proof.
  intros Hc Hin. set (c1 := with_runtime_flag name v c).
  assert (constructed c1 = true) as Hc1 by exact Hc.
  destruct (MainLightingProperties.update_ok c1 Hc1) as (c2 & Hu & Hsame).
  exists c2. split.
  - unfold setRuntimeFlag. unfold bind at 1, assert. by rewrite Hin.
  - split; [|exact (MainLightingProperties.constructed_same _ _ Hsame Hc1)].
    destruct Hsame as (_ & _ & _ & Hrf & _). rewrite Hrf. apply lookup_insert_eq.
Qed.

(** *** Methods that return *)

Lemma segment_ok (b : bool) (f : self -> self) (c : self) :
  constructed c = true ->
  (forall c, __property_container (f c) = __property_container c) ->
  exists c', (if b then modify f;;; __update else ret tt) c = (Ok tt, c') /\
             constructed c' = true.
Proof.
  intros Hc Hf. destruct b; [|by exists c].
  assert (constructed (f c) = true) as Hc1
      by (unfold constructed in *; by rewrite Hf).
  destruct (MainLightingProperties.update_ok (f c) Hc1) as (c' & Hu & Hsame).
  exists c'. split; [exact Hu|].
  exact (MainLightingProperties.constructed_same _ _ Hsame Hc1).
Qed.

(** On a controller that holds its four properties no method raises, the
    four flag methods on a name outside their set apart. *)
Lemma methods_return (c : self) :
  constructed c = true ->
  returns resetToDefaultValues c /\
  (forall x, returns (setMainColorHue x) c) /\
  (forall x, returns (setMainColorSaturation x) c) /\
  (forall x, returns (setMainColorBrightness x) c) /\
  returns getMainColorHue c /\
  returns getMainColorSaturation c /\
  returns getMainColorBrightness c /\
  (forall x, returns (setUserBrightness x) c) /\
  returns getUserBrightness c /\
  (forall name v, Py.contains __ALL_MODE_FLAGS name = true ->
                  returns (setModeFlag name v) c) /\
  (forall name, Py.contains __ALL_MODE_FLAGS name = true ->
                returns (getModeFlag name) c) /\
  (forall name v, Py.contains __ALL_RUNTIME_FLAGS name = true ->
                  returns (setRuntimeFlag name v) c) /\
  (forall name, Py.contains __ALL_RUNTIME_FLAGS name = true ->
                returns (getRuntimeFlag name) c) /\
  (forall frequency count, returns (blink frequency count) c) /\
  (forall key v, returns (__onPrinterPropertyChanged key v) c) /\
  returns timer_fires c.
Proof.
  intros Hc.
  assert (forall f, returns (modify (with_main_color f);;; __update) c) as Hcolor.
  { intros f. destruct (set_color_ok f c Hc) as (c' & Hu & _).
    exists tt. by rewrite Hu. }
  destruct (MainLightingProperties.constructed_user_brightness _ Hc) as [ub Hub].
  repeat match goal with |- _ /\ _ => split end.
  - by exists tt.
  - intros x. apply Hcolor.
  - intros x. apply Hcolor.
  - intros x. apply Hcolor.
  - by eexists.
  - by eexists.
  - by eexists.
  - intros x.
    destruct (setPropertyValue_ok c "user_brightness"
                (PFloat (Py.max 0 (Py.min x 100))) Hc eq_refl) as (c' & Hs & _).
    exists tt. unfold setUserBrightness. by rewrite Hs.
  - exists ub. unfold getUserBrightness.
    by rewrite (MainLightingProperties.property_get_some _ _ _ Hub).
  - intros name v Hin. destruct (setModeFlag_ok c name v Hc Hin) as (c' & Hs & _).
    exists tt. by rewrite Hs.
  - intros name Hin.
    destruct (MainLightingProperties.constructed_lookup _ _ Hc
                (MainLightingProperties.mode_flag_is_property _ Hin)) as [v Hv].
    exists v. by rewrite (MainLightingProperties.getModeFlag_some _ _ _ Hin Hv).
  - intros name v Hin. destruct (setRuntimeFlag_ok c name v Hc Hin) as (c' & Hs & _).
    exists tt. by rewrite Hs.
  - intros name Hin. eexists.
    by rewrite (MainLightingProperties.getRuntimeFlag_known _ _ Hin).
  - intros frequency count. exists tt. unfold blink.
    by rewrite (MainLightingProperties.bind_ok _ _ _ _ _
                  (MainLightingProperties.getColor_eq _ _ Hub)).
  - intros key v. exists tt. unfold __onPrinterPropertyChanged.
    destruct (segment_ok (String.eqb key "state") (with_printer_state v) c Hc
                ltac:(reflexivity)) as (c1 & H1 & Hc1).
    destruct (segment_ok (String.eqb key "job_state") (with_job_state v) c1 Hc1
                ltac:(reflexivity)) as (c2 & H2 & _).
    rewrite (MainLightingProperties.bind_ok _ _ _ _ _ H1). by rewrite H2.
  - exists tt. unfold timer_fires, bind, gets.
    destruct (timers c) as [|tm rest]; [reflexivity|].
    unfold modify. destruct (timer_callback tm). cbn [run_callback].
    assert (constructed (with_timers rest c) = true) as Hc1 by exact Hc.
    destruct (MainLightingProperties.update_ok _ Hc1) as (c' & Hu & _).
    by rewrite Hu.
Qed.

(** *** The hardware of the controller *)

Section Based.
Variable hw : Hardware.

Local Abbreviation based := (built_on (Q := Q) (R := R) hw).

Lemma based_modify (f : self -> self) :
  (forall c, __property_container (f c) = __property_container c) ->
  (forall c, base (f c) = base c) ->
  preserves based (modify f).
Proof.
  intros H1 H2. apply preserves_modify. intros c [Hc Hb].
  unfold built_on, constructed in *. by rewrite H1, H2.
Qed.

Lemma based_queueEffect e : preserves based (queueEffect e).
Proof.
  apply preserves_modify. intros c [Hc Hb].
  split; [exact Hc|]. by apply on_hardware_queue.
Qed.

Lemma based_update : preserves based __update.
Proof.
  intros c [Hc Hb].
  destruct (MainLightingProperties.constructed_party _ Hc) as [party Hparty].
  destruct (MainLightingProperties.constructed_user_brightness _ Hc) as [ub Hub].
  pose proof (MainLightingProperties.update_same_attributes _ _ _ Hparty Hub)
    as Hsame.
  unfold exec in *.
  rewrite (MainLightingProperties.update_eq _ _ _ Hparty Hub) in *.
  cbn [snd] in *.
  split; [exact (MainLightingProperties.constructed_same _ _ Hsame Hc)|].
  unfold party_fade. destruct (uniform 0 360 (rng c)).
  repeat match goal with |- context [if ?b then _ else _] => destruct b end;
    first [exact Hb|by apply on_hardware_queue].
Qed.

Lemma based_property_get name : preserves based (property_get name).
Proof.
  intros c H. unfold exec, property_get.
  by destruct (__property_container c !! name).
Qed.

Lemma based_setPropertyValue name v : preserves based (setPropertyValue name v).
Proof.
  unfold setPropertyValue, property_store.
  apply preserves_bind; [|intros _; apply based_update].
  apply preserves_bind; [apply based_property_get|]. intros _.
  apply preserves_modify. intros c [Hc Hb].
  split; [by apply MainLightingProperties.constructed_with_property|exact Hb].
Qed.

Ltac base_kept :=
  repeat first
    [ apply based_update
    | apply based_setPropertyValue
    | apply based_property_get
    | apply based_queueEffect
    | apply preserves_ret
    | apply preserves_raise
    | apply preserves_gets
    | apply preserves_assert
    | apply based_modify; intros; reflexivity
    | apply preserves_if
    | apply preserves_bind; [|intros ?] ].

(** Every method reaches the base object through [_queueEffect] alone: the
    controller stays on the hardware it was built on. *)
Lemma based_methods :
  preserves based resetToDefaultValues /\
  (forall x, preserves based (setMainColorHue x)) /\
  (forall x, preserves based (setMainColorSaturation x)) /\
  (forall x, preserves based (setMainColorBrightness x)) /\
  preserves based getMainColorHue /\
  preserves based getMainColorSaturation /\
  preserves based getMainColorBrightness /\
  (forall x, preserves based (setUserBrightness x)) /\
  preserves based getUserBrightness /\
  (forall name v, preserves based (setModeFlag name v)) /\
  (forall name, preserves based (getModeFlag name)) /\
  (forall name v, preserves based (setRuntimeFlag name v)) /\
  (forall name, preserves based (getRuntimeFlag name)) /\
  (forall frequency count, preserves based (blink frequency count)) /\
  (forall key v, preserves based (__onPrinterPropertyChanged key v)) /\
  preserves based timer_fires.
Proof.
  repeat match goal with |- _ /\ _ => split end; intros.
  - unfold resetToDefaultValues. apply preserves_bind; [|intros _; base_kept].
    apply preserves_for_each. intros key.
    destruct (__DEFAULT_MODE_SETTINGS !! key); base_kept.
  - unfold setMainColorHue. base_kept.
  - unfold setMainColorSaturation. base_kept.
  - unfold setMainColorBrightness. base_kept.
  - unfold getMainColorHue. base_kept.
  - unfold getMainColorSaturation. base_kept.
  - unfold getMainColorBrightness. base_kept.
  - unfold setUserBrightness. base_kept.
  - unfold getUserBrightness. base_kept.
  - unfold setModeFlag. base_kept.
  - unfold getModeFlag. base_kept.
  - unfold setRuntimeFlag. base_kept.
  - unfold getRuntimeFlag. base_kept.
  - unfold blink, __getColor. base_kept.
  - unfold __onPrinterPropertyChanged. base_kept.
  - unfold timer_fires. apply preserves_bind; [base_kept|].
    intros [|tm rest]; [base_kept|].
    apply preserves_bind; [base_kept|]. intros _.
    destruct (timer_callback tm). apply based_update.
Qed.

End Based.

(** The constructor builds the controller on the hardware it is given. *)
Lemma init_built_on hardware property_container preferences printer (r : R) :
  exists c : self,
    __init__ hardware property_container preferences printer r = (Ok tt, c) /\
    built_on hardware c /\
    sees (state printer) (job_state printer) c.
Proof.
  destruct (MainLightingProperties.init_constructed hardware property_container
              preferences printer r) as (c & Hinit & Hc & _ & Hp & Hj).
  exists c. split; [exact Hinit|]. split; [|by repeat split].
  split; [exact Hc|].
  pose proof (init_eq hardware property_container preferences printer r) as Heq.
  cbv zeta in Heq. rewrite Heq in Hinit. injection Hinit as <-.
  cbn [base]. apply on_hardware_queue, on_hardware_init.
Qed.

(** *** The controller's view of the printer *)

Section Watching.
Variables p j : Py.variant.

Local Abbreviation watching := (sees (Q := Q) (R := R) p j).

Lemma watching_modify (f : self -> self) :
  (forall c, __property_container (f c) = __property_container c) ->
  (forall c, __printer_state (f c) = __printer_state c) ->
  (forall c, __job_state (f c) = __job_state c) ->
  preserves watching (modify f).
Proof.
  intros H1 H2 H3. apply preserves_modify. intros c (Hc & Hp & Hj).
  unfold sees, constructed in *. by rewrite H1, H2, H3.
Qed.

Lemma watching_update : preserves watching __update.
Proof.
  intros c (Hc & Hp & Hj).
  destruct (MainLightingProperties.update_ok c Hc) as (c' & Hu & Hsame).
  unfold exec. rewrite Hu. cbn [snd].
  split; [exact (MainLightingProperties.constructed_same _ _ Hsame Hc)|].
  destruct Hsame as (_ & _ & _ & _ & Hps & Hjs). by rewrite Hps, Hjs.
Qed.

Lemma watching_property_get name : preserves watching (property_get name).
Proof.
  intros c H. unfold exec, property_get.
  by destruct (__property_container c !! name).
Qed.

Lemma watching_setPropertyValue name v :
  preserves watching (setPropertyValue name v).
Proof.
  unfold setPropertyValue, property_store.
  apply preserves_bind; [|intros _; apply watching_update].
  apply preserves_bind; [apply watching_property_get|]. intros _.
  apply preserves_modify. intros c (Hc & Hp & Hj).
  split; [by apply MainLightingProperties.constructed_with_property|].
  split; [exact Hp|exact Hj].
Qed.

Ltac watch :=
  repeat first
    [ apply watching_update
    | apply watching_setPropertyValue
    | apply watching_property_get
    | apply preserves_ret
    | apply preserves_raise
    | apply preserves_gets
    | apply preserves_assert
    | apply watching_modify; intros; reflexivity
    | apply preserves_bind; [|intros ?] ].

(** No method that the service calls on the controller changes what the
    controller knows of the printer; the handler of the printer's signal
    apart. *)
Lemma watching_methods :
  preserves watching resetToDefaultValues /\
  (forall x, preserves watching (setMainColorHue x)) /\
  (forall x, preserves watching (setMainColorSaturation x)) /\
  (forall x, preserves watching (setMainColorBrightness x)) /\
  preserves watching getMainColorHue /\
  preserves watching getMainColorSaturation /\
  preserves watching getMainColorBrightness /\
  (forall x, preserves watching (setUserBrightness x)) /\
  preserves watching getUserBrightness /\
  (forall name v, preserves watching (setModeFlag name v)) /\
  (forall name, preserves watching (getModeFlag name)) /\
  (forall name v, preserves watching (setRuntimeFlag name v)) /\
  (forall name, preserves watching (getRuntimeFlag name)) /\
  (forall frequency count, preserves watching (blink frequency count)) /\
  preserves watching timer_fires.
Proof.
  repeat match goal with |- _ /\ _ => split end; intros.
  - unfold resetToDefaultValues. apply preserves_bind; [|intros _; watch].
    apply preserves_for_each. intros key.
    destruct (__DEFAULT_MODE_SETTINGS !! key); watch.
  - unfold setMainColorHue. watch.
  - unfold setMainColorSaturation. watch.
  - unfold setMainColorBrightness. watch.
  - unfold getMainColorHue. watch.
  - unfold getMainColorSaturation. watch.
  - unfold getMainColorBrightness. watch.
  - unfold setUserBrightness. watch.
  - unfold getUserBrightness. watch.
  - unfold setModeFlag. watch.
  - unfold getModeFlag. watch.
  - unfold setRuntimeFlag. watch.
  - unfold getRuntimeFlag. watch.
  - unfold blink, __getColor, queueEffect. watch.
  - unfold timer_fires. apply preserves_bind; [watch|].
    intros [|tm rest]; [watch|].
    apply preserves_bind; [watch|]. intros _.
    destruct (timer_callback tm). apply watching_update.
Qed.

End Watching.

(** The handler of the printer's signal, signal by signal. *)
Lemma handler_eq key v (c : self) :
  exec (__onPrinterPropertyChanged key v) c
  = if String.eqb key "state" then exec __update (with_printer_state v c)
    else if String.eqb key "job_state" then exec __update (with_job_state v c)
    else c.
Proof.
  unfold __onPrinterPropertyChanged.
  destruct (String.eqb_spec key "state") as [->|H1].
  - change (String.eqb "state" "job_state") with false.
    unfold exec, bind, modify, ret. cbv beta iota.
    by destruct (__update (with_printer_state v c)) as [[[]|e] c'].
  - destruct (String.eqb key "job_state"); [|reflexivity].
    unfold exec, bind, modify, ret. cbv beta iota.
    by destruct (__update (with_job_state v c)) as [[[]|e] c'].
Qed.

(** The controller follows the printer: once the signal of a change is
    handled, it has seen the printer as it is after the change. *)
Lemma handler_watches (printer : Printer) key v (c : self) :
  sees (state printer) (job_state printer) c ->
  sees (state (LedService.printer_set key v printer))
       (job_state (LedService.printer_set key v printer))
       (exec (__onPrinterPropertyChanged key v) c).
Proof.
  intros (Hc & Hp & Hj). rewrite handler_eq. unfold LedService.printer_set.
  destruct (String.eqb key "state").
  - apply watching_update. split; [exact Hc|]. split; [reflexivity|exact Hj].
  - destruct (String.eqb key "job_state").
    + apply watching_update. split; [exact Hc|]. split; [exact Hp|reflexivity].
    + destruct (String.eqb key "interaction_required");
        (split; [exact Hc|]; split; [exact Hp|exact Hj]).
Qed.

End Properties.

Lemma timer_fires_bounded_witness :
  let s1 := exec (__update (theme := SampleTheme.theme)
                    (scheduler := SpecScheduler.scheduler)
                    (random := CoinRandom.random)) MainLightingSpec.partying in
  constructed s1 = true /\
  length (timers s1) = 1 /\
  length (timers (exec (timer_fires (theme := SampleTheme.theme)
                          (scheduler := SpecScheduler.scheduler)
                          (random := CoinRandom.random)) s1)) <= 1.
Proof.
  intros s1.
  assert (constructed s1 = true) as Hc by (vm_compute; reflexivity).
  assert (length (timers s1) = 1) as Hlen by (vm_compute; reflexivity).
  split; [exact Hc|]. split; [exact Hlen|]. rewrite <- Hlen.
  exact (proj1 (proj2 (timer_fires_bounded s1 Hc))).
Defined.

End MainLightingLife.

(** ** More properties of the button ring controller *)

Module ButtonRingLife.
Import ButtonRingController.

Section Properties.
Context {theme : ColorTheme} {Q : Type} {scheduler : AbstractController Q}.

Abbreviation self := (ButtonRingController.t Q).

(** The update enqueues one effect and touches nothing else; it never
    raises. *)
Lemma update_queues (c : self) :
  exists e, __update c = (Ok tt, with_base (_queueEffect e) c).
Proof.
  unfold __update, bind, gets, queueEffect, modify. cbv beta iota.
  repeat match goal with |- context [if ?b then _ else _] => destruct b end;
    eauto.
Qed.

Lemma update_watches printer : preserves (ButtonRingView.sees (Q := Q) printer) __update.
Proof.
  intros c H. unfold exec. destruct (update_queues c) as [e ->]. exact H.
Qed.

Lemma modify_then_update (f : self -> self) (c : self) :
  exists e, (modify f;;; __update) c = (Ok tt, with_base (_queueEffect e) (f c)).
Proof.
  unfold bind, modify. destruct (update_queues (f c)) as [e He]. eauto.
Qed.

(** The methods that the service calls on the controller leave what it
    knows of the printer; the handler of the printer's signal apart. *)
Lemma ring_watching_methods printer :
  (forall x, preserves (ButtonRingView.sees (Q := Q) printer) (setCustomRingHue x)) /\
  (forall x, preserves (ButtonRingView.sees (Q := Q) printer) (setCustomRingSaturation x)) /\
  (forall x, preserves (ButtonRingView.sees (Q := Q) printer) (setCustomRingBrightness x)) /\
  preserves (ButtonRingView.sees (Q := Q) printer) getCustomRingHue /\
  preserves (ButtonRingView.sees (Q := Q) printer) getCustomRingSaturation /\
  preserves (ButtonRingView.sees (Q := Q) printer) getCustomRingBrightness.
Proof.
  repeat match goal with |- _ /\ _ => split end; intros;
    try (apply preserves_gets);
    (apply preserves_bind;
     [apply preserves_modify; intros c H; exact H
     |intros _; apply update_watches]).
Qed.

(** The handler of the printer's signal, signal by signal. *)
Lemma ring_handler_eq key v (c : self) :
  exec (__onPrinterPropertyChanged key v) c
  = if String.eqb key "state" then exec __update (with_printer_state v c)
    else if String.eqb key "job_state" then exec __update (with_job_state v c)
    else if String.eqb key "interaction_required"
         then exec __update (with_interaction_required v c)
    else c.
Proof.
  unfold __onPrinterPropertyChanged.
  destruct (String.eqb_spec key "state") as [->|H1].
  - change (String.eqb "state" "job_state") with false.
    change (String.eqb "state" "interaction_required") with false.
    unfold exec, bind, modify, ret. cbv beta iota.
    by destruct (update_queues (with_printer_state v c)) as [e ->].
  - destruct (String.eqb_spec key "job_state") as [->|H2].
    + change (String.eqb "job_state" "interaction_required") with false.
      unfold exec, bind, modify, ret. cbv beta iota.
      by destruct (update_queues (with_job_state v c)) as [e ->].
    + destruct (String.eqb key "interaction_required"); [|reflexivity].
      unfold exec, bind, modify, ret. cbv beta iota.
      by destruct (update_queues (with_interaction_required v c)) as [e ->].
Qed.

(** The controller follows the printer. *)
Lemma ring_handler_watches (printer : Printer) key v (c : self) :
  ButtonRingView.sees (Q := Q) printer c ->
  ButtonRingView.sees (Q := Q) (LedService.printer_set key v printer)
    (exec (__onPrinterPropertyChanged key v) c).
Proof.
  intros (Hp & Hj & Hi). rewrite ring_handler_eq. unfold LedService.printer_set.
  destruct (String.eqb key "state").
  - apply update_watches. split; [reflexivity|]. split; [exact Hj|exact Hi].
  - destruct (String.eqb key "job_state").
    + apply update_watches. split; [exact Hp|]. split; [reflexivity|exact Hi].
    + destruct (String.eqb key "interaction_required").
      * apply update_watches. split; [exact Hp|]. split; [exact Hj|reflexivity].
      * split; [exact Hp|]. split; [exact Hj|exact Hi].
Qed.

(** The controller stays on the hardware it was built on. *)
Lemma ring_update_based hw : preserves (ButtonRingView.built_on (Q := Q) hw) __update.
Proof.
  intros c H. unfold exec. destruct (update_queues c) as [e ->].
  by apply on_hardware_queue.
Qed.

Lemma ring_based_methods hw :
  (forall x, preserves (ButtonRingView.built_on (Q := Q) hw) (setCustomRingHue x)) /\
  (forall x, preserves (ButtonRingView.built_on (Q := Q) hw)
               (setCustomRingSaturation x)) /\
  (forall x, preserves (ButtonRingView.built_on (Q := Q) hw)
               (setCustomRingBrightness x)) /\
  preserves (ButtonRingView.built_on (Q := Q) hw) getCustomRingHue /\
  preserves (ButtonRingView.built_on (Q := Q) hw) getCustomRingSaturation /\
  preserves (ButtonRingView.built_on (Q := Q) hw) getCustomRingBrightness /\
  (forall key v, preserves (ButtonRingView.built_on (Q := Q) hw)
                   (__onPrinterPropertyChanged key v)).
Proof.
  repeat match goal with |- _ /\ _ => split end; intros;
    try (apply preserves_gets);
    try (apply preserves_bind;
         [apply preserves_modify; intros c H; exact H
         |intros _; apply ring_update_based]).
  intros c H. rewrite ring_handler_eq.
  repeat match goal with |- context [if ?b then _ else _] => destruct b end;
    first [exact H|by apply ring_update_based].
Qed.

Lemma ring_init_built_on hw printer :
  ButtonRingView.built_on (Q := Q) hw (__init__ hw printer).
Proof. apply on_hardware_queue, on_hardware_init. Qed.

(** X9. The custom theme of the ring: each setter returns, whatever the
    state of the printer, assigns its attribute of the theme and leaves the
    two others and what the controller knows of the printer; the matching
    getter then returns the value as it was given; and the one effect the
    setter enqueues is the static theme with the new value exactly when no
    rule of the policy applies (no error, no interaction required, no job
    that waits for cleanup or is paused while printing). *)
Theorem ring_theme_round_trip (c : self) (x : float) :
  let idle :=
    negb (Py.eq_str (__printer_state c) "error")
    && negb (Py.truthy (__interaction_required c))
    && negb (Py.eq_str (__printer_state c) "printing"
             && (Py.eq_str (__job_state c) "wait_cleanup"
                 || Py.eq_str (__job_state c) "paused")) in
  let sets (setter : float -> M self unit) (getter : M self float)
           (assign : float -> HsvColor -> HsvColor) :=
    exists e,
      let c' := with_base (_queueEffect e) (with_customTheme (assign x) c) in
      setter x c = (Ok tt, c') /\
      getter c' = (Ok x, c') /\
      (e = StaticEffect (assign x (__customTheme c)) <-> idle = true) in
  sets setCustomRingHue getCustomRingHue set_hue /\
  sets setCustomRingSaturation getCustomRingSaturation set_saturation /\
  sets setCustomRingBrightness getCustomRingBrightness set_value.
Proof.
  intros idle sets. subst sets. cbv beta.
  unfold setCustomRingHue, setCustomRingSaturation, setCustomRingBrightness,
    getCustomRingHue, getCustomRingSaturation, getCustomRingBrightness.
  unfold __update, bind, gets, queueEffect, modify. cbv beta iota.
  change (__printer_state (with_customTheme _ c)) with (__printer_state c).
  change (__job_state (with_customTheme _ c)) with (__job_state c).
  change (__interaction_required (with_customTheme _ c))
    with (__interaction_required c).
  subst idle.
  destruct (Py.eq_str (__printer_state c) "error");
    destruct (Py.truthy (__interaction_required c));
    destruct (Py.eq_str (__printer_state c) "printing");
    destruct (Py.eq_str (__job_state c) "wait_cleanup");
    destruct (Py.eq_str (__job_state c) "paused");
    cbn [negb andb orb];
    (split; [|split]); eexists; cbv zeta; (split; [reflexivity|]);
    (split; [reflexivity|]); split; intros H; try discriminate H; reflexivity.
Qed.

End Properties.

#[local] Existing Instance SampleTheme.theme.
#[local] Existing Instance SpecScheduler.scheduler.

(** While the printer is in error the theme is stored and the ring keeps
    glowing red; once idle the ring shows the theme. *)
Example ring_theme_in_error :
  let c := exec (setCustomRingHue 120) (ButtonRingSpec.sample "error" "none" false) in
  getCustomRingHue c = (Ok 120%float, c) /\
  last (SpecScheduler.queue (base c)) = Some (GlowEffect BLACK RED 0.5).
Proof. split; reflexivity. Qed.

End ButtonRingLife.

(** ** The life of the service *)

Module ServiceLife.
Import LedService LedServiceSpec Lifecycle.

Section Properties.
Context {theme : ColorTheme} {Q R : Type}.
Context {scheduler : AbstractController Q} {random : Random R}.
Context {D : Type} {debug_leds : DebugLedsHardware D}.

Abbreviation self := (LedService.t Q R D).

(** *** What a call on a controller changes in the service *)

Lemma on_main_controller_fields {A} (default : A) method (s : self) :
  let s' := exec (on_main_controller default method) s in
  __main_controller s' = exec method <$> __main_controller s /\
  __running s' = __running s /\
  __button_ring_controller s' = __button_ring_controller s /\
  __back_light_controller s' = __back_light_controller s /\
  __printer s' = __printer s /\
  machine_bom s' = machine_bom s /\
  detached s' = detached s.
Proof.
  unfold exec, on_main_controller.
  destruct (__main_controller s) as [c|] eqn:Hmain; simpl; [|by rewrite Hmain].
  by destruct (method c).
Qed.

Lemma on_button_ring_controller_fields {A} (default : A) method (s : self) :
  let s' := exec (on_button_ring_controller default method) s in
  __button_ring_controller s' = exec method <$> __button_ring_controller s /\
  __running s' = __running s /\
  __main_controller s' = __main_controller s /\
  __back_light_controller s' = __back_light_controller s /\
  __printer s' = __printer s /\
  machine_bom s' = machine_bom s /\
  detached s' = detached s.
Proof.
  unfold exec, on_button_ring_controller.
  destruct (__button_ring_controller s) as [c|] eqn:Hring; simpl; [|by rewrite Hring].
  by destruct (method c).
Qed.

Lemma on_main_controller_some {A} (default : A) method (s : self) c :
  __main_controller s = Some c ->
  on_main_controller default method s
  = (fst (method c), with_main_controller (Some (snd (method c))) s).
Proof.
  intros H. unfold on_main_controller. rewrite H. by destruct (method c).
Qed.

Lemma on_button_ring_controller_some {A} (default : A) method (s : self) c :
  __button_ring_controller s = Some c ->
  on_button_ring_controller default method s
  = (fst (method c), with_button_ring_controller (Some (snd (method c))) s).
Proof.
  intros H. unfold on_button_ring_controller. rewrite H. by destruct (method c).
Qed.

(** *** The controllers are built once *)

Lemma on_main_controller_built {A} bom (default : A) method (s : self) :
  preserves (MainLightingView.built_on (Q := Q) (R := R) MainLightingHardware)
    method ->
  built_once bom s -> built_once bom (exec (on_main_controller default method) s).
Proof.
  intros Hm [Hbom H].
  destruct (on_main_controller_fields default method s)
    as (Hmain & Hrun & Hring & Hback & _ & Hb & Hdet).
  unfold built_once, controllers_built, nothing_built.
  rewrite Hmain, Hrun, Hring, Hback, Hb, Hdet.
  split; [exact Hbom|].
  destruct (__running s).
  - destruct H as ((c & Hc & Hbuilt) & Hrest). split; [|exact Hrest].
    exists (exec method c). rewrite Hc. split; [reflexivity|]. by apply Hm.
  - destruct H as (Hnone & Hrest). rewrite Hnone. by split.
Qed.

Lemma on_button_ring_controller_built {A} bom (default : A) method (s : self) :
  (forall hw, preserves (ButtonRingView.built_on (Q := Q) hw) method) ->
  built_once bom s ->
  built_once bom (exec (on_button_ring_controller default method) s).
Proof.
  intros Hm [Hbom H].
  destruct (on_button_ring_controller_fields default method s)
    as (Hring & Hrun & Hmain & Hback & _ & Hb & Hdet).
  unfold built_once, controllers_built, nothing_built.
  rewrite Hmain, Hrun, Hring, Hback, Hb, Hdet.
  split; [exact Hbom|].
  destruct (__running s).
  - destruct H as (Hm' & Hbl & Hr). split; [exact Hm'|]. split; [exact Hbl|].
    destruct (is_um3 bom).
    + destruct Hr as [(c & Hc & Hbuilt) Hd]. split; [|exact Hd].
      exists (exec method c). rewrite Hc. split; [reflexivity|]. by apply Hm.
    + destruct Hr as [Hn Hd]. rewrite Hn. by split.
  - destruct H as (Hn1 & Hn2 & Hn3 & Hn4). rewrite Hn3. by repeat split.
Qed.

(** A second start does nothing. *)
Lemma start_running (s : self) :
  __running s = true -> __start s = (Ok tt, s).
Proof. intros H. unfold __start, bind, gets. by rewrite H. Qed.

(** A start builds the controllers from the printer as it is. *)
Lemma start_eq (s : self) :
  __running s = false ->
  exists main,
    MainLightingController.__init__ MainLightingHardware (__property_container s)
      (RegistryFile.load (main_lighting_json s)) (__printer s) (random_state s)
    = (Ok tt, main) /\
    MainLightingView.built_on MainLightingHardware main /\
    MainLightingView.sees (state (__printer s)) (job_state (__printer s)) main /\
    __start s
    = (Ok tt,
       mk Q R D (__property_container s) true (Some main)
          (if is_um3 (machine_bom s)
           then Some (ButtonRingController.__init__ ButtonRingHardware (__printer s))
           else __button_ring_controller s)
          (Some (BackLightController_on BackLightHardware))
          (__printer s) (machine_bom s) (__debugLeds s) (main_lighting_json s)
          (random_state s)
          ((detached s
            ++ (if is_um3 (machine_bom s) then []
                else [DetachedButtonRing
                        (ButtonRingController.__init__ DummyHardware (__printer s))]))
           ++ [DetachedHeadSlot 0 (HeadSlotHardware 0);
               DetachedHeadSlot 1 (HeadSlotHardware 1)])%list).
Proof.
  intros Hrun.
  destruct (MainLightingLife.init_built_on MainLightingHardware
              (__property_container s) (RegistryFile.load (main_lighting_json s))
              (__printer s) (random_state s)) as (main & Hmain & Hbuilt & Hsees).
  exists main. split; [exact Hmain|]. split; [exact Hbuilt|].
  split; [exact Hsees|].
  unfold __start, bind, gets, is_um3. rewrite Hrun.
  remember (Py.contains ["9066"; "9511"]) as um3 eqn:Hum3.
  simpl. rewrite Hmain. simpl.
  destruct (um3 (Py.str (machine_bom s))); simpl; by rewrite ?app_nil_r.
Qed.

Lemma start_built bom (s : self) :
  built_once bom s ->
  __running (exec __start s) = true /\ built_once bom (exec __start s).
Proof.
  intros H. unfold exec. destruct (__running s) eqn:Hrun.
  - by rewrite (start_running s Hrun).
  - destruct (start_eq s Hrun) as (main & _ & Hbuilt & _ & ->). cbn [snd].
    destruct H as [Hbom H]. rewrite Hrun in H.
    destruct H as (_ & _ & Hring & Hdet).
    split; [reflexivity|]. split; [exact Hbom|].
    unfold controllers_built.
    cbn [__running __main_controller __button_ring_controller
           __back_light_controller detached machine_bom].
    rewrite Hbom, Hdet, Hring.
    split; [by exists main|]. split; [reflexivity|].
    destruct (is_um3 bom).
    + split; [|reflexivity]. eexists. split; [reflexivity|].
      apply ButtonRingLife.ring_init_built_on.
    + split; [reflexivity|]. eexists. split; [|reflexivity].
      apply ButtonRingLife.ring_init_built_on.
Qed.

(** The handler of the service does nothing once the service runs. *)
Lemma handler_running key v (s : self) :
  __running s = true -> exec (__onPrinterPropertyChanged key v) s = s.
Proof.
  intros H. unfold exec, __onPrinterPropertyChanged, _onPrinterStateChanged.
  destruct (String.eqb key "state"); [|reflexivity].
  destruct (negb _); [|reflexivity]. by rewrite (start_running s H).
Qed.

Lemma handler_built bom key v (s : self) :
  built_once bom s ->
  built_once bom (exec (__onPrinterPropertyChanged key v) s) /\
  __running (exec (__onPrinterPropertyChanged key v) s)
  = __running s || leaves_booting (Signal_propertyChanged key v).
Proof.
  intros H. unfold __onPrinterPropertyChanged, _onPrinterStateChanged. simpl.
  destruct (String.eqb key "state"); simpl; [|by rewrite orb_false_r].
  destruct (negb (Py.eq_str v "booting")); simpl; [|by rewrite orb_false_r].
  destruct (start_built bom s H) as [-> Hb]. by rewrite orb_true_r.
Qed.

Lemma with_detached_built bom key v (s : self) :
  built_once bom s ->
  built_once bom (with_detached (map (signal_detached key v)) s).
Proof.
  intros [Hbom H]. split; [exact Hbom|].
  change (__running (with_detached (map (signal_detached key v)) s))
    with (__running s).
  destruct (__running s).
  - destruct H as (Hm & Hbl & Hr). split; [exact Hm|]. split; [exact Hbl|].
    cbn [with_detached __button_ring_controller detached].
    destruct (is_um3 bom).
    + destruct Hr as [Hr Hd]. split; [exact Hr|]. by rewrite Hd.
    + destruct Hr as (Hr & c & Hc & Hd). split; [exact Hr|].
      exists (exec (ButtonRingController.__onPrinterPropertyChanged key v) c).
      split; [|by rewrite Hd].
      by apply (ButtonRingLife.ring_based_methods DummyHardware).
  - destruct H as (Hn1 & Hn2 & Hn3 & Hn4). unfold nothing_built.
    cbn [with_detached detached __main_controller __button_ring_controller
           __back_light_controller].
    rewrite Hn4. by repeat split.
Qed.

Lemma step_built bom (s : self) (e : Event) :
  built_once bom s ->
  built_once bom (step s e) /\
  __running (step s e) = __running s || leaves_booting e.
Proof.
  intros H.
  destruct (MainLightingLife.based_methods (Q := Q) (R := R) MainLightingHardware)
    as (K1 & K2 & K3 & K4 & K5 & K6 & K7 & K8 & K9 & K10 & K11 & K12 & K13
        & K14 & K15 & K16).
  assert (forall hw,
             (forall x, preserves (ButtonRingView.built_on (Q := Q) hw)
                          (ButtonRingController.setCustomRingHue x)) /\
             (forall x, preserves (ButtonRingView.built_on (Q := Q) hw)
                          (ButtonRingController.setCustomRingSaturation x)) /\
             (forall x, preserves (ButtonRingView.built_on (Q := Q) hw)
                          (ButtonRingController.setCustomRingBrightness x)) /\
             preserves (ButtonRingView.built_on (Q := Q) hw)
               ButtonRingController.getCustomRingHue /\
             preserves (ButtonRingView.built_on (Q := Q) hw)
               ButtonRingController.getCustomRingSaturation /\
             preserves (ButtonRingView.built_on (Q := Q) hw)
               ButtonRingController.getCustomRingBrightness /\
             (forall key v, preserves (ButtonRingView.built_on (Q := Q) hw)
                              (ButtonRingController.__onPrinterPropertyChanged
                                 key v))) as Hring
      by (intros hw; apply ButtonRingLife.ring_based_methods).
  destruct e; simpl;
    try (split; [apply on_main_controller_built;
                 [first [done|apply preserves_bind;
                               [done|intros; apply preserves_ret]]|exact H]
                |rewrite orb_false_r;
                 apply (on_main_controller_fields _ _ s)]);
    try (split; [apply on_button_ring_controller_built;
                 [intros hw; by apply (Hring hw)|exact H]
                |rewrite orb_false_r;
                 apply (on_button_ring_controller_fields _ _ s)]).
  - unfold debugLed, exec, on_debugLeds. rewrite orb_false_r.
    by destruct toggle;
      [destruct (turnOn led (__debugLeds s))|destruct (turnOff led (__debugLeds s))].
  - unfold propertyChanged.
    set (s1 := with_printer _ s).
    assert (built_once bom s1) as H1 by exact H.
    change (__running s) with (__running s1).
    destruct (__running s1) eqn:Hrun.
    + rewrite (handler_running key v s1 Hrun).
      apply (on_main_controller_built bom tt
               (MainLightingController.__onPrinterPropertyChanged key v)) in H1;
        [|apply K15].
      apply (on_button_ring_controller_built bom tt
               (ButtonRingController.__onPrinterPropertyChanged key v)) in H1;
        [|intros hw; by apply (Hring hw)].
      destruct (on_main_controller_fields tt
                  (MainLightingController.__onPrinterPropertyChanged key v) s1)
        as (_ & Hr1 & _).
      destruct (on_button_ring_controller_fields tt
                  (ButtonRingController.__onPrinterPropertyChanged key v)
                  (exec (on_main_controller tt
                     (MainLightingController.__onPrinterPropertyChanged key v)) s1))
        as (_ & Hr2 & _).
      split; [by apply with_detached_built|].
      change (__running (with_detached ?f ?x)) with (__running x).
      by rewrite Hr2, Hr1, Hrun.
    + destruct (handler_built bom key v s1 H1) as [Hb Hr].
      split; [exact Hb|]. by rewrite Hr, Hrun.
Qed.

Lemma run_built bom (events : list Event) (s : self) :
  built_once bom s ->
  built_once bom (run events s) /\
  __running (run events s) = __running s || existsb leaves_booting events.
Proof.
  unfold run. revert s.
  induction events as [|e events IH]; intros s H; simpl.
  - by rewrite orb_false_r.
  - destruct (step_built bom s e H) as [Hb Hr].
    destruct (IH _ Hb) as [Hb' Hr']. split; [exact Hb'|].
    by rewrite Hr', Hr, orb_assoc.
Qed.

Lemma init_built printer bom on_disk (r : R) :
  built_once bom (__init__ printer bom on_disk r) /\
  __running (__init__ printer bom on_disk r)
  = negb (Py.eq_str (state printer) "booting").
Proof.
  unfold __init__, _onPrinterStateChanged.
  set (s0 := mk Q R D _ _ _ _ _ _ _ _ _ _ _).
  assert (built_once bom s0) as H0 by (by repeat split).
  destruct (negb (Py.eq_str (state printer) "booting")).
  - destruct (start_built bom s0 H0) as [Hr Hb]. by split.
  - by split.
Qed.

(** X10. The service starts when the printer is first seen in a state that
    is not booting, at its construction or at a signal, and never stops; it
    builds its controllers at that moment and never again. A service that does
    not run holds no controller. A running one holds the main controller, on
    the main lighting hardware and with its four properties, and the back
    light controller on the back light hardware; it has let go the head slot
    controllers of the slots 0 and 1, each on its own hardware, and nothing
    else but, on a machine that is no UM3, one button ring controller on dummy
    hardware; on a UM3 (BOM 9066 or 9511) it holds the button ring controller,
    on the button ring hardware, and on every other machine none. A later
    start returns at once and changes nothing. *)
Theorem controllers_built_once printer bom on_disk (r : R) (events : list Event) :
  let s := run events (__init__ printer bom on_disk r) in
  let head_slots := [DetachedHeadSlot 0 (HeadSlotHardware 0);
                     DetachedHeadSlot 1 (HeadSlotHardware 1)] in
  __running s = left_booting printer events /\
  machine_bom s = bom /\
  (__running s = false ->
   __main_controller s = None /\ __back_light_controller s = None /\
   __button_ring_controller s = None /\ detached s = []) /\
  (__running s = true ->
   (exists c, __main_controller s = Some c /\
              MainLightingSpec.constructed c = true /\
              on_hardware MainLightingHardware (MainLightingController.base c)) /\
   __back_light_controller s = Some (BackLightController_on BackLightHardware) /\
   (is_um3 bom = true ->
    (exists c, __button_ring_controller s = Some c /\
               on_hardware ButtonRingHardware (ButtonRingController.base c)) /\
    detached s = head_slots) /\
   (is_um3 bom = false ->
    __button_ring_controller s = None /\
    exists c, on_hardware DummyHardware (ButtonRingController.base c) /\
              detached s = DetachedButtonRing c :: head_slots) /\
   __start s = (Ok tt, s) /\
   forall v, _onPrinterStateChanged v s = (Ok tt, s)).
Proof.
  intros s head_slots. destruct (init_built printer bom on_disk r) as [Hb Hr].
  destruct (run_built bom events _ Hb) as [[Hbom Hb'] Hr']. fold s in Hbom, Hb', Hr'.
  split; [by rewrite Hr', Hr|]. split; [exact Hbom|].
  split; intros Hrun; rewrite Hrun in Hb'; [exact Hb'|].
  destruct Hb' as (Hmain & Hback & Hring).
  split; [exact Hmain|]. split; [exact Hback|].
  split; [intros Hum3; by rewrite Hum3 in Hring|].
  split; [intros Hum3; by rewrite Hum3 in Hring|].
  split; [by apply start_running|]. intros v.
  unfold _onPrinterStateChanged.
  destruct (negb (Py.eq_str v "booting")); [|reflexivity].
  by apply start_running.
Qed.

(** *** The controllers follow the printer *)

Lemma on_main_controller_in_sync {A} (default : A) method (s : self) :
  (forall p j, preserves (MainLightingView.sees (Q := Q) (R := R) p j) method) ->
  in_sync s -> in_sync (exec (on_main_controller default method) s).
Proof.
  intros Hm (H1 & H2 & H3).
  destruct (on_main_controller_fields default method s)
    as (Hmain & _ & Hring & _ & Hp & _ & Hdet).
  unfold in_sync. rewrite Hmain, Hring, Hp, Hdet.
  split; [|by split].
  intros c Hc. destruct (__main_controller s) as [c0|]; [|discriminate Hc].
  simpl in Hc. injection Hc as <-. apply Hm. by apply H1.
Qed.

Lemma on_button_ring_controller_in_sync {A} (default : A) method (s : self) :
  (forall printer, preserves (ButtonRingView.sees (Q := Q) printer) method) ->
  in_sync s -> in_sync (exec (on_button_ring_controller default method) s).
Proof.
  intros Hm (H1 & H2 & H3).
  destruct (on_button_ring_controller_fields default method s)
    as (Hring & _ & Hmain & _ & Hp & _ & Hdet).
  unfold in_sync. rewrite Hmain, Hring, Hp, Hdet.
  split; [exact H1|]. split; [|exact H3].
  intros c Hc. destruct (__button_ring_controller s) as [c0|]; [|discriminate Hc].
  simpl in Hc. injection Hc as <-. apply Hm. by apply H2.
Qed.

Lemma start_in_sync (s : self) : in_sync s -> in_sync (exec __start s).
Proof.
  intros (H1 & H2 & H3). unfold exec. destruct (__running s) eqn:Hrun.
  - by rewrite (start_running s Hrun).
  - destruct (start_eq s Hrun) as (main & _ & _ & Hsees & ->). cbn [snd].
    unfold in_sync.
    cbn [__main_controller __button_ring_controller __printer detached].
    split; [intros c [= <-]; exact Hsees|]. split.
    + destruct (is_um3 (machine_bom s)); [|exact H2].
      intros c [= <-]. by repeat split.
    + apply Forall_app. split; [apply Forall_app; split; [exact H3|]|].
      * destruct (is_um3 (machine_bom s)); [constructor|].
        constructor; [|constructor]. by repeat split.
      * by repeat constructor.
Qed.

Lemma signal_detached_sees printer key v (d : Detached Q) :
  detached_sees printer d ->
  detached_sees (printer_set key v printer) (signal_detached key v d).
Proof.
  destruct d as [c|slot hw]; simpl; [apply ButtonRingLife.ring_handler_watches|done].
Qed.

Lemma propertyChanged_in_sync bom key v (s : self) :
  built_once bom s -> in_sync s -> in_sync (propertyChanged key v s).
Proof.
  intros Hb (H1 & H2 & H3). unfold propertyChanged.
  set (s1 := with_printer _ s).
  destruct (__running s1) eqn:Hrun.
  - rewrite (handler_running key v s1 Hrun).
    destruct (on_main_controller_fields tt
                (MainLightingController.__onPrinterPropertyChanged key v) s1)
      as (Hm1 & _ & Hr1 & _ & Hp1 & _ & Hd1).
    destruct (on_button_ring_controller_fields tt
                (ButtonRingController.__onPrinterPropertyChanged key v)
                (exec (on_main_controller tt
                   (MainLightingController.__onPrinterPropertyChanged key v)) s1))
      as (Hr2 & _ & Hm2 & _ & Hp2 & _ & Hd2).
    unfold in_sync, with_detached.
    cbn [__main_controller __button_ring_controller __printer detached].
    rewrite Hm2, Hm1, Hr2, Hr1, Hp2, Hp1, Hd2, Hd1.
    change (__main_controller s1) with (__main_controller s).
    change (__button_ring_controller s1) with (__button_ring_controller s).
    change (detached s1) with (detached s).
    change (__printer s1) with (printer_set key v (__printer s)).
    split; [|split].
    + intros c Hc. destruct (__main_controller s) as [c0|]; [|discriminate Hc].
      simpl in Hc. injection Hc as <-.
      apply MainLightingLife.handler_watches. by apply H1.
    + intros c Hc.
      destruct (__button_ring_controller s) as [c0|]; [|discriminate Hc].
      simpl in Hc. injection Hc as <-.
      apply ButtonRingLife.ring_handler_watches. by apply H2.
    + apply Forall_map. apply (Forall_impl _ _ _ H3). intros d.
      apply signal_detached_sees.
  - destruct Hb as [_ Hn]. change (__running s) with (__running s1) in Hn.
    rewrite Hrun in Hn. destruct Hn as (Hm & _ & Hr & Hd).
    assert (in_sync s1) as Hs1.
    { split; [|split].
      - intros c Hc. change (__main_controller s1) with (__main_controller s) in Hc.
        congruence.
      - intros c Hc.
        change (__button_ring_controller s1) with (__button_ring_controller s) in Hc.
        congruence.
      - change (detached s1) with (detached s). rewrite Hd. constructor. }
    unfold __onPrinterPropertyChanged, _onPrinterStateChanged.
    destruct (String.eqb key "state"); [|exact Hs1].
    destruct (negb (Py.eq_str v "booting")); [|exact Hs1].
    by apply start_in_sync.
Qed.

Lemma step_in_sync bom (s : self) (e : Event) :
  built_once bom s -> in_sync s -> in_sync (step s e).
Proof.
  intros Hb H.
  destruct e; simpl;
    try (apply on_main_controller_in_sync; [intros p j|exact H];
         destruct (MainLightingLife.watching_methods (Q := Q) (R := R) p j)
           as (K1 & K2 & K3 & K4 & K5 & K6 & K7 & K8 & K9 & K10 & K11 & K12
               & K13 & K14 & K15);
         first [done|apply preserves_bind; [done|intros; apply preserves_ret]]);
    try (apply on_button_ring_controller_in_sync; [intros printer|exact H];
         destruct (ButtonRingLife.ring_watching_methods (Q := Q) printer)
           as (K1 & K2 & K3 & K4 & K5 & K6); done).
  - unfold debugLed, exec, on_debugLeds.
    by destruct toggle;
      [destruct (turnOn led (__debugLeds s))|destruct (turnOff led (__debugLeds s))].
  - by apply (propertyChanged_in_sync bom).
Qed.

Lemma step_printer (s : self) (e : Event) :
  __printer (step s e) = printer_after (__printer s) [e].
Proof.
  destruct e; simpl;
    try apply (on_main_controller_fields _ _ s);
    try apply (on_button_ring_controller_fields _ _ s).
  - unfold debugLed, exec, on_debugLeds.
    by destruct toggle;
      [destruct (turnOn led (__debugLeds s))|destruct (turnOff led (__debugLeds s))].
  - unfold propertyChanged.
    set (s1 := with_printer _ s).
    assert (__printer (exec (__onPrinterPropertyChanged key v) s1) = __printer s1)
      as Hhandler.
    { unfold __onPrinterPropertyChanged, _onPrinterStateChanged.
      destruct (String.eqb key "state"); [|reflexivity].
      destruct (negb (Py.eq_str v "booting")); [|reflexivity].
      unfold exec. destruct (__running s1) eqn:Hrun.
      - by rewrite (start_running s1 Hrun).
      - by destruct (start_eq s1 Hrun) as (main & _ & _ & _ & ->). }
    destruct (__running s1) eqn:Hrun; [|exact Hhandler].
    rewrite (handler_running key v s1 Hrun).
    destruct (on_main_controller_fields tt
                (MainLightingController.__onPrinterPropertyChanged key v) s1)
      as (_ & _ & _ & _ & Hp1 & _).
    destruct (on_button_ring_controller_fields tt
                (ButtonRingController.__onPrinterPropertyChanged key v)
                (exec (on_main_controller tt
                   (MainLightingController.__onPrinterPropertyChanged key v)) s1))
      as (_ & _ & _ & _ & Hp2 & _).
    unfold with_detached. cbn [__printer]. by rewrite Hp2, Hp1.
Qed.

Lemma run_in_sync bom (events : list Event) (s : self) :
  built_once bom s -> in_sync s ->
  in_sync (run events s) /\
  __printer (run events s) = printer_after (__printer s) events.
Proof.
  unfold run, printer_after. revert s.
  induction events as [|e events IH]; intros s Hb H; simpl; [done|].
  destruct (IH (step s e) (proj1 (step_built bom s e Hb))
              (step_in_sync bom s e Hb H)) as [Hs Hp].
  split; [exact Hs|]. rewrite Hp. by rewrite step_printer.
Qed.

Lemma init_in_sync printer bom on_disk (r : R) :
  in_sync (__init__ printer bom on_disk r) /\
  __printer (__init__ printer bom on_disk r) = printer.
Proof.
  unfold __init__, _onPrinterStateChanged.
  set (s0 := mk Q R D _ _ _ _ _ _ _ _ _ _ _).
  assert (in_sync s0) as H0.
  { split; [intros c Hc; discriminate Hc|].
    split; [intros c Hc; discriminate Hc|constructor]. }
  destruct (negb (Py.eq_str (state printer) "booting")); [|by split].
  split; [by apply start_in_sync|].
  unfold exec. destruct (__running s0) eqn:Hrun; [discriminate Hrun|].
  by destruct (start_eq s0 Hrun) as (main & _ & _ & _ & ->).
Qed.

(** X11. The controllers follow the printer: at every moment of the life of
    the service, after any calls, signals and timers, the main controller
    holds the state and the job state the printer has, and every button ring
    controller, the one of the service or the one it has let go, holds the
    state, the job state and the interaction flag the printer has. No call
    over the bus changes what a controller knows of the printer. *)
Theorem controllers_follow_printer printer bom on_disk (r : R)
    (events : list Event) :
  let s := run events (__init__ printer bom on_disk r) in
  let now := printer_after printer events in
  __printer s = now /\
  (forall c, __main_controller s = Some c ->
             MainLightingController.__printer_state c = state now /\
             MainLightingController.__job_state c = job_state now) /\
  (forall c, __button_ring_controller s = Some c \/
             In (DetachedButtonRing c) (detached s) ->
             ButtonRingController.__printer_state c = state now /\
             ButtonRingController.__job_state c = job_state now /\
             ButtonRingController.__interaction_required c
             = interaction_required now).
Proof.
  intros s now.
  destruct (init_in_sync printer bom on_disk r) as [H0 Hp0].
  destruct (run_in_sync bom events _ (proj1 (init_built printer bom on_disk r)) H0)
    as [(H1 & H2 & H3) Hp].
  rewrite Hp0 in Hp. fold s in H1, H2, H3, Hp. fold now in Hp.
  rewrite Hp in H1, H2, H3.
  split; [exact Hp|]. split.
  - intros c Hc. by destruct (H1 c Hc) as (_ & Hs & Hj).
  - intros c [Hc|Hin]; [by apply H2|].
    rewrite Forall_forall in H3.
    first [apply list_elem_of_In in Hin|apply elem_of_list_In in Hin].
    exact (H3 _ Hin).
Qed.

(** *** The facade of a running service *)

Lemma with_main_controller_same (s : self) c :
  __main_controller s = Some c -> with_main_controller (Some c) s = s.
Proof. destruct s. simpl. by intros ->. Qed.

(** A running service holds a main controller with its four properties. *)
Lemma running_main printer bom on_disk (r : R) (events : list Event) :
  left_booting printer events = true ->
  exists c,
    __main_controller (run events (__init__ printer bom on_disk r)) = Some c /\
    MainLightingSpec.constructed c = true.
Proof.
  intros Hleft. destruct (init_built printer bom on_disk r) as [Hb Hr].
  destruct (run_built bom events _ Hb) as [[_ Hb'] Hr'].
  rewrite Hr in Hr'. fold (left_booting printer events) in Hr'.
  rewrite Hleft in Hr'. rewrite Hr' in Hb'.
  destruct Hb' as ((c & Hc & Hbuilt & _) & _).
  exists c. by split.
Qed.

Lemma on_main_set_get {A} (default : A) (setter : M _ unit) (getter : M _ A)
    (s : self) c c' a :
  __main_controller s = Some c ->
  setter c = (Ok tt, c') -> getter c' = (Ok a, c') ->
  exists s', on_main_controller tt setter s = (Ok tt, s') /\
             on_main_controller default getter s' = (Ok a, s').
Proof.
  intros Hm Hs Hg. exists (with_main_controller (Some c') s). split.
  - by rewrite (on_main_controller_some _ _ _ _ Hm), Hs.
  - rewrite (on_main_controller_some default getter
               (with_main_controller (Some c') s) c' eq_refl).
    by rewrite Hg.
Qed.

Lemma on_button_ring_set_get {A} (default : A) (setter : M _ unit)
    (getter : M _ A) (s : self) c c' a :
  __button_ring_controller s = Some c ->
  setter c = (Ok tt, c') -> getter c' = (Ok a, c') ->
  exists s', on_button_ring_controller tt setter s = (Ok tt, s') /\
             on_button_ring_controller default getter s' = (Ok a, s').
Proof.
  intros Hm Hs Hg. exists (with_button_ring_controller (Some c') s). split.
  - by rewrite (on_button_ring_controller_some _ _ _ _ Hm), Hs.
  - rewrite (on_button_ring_controller_some default getter
               (with_button_ring_controller (Some c') s) c' eq_refl).
    by rewrite Hg.
Qed.

Lemma on_main_raise {A} (default : A) (method : M _ A) (s : self) c e :
  __main_controller s = Some c ->
  method c = (Raise e, c) -> on_main_controller default method s = (Raise e, s).
Proof.
  intros Hm Hr. rewrite (on_main_controller_some _ _ _ _ Hm), Hr. simpl.
  by rewrite (with_main_controller_same s c Hm).
Qed.

(** X12. On a running service the facade hands each call to the main
    controller: a color attribute that was set is what its getter returns, for
    every float; the user brightness that is returned is the clamp
    [max(0.0, min(b, 100.0))] of the one that was set; a flag of one of the two
    closed sets returns the value that was set; and a flag name outside its set
    raises an assertion error in the setter and in the getter and leaves the
    service as it was. *)
Theorem facade_round_trip printer bom on_disk (r : R) (events : list Event) :
  left_booting printer events = true ->
  let s := run events (__init__ printer bom on_disk r) in
  let mode_flag := Py.contains ["glow_when_print_is_finished"; "on_when_printing";
                                "party"] in
  let runtime_flag := Py.contains ["authenticating"; "message"] in
  (forall x, exists s', setMainLightingHue x s = (Ok tt, s') /\
                        getMainLightingHue s' = (Ok x, s')) /\
  (forall x, exists s', setMainLightingSaturation x s = (Ok tt, s') /\
                        getMainLightingSaturation s' = (Ok x, s')) /\
  (forall x, exists s', setMainLightingBrightness x s = (Ok tt, s') /\
                        getMainLightingBrightness s' = (Ok x, s')) /\
  (forall b, exists s',
      setMainLightingUserBrightness b s = (Ok tt, s') /\
      getMainLightingUserBrightness s' = (Ok (Py.max 0 (Py.min b 100)), s')) /\
  (forall name v, mode_flag name = true ->
                  exists s', setMainLightingModeFlag name v s = (Ok tt, s') /\
                             getMainLightingModeFlag name s' = (Ok v, s')) /\
  (forall name v, runtime_flag name = true ->
                  exists s', setMainLightingRuntimeFlag name v s = (Ok tt, s') /\
                             getMainLightingRuntimeFlag name s' = (Ok v, s')) /\
  (forall name v, mode_flag name = false ->
                  setMainLightingModeFlag name v s = (Raise AssertionError, s) /\
                  getMainLightingModeFlag name s = (Raise AssertionError, s)) /\
  (forall name v, runtime_flag name = false ->
                  setMainLightingRuntimeFlag name v s = (Raise AssertionError, s) /\
                  getMainLightingRuntimeFlag name s = (Raise AssertionError, s)).
Proof.
  intros Hleft s mode_flag runtime_flag.
  destruct (running_main printer bom on_disk r events Hleft) as (c & Hmain & Hc).
  fold s in Hmain.
  assert (forall (f : HsvColor -> HsvColor) (get : HsvColor -> float) x,
             get (f (MainLightingController.__main_color c)) = x ->
             exists s',
               on_main_controller tt
                 (modify (MainLightingController.with_main_color f);;;
                  MainLightingController.__update) s = (Ok tt, s') /\
               on_main_controller 0%float
                 (gets (fun c => get (MainLightingController.__main_color c))) s'
               = (Ok x, s')) as Hcolor.
  { intros f get x Hget.
    destruct (MainLightingLife.set_color_ok f c Hc) as (c' & Hset & Hmc & _).
    apply (on_main_set_get _ _ _ s c c' x Hmain Hset).
    unfold gets. by rewrite Hmc, Hget. }
  split; [intros x; by apply (Hcolor (set_hue x) hue)|].
  split; [intros x; by apply (Hcolor (set_saturation x) saturation)|].
  split; [intros x; by apply (Hcolor (set_value x) value)|].
  split; [|split; [|split; [|split]]].
  - intros b.
    destruct (MainLightingLife.setPropertyValue_ok c "user_brightness"
                (PFloat (Py.max 0 (Py.min b 100))) Hc eq_refl)
      as (c' & Hset & Hv & _).
    apply (on_main_set_get _ _ _ s c c' _ Hmain Hset).
    unfold MainLightingController.getUserBrightness.
    by rewrite (MainLightingProperties.bind_ok _ _ _ _ _
                  (MainLightingProperties.property_get_some _ _ _ Hv)).
  - intros name v Hin.
    destruct (MainLightingLife.setModeFlag_ok c name v Hc Hin)
      as (c' & Hset & Hv & _).
    apply (on_main_set_get _ _ _ s c c' _ Hmain Hset).
    by rewrite (MainLightingProperties.bind_ok _ _ _ _ _
                  (MainLightingProperties.getModeFlag_some _ _ _ Hin Hv)).
  - intros name v Hin.
    destruct (MainLightingLife.setRuntimeFlag_ok c name v Hc Hin)
      as (c' & Hset & Hv & _).
    apply (on_main_set_get _ _ _ s c c' _ Hmain Hset).
    rewrite (MainLightingProperties.getRuntimeFlag_known _ _ Hin).
    unfold MainLightingSpec.runtime_flag. by rewrite Hv.
  - intros name v Hout. split; apply (on_main_raise _ _ s c _ Hmain).
    + unfold MainLightingController.setModeFlag, bind, assert.
      change (Py.contains MainLightingController.__ALL_MODE_FLAGS name)
        with (mode_flag name). by rewrite Hout.
    + unfold MainLightingController.getModeFlag, bind, assert.
      change (Py.contains MainLightingController.__ALL_MODE_FLAGS name)
        with (mode_flag name). by rewrite Hout.
  - intros name v Hout. split; apply (on_main_raise _ _ s c _ Hmain).
    + unfold MainLightingController.setRuntimeFlag, bind, assert.
      change (Py.contains MainLightingController.__ALL_RUNTIME_FLAGS name)
        with (runtime_flag name). by rewrite Hout.
    + unfold MainLightingController.getRuntimeFlag, bind, assert.
      change (Py.contains MainLightingController.__ALL_RUNTIME_FLAGS name)
        with (runtime_flag name). by rewrite Hout.
Qed.

(** X13. On a UM3 the running service holds the button ring controller and
    hands it the calls on the ring: a theme attribute that was set is what its
    getter returns, for every float and whatever the printer does. *)
Theorem um3_ring_facade printer bom on_disk (r : R) (events : list Event) :
  is_um3 bom = true ->
  left_booting printer events = true ->
  let s := run events (__init__ printer bom on_disk r) in
  is_Some (__button_ring_controller s) /\
  (forall x, exists s', setRingLightingHue x s = (Ok tt, s') /\
                        getRingLightingHue s' = (Ok x, s')) /\
  (forall x, exists s', setRingLightingSaturation x s = (Ok tt, s') /\
                        getRingLightingSaturation s' = (Ok x, s')) /\
  (forall x, exists s', setRingLightingBrightness x s = (Ok tt, s') /\
                        getRingLightingBrightness s' = (Ok x, s')).
Proof.
  intros Hum3 Hleft s.
  destruct (init_built printer bom on_disk r) as [Hb Hr].
  destruct (run_built bom events _ Hb) as [[_ Hb'] Hr'].
  rewrite Hr in Hr'. fold (left_booting printer events) in Hr'.
  rewrite Hleft in Hr'. rewrite Hr' in Hb'. destruct Hb' as (_ & _ & Hring).
  rewrite Hum3 in Hring. destruct Hring as [(c & Hc & _) _]. fold s in Hc.
  split; [by exists c|].
  assert (forall (f : HsvColor -> HsvColor) (get : HsvColor -> float) x,
             get (f (ButtonRingController.__customTheme c)) = x ->
             exists s',
               on_button_ring_controller tt
                 (modify (ButtonRingController.with_customTheme f);;;
                  ButtonRingController.__update) s = (Ok tt, s') /\
               on_button_ring_controller 0%float
                 (gets (fun c => get (ButtonRingController.__customTheme c))) s'
               = (Ok x, s')) as Htheme.
  { intros f get x Hget.
    destruct (ButtonRingLife.modify_then_update
                (ButtonRingController.with_customTheme f) c) as [e He].
    apply (on_button_ring_set_get _ _ _ s c _ x Hc He).
    unfold gets. simpl. by rewrite Hget. }
  split; [intros x; by apply (Htheme (set_hue x) hue)|].
  split; [intros x; by apply (Htheme (set_saturation x) saturation)|].
  intros x. by apply (Htheme (set_value x) value).
Qed.

(** *** No call over the bus raises *)

Lemma on_main_controller_returns {A} (default : A) method (s : self) :
  main_constructed s ->
  (forall c, MainLightingSpec.constructed c = true -> returns method c) ->
  returns (on_main_controller default method) s.
Proof.
  intros Hs Hm. unfold returns, on_main_controller.
  destruct (__main_controller s) as [c|] eqn:Hmain; [|by eexists].
  destruct (Hm c (Hs c Hmain)) as [a Ha]. exists a.
  destruct (method c) as [r c']. exact Ha.
Qed.

Lemma on_button_ring_controller_returns {A} (default : A) method (s : self) :
  (forall c, returns method c) ->
  returns (on_button_ring_controller default method) s.
Proof.
  intros Hm. unfold returns, on_button_ring_controller.
  destruct (__button_ring_controller s) as [c|]; [|by eexists].
  destruct (Hm c) as [a Ha]. exists a. destruct (method c) as [r c']. exact Ha.
Qed.

(** X14. No call over the bus on the lighting raises, at any moment of the
    life of the service, whether it has started or not: every setter and
    getter of the main and of the ring lighting, blink and reset return,
    whatever their arguments and whatever was stored, set or signalled before;
    the four flag methods return for every name of their closed set. (The
    debug leds are left out: what their hardware object does is not known.) *)
Theorem bus_calls_return printer bom on_disk (r : R) (events : list Event) :
  let s := run events (__init__ printer bom on_disk r) in
  let mode_flag := Py.contains ["glow_when_print_is_finished"; "on_when_printing";
                                "party"] in
  let runtime_flag := Py.contains ["authenticating"; "message"] in
  (forall reset_type, returns (resetSettings reset_type) s) /\
  (forall x, returns (setMainLightingHue x) s) /\
  (forall x, returns (setMainLightingSaturation x) s) /\
  (forall x, returns (setMainLightingBrightness x) s) /\
  returns getMainLightingHue s /\
  returns getMainLightingSaturation s /\
  returns getMainLightingBrightness s /\
  (forall x, returns (setMainLightingUserBrightness x) s) /\
  returns getMainLightingUserBrightness s /\
  (forall name v, mode_flag name = true ->
                  returns (setMainLightingModeFlag name v) s) /\
  (forall name, mode_flag name = true -> returns (getMainLightingModeFlag name) s) /\
  (forall name v, runtime_flag name = true ->
                  returns (setMainLightingRuntimeFlag name v) s) /\
  (forall name, runtime_flag name = true ->
                returns (getMainLightingRuntimeFlag name) s) /\
  (forall frequency count, returns (blinkMainLighting frequency count) s) /\
  (forall x, returns (setRingLightingHue x) s) /\
  (forall x, returns (setRingLightingSaturation x) s) /\
  (forall x, returns (setRingLightingBrightness x) s) /\
  returns getRingLightingHue s /\
  returns getRingLightingSaturation s /\
  returns getRingLightingBrightness s.
Proof.
  intros s mode_flag runtime_flag.
  pose proof (LedServiceProperties.reachable_main_constructed
                printer bom on_disk r events) as Hs. fold s in Hs.
  assert (forall f c, returns (modify (ButtonRingController.with_customTheme f);;;
                               ButtonRingController.__update (Q := Q)) c) as Hring.
  { intros f c. destruct (ButtonRingLife.modify_then_update
                            (ButtonRingController.with_customTheme f) c) as [e He].
    exists tt. by rewrite He. }
  repeat match goal with |- _ /\ _ => split end; intros;
    try (apply on_button_ring_controller_returns; intros c;
         first [apply Hring|by eexists]);
    try (apply on_main_controller_returns; [exact Hs|]; intros c Hc;
         destruct (MainLightingLife.methods_return c Hc)
           as (K1 & K2 & K3 & K4 & K5 & K6 & K7 & K8 & K9 & K10 & K11 & K12
               & K13 & K14 & K15 & K16)).
  - exact K1.
  - apply K2.
  - apply K3.
  - apply K4.
  - exact K5.
  - exact K6.
  - exact K7.
  - apply K8.
  - destruct K9 as [v Hv]. exists (prop_float v). unfold bind.
    destruct (MainLightingController.getUserBrightness c) as [res c'].
    simpl in Hv. by rewrite Hv.
  - by apply K10.
  - destruct (K11 name) as [v Hv]; [done|]. exists (prop_truthy v). unfold bind.
    destruct (MainLightingController.getModeFlag name c) as [res c'].
    simpl in Hv. by rewrite Hv.
  - by apply K12.
  - by apply K13.
  - apply K14.
Qed.

End Properties.

#[local] Existing Instance SampleTheme.theme.
#[local] Existing Instance SpecScheduler.scheduler.
#[local] Existing Instance CoinRandom.random.
#[local] Existing Instance SampleDebugLeds.hardware.

(** On the sample scheduler the base object records its hardware, and a
    controller built on a hardware holds it. *)
Lemma on_hardware_recorded hw (q : SpecScheduler.t) :
  on_hardware hw q -> SpecScheduler.hardware q = hw.
Proof.
  intros [l ->]. induction l as [|e l IH] using rev_ind; [reflexivity|].
  rewrite fold_left_app. exact IH.
Qed.

(** The machine that is no UM3 has let go one ring controller on dummy
    hardware and the two head slot controllers. *)
Example other_machine_detached :
  exists c,
    detached other_machine
    = [DetachedButtonRing c; DetachedHeadSlot 0 (HeadSlotHardware 0);
       DetachedHeadSlot 1 (HeadSlotHardware 1)] /\
    SpecScheduler.hardware (ButtonRingController.base c) = DummyHardware.
Proof. eexists. split; by vm_compute. Qed.

Lemma facade_round_trip_witness :
  left_booting (mkPrinter (Py.VStr "booting") (Py.VStr "none") (Py.VBool false))
    [Signal_propertyChanged "state" (Py.VStr "idle")] = true /\
  exists s',
    setMainLightingUserBrightness 150
      (run [Signal_propertyChanged "state" (Py.VStr "idle")]
         (__init__ (mkPrinter (Py.VStr "booting") (Py.VStr "none") (Py.VBool false))
            (Py.VInt 213482) ∅ [true; false])) = (Ok tt, s') /\
    getMainLightingUserBrightness s' = (Ok (Py.max 0 (Py.min 150 100)), s').
Proof.
  split; [reflexivity|].
  destruct (facade_round_trip
              (mkPrinter (Py.VStr "booting") (Py.VStr "none") (Py.VBool false))
              (Py.VInt 213482) ∅ [true; false]
              [Signal_propertyChanged "state" (Py.VStr "idle")] eq_refl)
    as (_ & _ & _ & Hub & _).
  exact (Hub 150%float).
Defined.

Lemma um3_ring_facade_witness :
  is_um3 (Py.VInt 9066) = true /\
  left_booting (mkPrinter (Py.VStr "error") (Py.VStr "none") (Py.VBool false)) []
  = true /\
  exists s',
    setRingLightingHue 120
      (run [] (__init__ (mkPrinter (Py.VStr "error") (Py.VStr "none") (Py.VBool false))
                 (Py.VInt 9066) ∅ [true; false])) = (Ok tt, s') /\
    getRingLightingHue s' = (Ok 120%float, s').
Proof.
  assert (is_um3 (Py.VInt 9066) = true) as Hum3 by (vm_compute; reflexivity).
  split; [exact Hum3|]. split; [reflexivity|].
  destruct (um3_ring_facade
              (mkPrinter (Py.VStr "error") (Py.VStr "none") (Py.VBool false))
              (Py.VInt 9066) ∅ [true; false] [] Hum3 eq_refl)
    as (_ & Hhue & _).
  exact (Hhue 120%float).
Defined.

End ServiceLife.
